(** * Smart Manager: a shallow embedding of the DCS core and of its backends

    The development follows the C sources file by file.  Every C function
    that is modelled keeps its name; the module it lives in is named after
    the source file.  Machine integers are [Z] with the wrap-around of the
    C type written out, pointers into [all_channels] are array indices,
    [NULL] is [None], and every way in which the C program can leave its
    defined behaviour (a null dereference, a division by zero, a signed
    overflow, a read past a buffer) or terminate through [MMSM_ASSERT] is a
    [fault] of the [result] monad. *)

From stdpp Require Import base list numbers strings.
From Stdlib Require Import ZArith Lia Ascii Sorted.
From Equations Require Import Equations.
From Stdlib Require String.
Local Open Scope Z_scope.
Set Warnings "-register-all".

(* ================================================================== *)
(** * Part I: the embedding                                            *)
(* ================================================================== *)

(** ** The C machine: faults, integer types *)

Inductive fault :=
  | NullDeref        (* dereference of NULL *)
  | DivByZero        (* integer division or remainder by zero *)
  | SignedOverflow   (* overflow of a signed int operation *)
  | OutOfBounds      (* access outside an object, or of an indeterminate value *)
  | AssertFailed.    (* MMSM_ASSERT: mmsm_assert_failed calls exit(1) *)

Inductive result (A : Type) :=
  | Ok (a : A)
  | Err (f : fault).
Arguments Ok {A} a.
Arguments Err {A} f.

Global Instance result_ret : MRet result := @Ok.
Global Instance result_bind : MBind result :=
  λ A B k m, match m with Ok a => k a | Err e => Err e end.

Definition is_ok {A} (r : result A) : Prop := ∃ a, r = Ok a.

Module C.

Definition u8  (z : Z) : Z := z mod 2^8.
Definition u16 (z : Z) : Z := z mod 2^16.
Definition u32 (z : Z) : Z := z mod 2^32.
Definition u64 (z : Z) : Z := z mod 2^64.

Definition INT_MAX : Z := 2^31 - 1.
Definition INT_MIN : Z := - 2^31.

(** Conversion of a [uint32_t] value to [int32_t] (two's complement). *)
Definition to_i32 (z : Z) : Z :=
  let w := u32 z in if w <? 2^31 then w else w - 2^32.

(** [abs] from <stdlib.h>; [abs(INT_MIN)] is undefined. *)
Definition abs (x : Z) : result Z :=
  if x =? INT_MIN then Err SignedOverflow else Ok (Z.abs x).

(** [x++] on an [int]. *)
Definition int_incr (x : Z) : result Z :=
  if x <? INT_MAX then Ok (x + 1) else Err SignedOverflow.

(** [a * b] on [int]. *)
Definition int_mul (a b : Z) : result Z :=
  let p := a * b in
  if (INT_MIN <=? p) && (p <=? INT_MAX) then Ok p else Err SignedOverflow.

(** [a % b] on [int]: truncating remainder. *)
Definition int_rem (a b : Z) : result Z :=
  if b =? 0 then Err DivByZero
  else if (a =? INT_MIN) && (b =? -1) then Err SignedOverflow
  else Ok (Z.rem a b).

(** A string literal, as the characters before its NUL. *)
Definition text (s : string) : list ascii := String.list_ascii_of_string s.

(** errno values of <errno.h> on Linux. *)
Definition EPROTO    : Z := 71.
Definition ENODATA   : Z := 61.
Definition EBADR     : Z := 53.
Definition ETIMEDOUT : Z := 110.

End C.

(** ** logging.h: the run-time log level guards the evaluation of the
    arguments of a LOG_* macro. *)
Module Logging.
Definition LOG_LEVEL_NONE  : Z := 0.
Definition LOG_LEVEL_ERROR : Z := 1.
Definition LOG_LEVEL_WARN  : Z := 2.
Definition LOG_LEVEL_INFO  : Z := 3.
Definition LOG_LEVEL_DEBUG : Z := 4.

(** [LOG_VAR(level, mmsm_get_log_level(), args)]: [args] is evaluated
    only when the current level admits [level]. *)
Definition LOG_VAR (level debug_level : Z) (args : result unit) : result unit :=
  if level <=? debug_level then args else Ok tt.
End Logging.

(** ** include/mmsm_data.h *)
Module MmsmData.

Definition NUL : ascii := Ascii.zero.

(** The key of a data item: the tag [type] selects the member of the
    union [d]. *)
Inductive mmsm_key_t :=
  | KeyU32 (u32 : Z)
  | KeyString (s : list ascii).

(** [mmsm_data_item_t].  A pointer to an item is the sibling chain that
    starts there: a list, [NULL] being [[]]; [mmsm_next] is the tail of
    the list that holds the item.  [mmsm_value] is [NULL] or a buffer;
    the buffer of a text value ends with its NUL. *)
Inductive mmsm_data_item_t := Item {
  mmsm_key        : mmsm_key_t;
  mmsm_value      : option (list ascii);
  mmsm_value_len  : Z;
  mmsm_sub_values : list mmsm_data_item_t;
}.

(** [calloc] of one item: every member zero, so the key is the
    integer 0 (MMSM_KEY_TYPE_U32 is the first enumerator). *)
Definition mmsm_data_item_alloc : mmsm_data_item_t :=
  {| mmsm_key := KeyU32 0; mmsm_value := None; mmsm_value_len := 0;
     mmsm_sub_values := [] |}.

Definition mmsm_data_item_set_key_u32 (item : mmsm_data_item_t) (key : Z) :=
  {| mmsm_key := KeyU32 (C.u32 key); mmsm_value := mmsm_value item;
     mmsm_value_len := mmsm_value_len item;
     mmsm_sub_values := mmsm_sub_values item |}.

Definition mmsm_data_item_set_key_str (item : mmsm_data_item_t) (str : list ascii) :=
  {| mmsm_key := KeyString str; mmsm_value := mmsm_value item;
     mmsm_value_len := mmsm_value_len item;
     mmsm_sub_values := mmsm_sub_values item |}.

(** [mmsm_value = strdup(str); mmsm_value_len = strlen(str) + 1]. *)
Definition mmsm_data_item_set_val_string (item : mmsm_data_item_t) (str : list ascii) :=
  {| mmsm_key := mmsm_key item; mmsm_value := Some (str ++ [NUL]);
     mmsm_value_len := Z.of_nat (length str) + 1;
     mmsm_sub_values := mmsm_sub_values item |}.

(** Direct assignment of [mmsm_value] and [mmsm_value_len]. *)
Definition set_value (item : mmsm_data_item_t) (v : option (list ascii)) (len : Z) :=
  {| mmsm_key := mmsm_key item; mmsm_value := v; mmsm_value_len := len;
     mmsm_sub_values := mmsm_sub_values item |}.

(** The C string at the start of a buffer: the characters before the
    first NUL.  A buffer without NUL is read past its end. *)
Fixpoint read_cstring (buf : list ascii) : result (list ascii) :=
  match buf with
  | [] => Err OutOfBounds
  | c :: buf' =>
      if decide (c = NUL) then Ok []
      else s ← read_cstring buf'; Ok (c :: s)
  end.

End MmsmData.

(** ** engine/helpers.c *)
Module Helpers.
Import MmsmData.

(** The result is [head->mmsm_value] of the first sibling with that
    string key: [NULL] when there is none, and also when the item has no
    value. *)
Fixpoint mmsm_find_value_by_key (head : list mmsm_data_item_t) (key : list ascii)
  : option (list ascii) :=
  match head with
  | [] => None
  | item :: next =>
      match mmsm_key item with
      | KeyString s =>
          if decide (s = key) then mmsm_value item
          else mmsm_find_value_by_key next key
      | KeyU32 _ => mmsm_find_value_by_key next key
      end
  end.

(** [needle] is found at the very start of [haystack]. *)
Fixpoint starts_with (needle haystack : list ascii) : bool :=
  match needle, haystack with
  | [], _ => true
  | _ :: _, [] => false
  | a :: needle', b :: haystack' =>
      if decide (a = b) then starts_with needle' haystack' else false
  end.

(** [strstr(haystack, needle) != NULL]. *)
Fixpoint strstr (haystack needle : list ascii) : bool :=
  starts_with needle haystack ||
  match haystack with
  | [] => false
  | _ :: haystack' => strstr haystack' needle
  end.

(** [wrapped_flag] has 1024 bytes; the closing bracket and the NUL are
    stored at [strlen(flag) + 1] and [strlen(flag) + 2]. *)
Definition mmsm_is_flag_set_in (res : list mmsm_data_item_t)
    (key flag : list ascii) : result bool :=
  let value := mmsm_find_value_by_key res key in
  if 1024 <=? Z.of_nat (length flag) + 2 then Err OutOfBounds
  else
    let wrapped_flag := C.text "[" ++ flag ++ C.text "]" in
    match value with
    | None => Err NullDeref                       (* strstr(NULL, ...) *)
    | Some buf =>
        haystack ← read_cstring buf;
        Ok (strstr haystack wrapped_flag)
    end.

End Helpers.

(** ** backend/hostapd_ctrl.c *)
Module HostapdCtrl.
Import MmsmData.

Definition newline : ascii := "010"%char.

Definition is_delimiter (delim : list ascii) (c : ascii) : bool :=
  bool_decide (c ∈ delim).

(** [s + strspn(s, delim)]. *)
Fixpoint skip_delimiters (delim s : list ascii) : list ascii :=
  match s with
  | [] => []
  | c :: s' => if is_delimiter delim c then skip_delimiters delim s' else s
  end.

(** The token at the start of [s] and, when a delimiter ends it, the
    string after that delimiter. *)
Fixpoint scan_token (delim s : list ascii) : list ascii * option (list ascii) :=
  match s with
  | [] => ([], None)
  | c :: s' =>
      if is_delimiter delim c then ([], Some s')
      else let '(t, r) := scan_token delim s' in (c :: t, r)
  end.

(** [strtok_r(s, delim, &save_ptr)] on the string [s]; [beyond] is the
    memory that follows the NUL of [s].  The result is [None] for a null
    token, or the token, the string [save_ptr] points to afterwards, and
    the memory that follows the NUL of the token: when a delimiter ended
    the token it has been overwritten with NUL and the rest of [s]
    follows. *)
Definition strtok_r (s delim beyond : list ascii)
  : option (list ascii * list ascii * list ascii) :=
  match skip_delimiters delim s with
  | [] => None
  | s1 =>
      match scan_token delim s1 with
      | (token, Some rest) => Some (token, rest, rest ++ NUL :: beyond)
      | (token, None) => Some (token, [], beyond)
      end
  end.

(** The memory after the first [c] in [mem]. *)
Fixpoint after_char (c : ascii) (mem : list ascii) : option (list ascii) :=
  match mem with
  | [] => None
  | x :: mem' => if decide (x = c) then Some mem' else after_char c mem'
  end.

(** [while ( *token != '>') token++; token++;] and the string then at
    [token].  The loop does not stop at the NUL of the token. *)
Definition skip_tag (token after : list ascii) : result (list ascii) :=
  match after_char ">"%char (token ++ NUL :: after) with
  | Some mem => read_cstring mem
  | None => Err OutOfBounds
  end.

(** [parse_item(line, item)]: the return value and the item as it is
    left. *)
Definition parse_item (line beyond : list ascii) (item : mmsm_data_item_t)
  : result (Z * mmsm_data_item_t) :=
  match strtok_r line (C.text "= ") beyond with
  | Some (token, save_ptr, after) =>
      key ← match token with
            | c :: _ => if decide (c = "<"%char) then skip_tag token after else Ok token
            | [] => Ok token
            end;
      let item := mmsm_data_item_set_key_str item key in
      match strtok_r save_ptr (C.text "=") beyond with
      | Some (token, _, _) => Ok (0, mmsm_data_item_set_val_string item token)
      | None => Ok (0, item)
      end
  | None => Ok (1, item)
  end.

Definition inspect {A} (a : A) : {b | a = b} := exist _ a eq_refl.

Lemma skip_delimiters_length delim s :
  (length (skip_delimiters delim s) ≤ length s)%nat.
Proof.
  induction s as [|c s IH]; cbn; [lia|].
  destruct (is_delimiter delim c); cbn; lia.
Qed.

Lemma scan_token_length delim s t r :
  scan_token delim s = (t, Some r) → (length r < length s)%nat.
Proof.
  revert t r. induction s as [|c s IH]; cbn; intros t r; [discriminate|].
  destruct (is_delimiter delim c); [intros [= ? ?]; subst; lia|].
  destruct (scan_token delim s) as [t' r'] eqn:E.
  intros [= ? ?]; subst. specialize (IH _ _ eq_refl). lia.
Qed.

Lemma strtok_r_length s delim beyond token save_ptr after :
  strtok_r s delim beyond = Some (token, save_ptr, after) →
  (length save_ptr < length s)%nat.
Proof.
  unfold strtok_r. pose proof (skip_delimiters_length delim s) as Hs.
  destruct (skip_delimiters delim s) as [|c s1] eqn:E; [discriminate|].
  destruct (scan_token delim (c :: s1)) as [t [r|]] eqn:E2; intros [= ? ? ?]; subst.
  - apply scan_token_length in E2. lia.
  - cbn in *. lia.
Qed.

(** The [while (token != NULL)] loop of [parse_output], [s] being the
    string at [save_ptr]: [None] when a [parse_item] fails and the
    function returns [NULL], otherwise the items of the remaining
    lines. *)
Equations parse_output_loop (s : list ascii) : result (option (list mmsm_data_item_t))
  by wf (length s) lt :=
parse_output_loop s with inspect (strtok_r s [newline] []) := {
  | exist _ None _ => Ok (Some [])
  | exist _ (Some (token, save_ptr, after)) E =>
      match parse_item token after mmsm_data_item_alloc with
      | Err f => Err f
      | Ok (ret, item) =>
          if ret =? 0 then
            match parse_output_loop save_ptr with
            | Ok (Some items) => Ok (Some (item :: items))
            | r => r
            end
          else Ok None
      end }.
Next Obligation. eapply strtok_r_length; eauto. Qed.

(** [parse_output(buf)]: the head of the sibling chain, [[]] for
    [NULL]. *)
Definition parse_output (buf : list ascii) : result (list mmsm_data_item_t) :=
  r ← parse_output_loop buf;
  Ok (default [] r).

End HostapdCtrl.

(** ** backend/nl80211.c *)
Module Nl80211.
Import MmsmData.

(** The attribute types of libnl's <netlink/attr.h>. *)
Definition NLA_UNSPEC : Z := 0.
Definition NLA_U8     : Z := 1.
Definition NLA_U16    : Z := 2.
Definition NLA_U32    : Z := 3.
Definition NLA_U64    : Z := 4.
Definition NLA_STRING : Z := 5.
Definition NLA_FLAG   : Z := 6.
Definition NLA_BINARY : Z := 11.

(** An argument of the variadic call as the callee fetches it:
    [va_arg(args, int)] (or [uint32_t]), [va_arg(args, char * )] of a
    string, and [va_arg(args, char * )] of a byte buffer. *)
Inductive va_arg_t :=
  | VaInt (z : Z)
  | VaString (s : list ascii)
  | VaBuffer (bytes : list ascii).

(** The object representation of an unsigned integer of [size] bytes
    (little-endian). *)
Fixpoint bytes_of (size : nat) (z : Z) : list ascii :=
  match size with
  | O => []
  | S size' => ascii_of_N (Z.to_N (z mod 256)) :: bytes_of size' (z / 256)
  end.

(** [PACK_VA_ARG(dest, type)] once the [int] has been fetched:
    [type value = (type)v], copied into a fresh buffer of
    [sizeof(type)] bytes. *)
Definition PACK_VA_ARG (dest : mmsm_data_item_t) (size : nat) (v : Z) : mmsm_data_item_t :=
  set_value dest (Some (bytes_of size (v mod 2 ^ (8 * Z.of_nat size)))) (Z.of_nat size).

(** The [while (attr_id != -1)] loop of
    [backend_nl80211_process_request_args], from the fetch of [attr_id]
    on: [None] when the function frees the tree and returns [NULL],
    otherwise the attribute items.  Fetching past the end of the
    arguments, or an argument of another type, is undefined. *)
Fixpoint process_attrs (args : list va_arg_t) : result (option (list mmsm_data_item_t)) :=
  match args with
  | VaInt attr_id :: args1 =>
      if attr_id =? -1 then Ok (Some [])
      else
        let cur := mmsm_data_item_set_key_u32 mmsm_data_item_alloc attr_id in
        match args1 with
        | VaInt type :: args2 =>
            if (type =? NLA_U8) || (type =? NLA_U16) || (type =? NLA_U32) || (type =? NLA_U64)
            then
              let size := if type =? NLA_U8 then 1%nat
                          else if type =? NLA_U16 then 2%nat
                          else if type =? NLA_U32 then 4%nat else 8%nat in
              match args2 with
              | VaInt v :: args3 =>
                  rest ← process_attrs args3;
                  Ok (option_map (cons (PACK_VA_ARG cur size v)) rest)
              | _ => Err OutOfBounds
              end
            else if type =? NLA_STRING then
              match args2 with
              | VaString str :: args3 =>
                  rest ← process_attrs args3;
                  Ok (option_map (cons (mmsm_data_item_set_val_string cur str)) rest)
              | _ => Err OutOfBounds
              end
            else if type =? NLA_BINARY then
              match args2 with
              | VaInt len :: VaBuffer bytes :: args3 =>
                  if (0 <=? len) && (len <=? Z.of_nat (length bytes)) then
                    rest ← process_attrs args3;
                    Ok (option_map (cons (set_value cur (Some (take (Z.to_nat len) bytes)) len)) rest)
                  else Err OutOfBounds
              | _ => Err OutOfBounds
              end
            else
              (* case NLA_FLAG: default: mmsm_data_item_free(arg); return NULL; *)
              Ok None
        | _ => Err OutOfBounds
        end
  | _ => Err OutOfBounds
  end.

(** The request tree, [[]] for [NULL]. *)
Definition backend_nl80211_process_request_args (args : list va_arg_t)
  : result (list mmsm_data_item_t) :=
  match args with
  | VaInt cmd :: VaInt flags :: args' =>
      let arg := PACK_VA_ARG (mmsm_data_item_set_key_u32 mmsm_data_item_alloc cmd) 2 flags in
      attrs ← process_attrs args';
      match attrs with
      | Some items => Ok (arg :: items)
      | None => Ok []
      end
  | _ => Err OutOfBounds
  end.

End Nl80211.

(** ** modules/dcs/dcs.h *)
Module DcsH.

(** Modelled from the spec: struct morse_cmd_channel_info of
    morse_commands.h, which is not among the sources.  The spec gives a
    channel as frequency (kHz), bandwidth (MHz) and S1G channel number;
    dcs.c reads frequency_khz into [uint32_t] and bandwidth_mhz into
    [uint8_t]. *)
Record morse_cmd_channel_info := {
  frequency_khz : Z;   (* uint32_t *)
  bandwidth_mhz : Z;   (* uint8_t *)
  channel_s1g   : Z;   (* uint8_t *)
}.

Record channel_measurement := {
  metric_of      : Z;  (* uint8_t metric *)
  noise          : Z;  (* int8_t *)
  time_listen_us : Z;  (* uint64_t *)
  time_rx_us     : Z;  (* uint64_t *)
}.

Record channel_metric := {
  accumulated_score : Z;  (* uint32_t *)
  n_samples         : Z;  (* int *)
  rounds_as_best    : Z;  (* int *)
}.

(** The intrusive [list] member is represented by the position of the
    channel's address in [scan_list] below. *)
Record dcs_channel := {
  ch     : morse_cmd_channel_info;
  metric : channel_metric;
}.

(** A [struct dcs_channel *]: [NULL], or the address of
    [all_channels[i]]. *)
Definition chan_ptr := option nat.

(** [struct dcs].  [A] is the type behind the opaque [algo.context]
    pointer.  Backend handles, threads, mutexes and condition variables
    carry no data of their own and are left to the functions that use
    them. *)
Record dcs {A : Type} := {
  all_channels               : list dcs_channel;
  current_channel            : chan_ptr;
  current_primary_ch_width   : Z;      (* int *)
  current_prim_1mhz_ch_index : Z;      (* int *)
  current_5g_freq            : Z;      (* uint32_t *)
  dtim_period                : Z;      (* uint8_t *)
  beacon_interval            : Z;      (* uint16_t *)
  scan_list                  : list nat;   (* scan.list, head to tail *)
  algo_context               : option A;   (* algo.context *)
  csa_in_progress            : bool;
  csa_freq_5g                : Z;      (* uint32_t *)
  config_dtims_for_csa       : Z;      (* int *)
  config_csa_enabled         : bool;
}.
Arguments dcs : clear implicits.

Section Update.
Context {A : Type}.
Implicit Type ctx : dcs A.

Definition set_all_channels ctx (l : list dcs_channel) : dcs A :=
  {| all_channels := l;
     current_channel := current_channel ctx;
     current_primary_ch_width := current_primary_ch_width ctx;
     current_prim_1mhz_ch_index := current_prim_1mhz_ch_index ctx;
     current_5g_freq := current_5g_freq ctx;
     dtim_period := dtim_period ctx;
     beacon_interval := beacon_interval ctx;
     scan_list := scan_list ctx;
     algo_context := algo_context ctx;
     csa_in_progress := csa_in_progress ctx;
     csa_freq_5g := csa_freq_5g ctx;
     config_dtims_for_csa := config_dtims_for_csa ctx;
     config_csa_enabled := config_csa_enabled ctx |}.

Definition set_scan_list ctx (l : list nat) : dcs A :=
  {| all_channels := all_channels ctx;
     current_channel := current_channel ctx;
     current_primary_ch_width := current_primary_ch_width ctx;
     current_prim_1mhz_ch_index := current_prim_1mhz_ch_index ctx;
     current_5g_freq := current_5g_freq ctx;
     dtim_period := dtim_period ctx;
     beacon_interval := beacon_interval ctx;
     scan_list := l;
     algo_context := algo_context ctx;
     csa_in_progress := csa_in_progress ctx;
     csa_freq_5g := csa_freq_5g ctx;
     config_dtims_for_csa := config_dtims_for_csa ctx;
     config_csa_enabled := config_csa_enabled ctx |}.

Definition set_algo_context ctx (a : option A) : dcs A :=
  {| all_channels := all_channels ctx;
     current_channel := current_channel ctx;
     current_primary_ch_width := current_primary_ch_width ctx;
     current_prim_1mhz_ch_index := current_prim_1mhz_ch_index ctx;
     current_5g_freq := current_5g_freq ctx;
     dtim_period := dtim_period ctx;
     beacon_interval := beacon_interval ctx;
     scan_list := scan_list ctx;
     algo_context := a;
     csa_in_progress := csa_in_progress ctx;
     csa_freq_5g := csa_freq_5g ctx;
     config_dtims_for_csa := config_dtims_for_csa ctx;
     config_csa_enabled := config_csa_enabled ctx |}.

Definition set_csa ctx (in_progress : bool) (freq_5g : Z) : dcs A :=
  {| all_channels := all_channels ctx;
     current_channel := current_channel ctx;
     current_primary_ch_width := current_primary_ch_width ctx;
     current_prim_1mhz_ch_index := current_prim_1mhz_ch_index ctx;
     current_5g_freq := current_5g_freq ctx;
     dtim_period := dtim_period ctx;
     beacon_interval := beacon_interval ctx;
     scan_list := scan_list ctx;
     algo_context := algo_context ctx;
     csa_in_progress := in_progress;
     csa_freq_5g := freq_5g;
     config_dtims_for_csa := config_dtims_for_csa ctx;
     config_csa_enabled := config_csa_enabled ctx |}.

(** [*p] for [p : struct dcs_channel *]. *)
Definition deref ctx (p : chan_ptr) : result dcs_channel :=
  match p with
  | None => Err NullDeref
  | Some i =>
      match all_channels ctx !! i with
      | Some c => Ok c
      | None => Err OutOfBounds
      end
  end.

(** [p->metric = m]. *)
Definition store_metric ctx (p : chan_ptr) (m : channel_metric) : result (dcs A) :=
  c ← deref ctx p;
  match p with
  | Some i =>
      Ok (set_all_channels ctx
            (<[i := {| ch := ch c; metric := m |}]> (all_channels ctx)))
  | None => Err NullDeref
  end.

(** [context->algo.context], dereferenced. *)
Definition algo_private ctx : result A :=
  match algo_context ctx with
  | Some a => Ok a
  | None => Err NullDeref
  end.
End Update.
Arguments deref : simpl never.
Arguments store_metric : simpl never.

Definition score (c : dcs_channel) : Z := accumulated_score (metric c).
Definition freq (c : dcs_channel) : Z := frequency_khz (ch c).

End DcsH.

(** ** modules/dcs/dcs_test.c *)
Module DcsTest.
Import DcsH.

(** [struct channel_measurement_list_per_ch]: the channel and the list
    of its samples, head first. *)
Record channel_measurement_list_per_ch := {
  per_ch_info : morse_cmd_channel_info;
  channel_sample_list : list channel_measurement;
}.

(** The [list_for_each_entry] loop of [pop_channel_measurement]: the
    measurement found and the list of frequencies as the loop leaves
    it. *)
Fixpoint pop_loop (pos : list channel_measurement_list_per_ch) (freq_khz : Z)
  : result (option channel_measurement * list channel_measurement_list_per_ch) :=
  match pos with
  | [] => Ok (None, [])
  | per_ch :: pos' =>
      if frequency_khz (per_ch_info per_ch) =? freq_khz then
        match channel_sample_list per_ch with
        | [] => Err NullDeref     (* list_get_first_item is NULL on an empty list *)
        | sample :: samples =>
            match samples with
            | [] => Ok (Some sample, pos')         (* list_remove(&per_ch->list) *)
            | _ :: _ =>
                Ok (Some sample,
                    {| per_ch_info := per_ch_info per_ch;
                       channel_sample_list := samples |} :: pos')
            end
        end
      else
        '(meas, rest) ← pop_loop pos' freq_khz;
        Ok (meas, per_ch :: rest)
  end.

(** [pop_channel_measurement(per_ch_list, freq_khz)]: the measurement
    returned ([None] for [NULL]), the list afterwards, and whether
    [mmsm_halt()] was called. *)
Definition pop_channel_measurement (per_ch_list : list channel_measurement_list_per_ch)
    (freq_khz : Z)
  : result (option channel_measurement * list channel_measurement_list_per_ch * bool) :=
  '(meas, per_ch_list') ← pop_loop per_ch_list freq_khz;
  Ok (meas, per_ch_list', bool_decide (per_ch_list' = [])).

(** Successive measurement requests of the replay source, one frequency
    each: what every request returned and whether it signalled the
    halt. *)
Fixpoint replay (per_ch_list : list channel_measurement_list_per_ch) (requests : list Z)
  : result (list (option channel_measurement * bool)) :=
  match requests with
  | [] => Ok []
  | freq_khz :: requests' =>
      '(meas, per_ch_list', halt) ← pop_channel_measurement per_ch_list freq_khz;
      outcomes ← replay per_ch_list' requests';
      Ok ((meas, halt) :: outcomes)
  end.

End DcsTest.

(** ** modules/dcs/algo.h and modules/dcs/algo.c *)
Module Algo.
Import DcsH.

Section WithContext.
Context {A : Type}.
Implicit Type ctx : dcs A.

(** One iteration of the body of [list_for_each_entry] in
    [dcs_algo_get_channel_with_highest_score]: [best] on entry,
    [next] the list item, [best] on exit. *)
Definition highest_score_step ctx (best : chan_ptr) (next : nat) : result chan_ptr :=
  match best with
  | None => Ok (Some next)
  | Some _ =>
      n ← deref ctx (Some next);
      b ← deref ctx best;
      if score b <? score n then Ok (Some next)
      else if score n =? score b then
        cur ← deref ctx (current_channel ctx);
        let diff_next := C.to_i32 (freq cur - freq n) in
        let diff_best := C.to_i32 (freq cur - freq b) in
        if diff_best =? 0 then Ok best
        else
          an ← C.abs diff_next;
          ab ← C.abs diff_best;
          if (ab <? an) || (diff_next =? 0) then Ok (Some next) else Ok best
      else Ok best
  end.

Fixpoint highest_score_loop ctx (pos : list nat) (best : chan_ptr) : result chan_ptr :=
  match pos with
  | [] => Ok best
  | next :: pos' =>
      best' ← highest_score_step ctx best next;
      highest_score_loop ctx pos' best'
  end.

Definition dcs_algo_get_channel_with_highest_score ctx : result chan_ptr :=
  highest_score_loop ctx (scan_list ctx) None.

(** The loop of [dcs_algo_reset_accumulated_scores] over the scan
    list: [accumulated_score = reset_val; n_samples = 0]. *)
Fixpoint reset_loop ctx (pos : list nat) (reset_val : Z) : result (dcs A) :=
  match pos with
  | [] => Ok ctx
  | next :: pos' =>
      c ← deref ctx (Some next);
      ctx' ← store_metric ctx (Some next)
               {| accumulated_score := C.u32 reset_val;
                  n_samples := 0;
                  rounds_as_best := rounds_as_best (metric c) |};
      reset_loop ctx' pos' reset_val
  end.

Definition dcs_algo_reset_accumulated_scores ctx (reset_val : Z) : result (dcs A) :=
  reset_loop ctx (scan_list ctx) reset_val.
End WithContext.

(** [(current_score * (100 + (uint32_t)threshold_percentage)) / 100]
    in [uint32_t]. *)
Definition dcs_algo_calculate_threshold (current_score threshold_percentage : Z) : Z :=
  C.u32 (current_score * C.u32 (100 + threshold_percentage)) / 100.

(** [struct algo_ops]: a table of optional callbacks.  Only the three
    callbacks of the scan thread are needed. *)
Record algo_ops {A : Type} := {
  evaluate_channels   : option (dcs A → result (chan_ptr * dcs A));
  process_measurement : option (dcs A → channel_measurement → chan_ptr → result (dcs A));
  post_csa_hook       : option (dcs A → chan_ptr → result (dcs A));
}.
Arguments algo_ops : clear implicits.

Definition dcs_algo_ops_evaluate_channels {A} (ops : algo_ops A) (ctx : dcs A)
  : result (chan_ptr * dcs A) :=
  match evaluate_channels ops with
  | Some f => f ctx
  | None => Ok (None, ctx)
  end.

Definition dcs_algo_ops_process_measurement {A} (ops : algo_ops A) (ctx : dcs A)
    (meas : channel_measurement) (chan : chan_ptr) : result (dcs A) :=
  match process_measurement ops with
  | Some f => f ctx meas chan
  | None => Ok ctx
  end.

Definition dcs_algo_ops_post_csa_hook {A} (ops : algo_ops A) (ctx : dcs A)
    (chan : chan_ptr) : result (dcs A) :=
  match post_csa_hook ops with
  | Some f => f ctx chan
  | None => Ok ctx
  end.

End Algo.

(** ** modules/dcs/algorithms/ewma.c *)
Module Ewma.
Import DcsH Algo.

Definition EWMA_ALPHA_MIN : Z := 1.
Definition EWMA_ALPHA_MAX : Z := 100.
Definition METRIC_INIT_VALUE : Z := 100.

Record ewma_context := {
  ewma_alpha                   : Z;   (* uint8_t *)
  threshold_percentage         : Z;   (* uint8_t *)
  rounds_for_csa               : Z;   (* int *)
  rounds_with_a_better_channel : Z;   (* int *)
}.

Definition set_rounds_with_a_better_channel (e : ewma_context) (r : Z) :=
  {| ewma_alpha := ewma_alpha e;
     threshold_percentage := threshold_percentage e;
     rounds_for_csa := rounds_for_csa e;
     rounds_with_a_better_channel := r |}.

(** The result is returned as [uint16_t]. *)
Definition apply_ewma (alpha new_score last_score : Z) : Z :=
  let alpha_cur := C.u32 alpha in
  let alpha_last := C.u32 (EWMA_ALPHA_MAX - alpha) in
  let out := C.u32 (C.u32 (alpha_cur * new_score) + C.u32 (alpha_last * last_score)) / 100 in
  C.u16 out.

Definition ewma_op_evaluate_channels (ctx : dcs ewma_context)
  : result (chan_ptr * dcs ewma_context) :=
  candidate_chan ← dcs_algo_get_channel_with_highest_score ctx;
  ewma ← algo_private ctx;
  cur ← deref ctx (current_channel ctx);
  let threshold :=
    dcs_algo_calculate_threshold (score cur) (threshold_percentage ewma) in
  ewma' ←
    (if decide (candidate_chan = current_channel ctx) then
       Ok (set_rounds_with_a_better_channel ewma 0)
     else
       cand ← deref ctx candidate_chan;
       if threshold <? score cand then
         r ← C.int_incr (rounds_with_a_better_channel ewma);
         Ok (set_rounds_with_a_better_channel ewma r)
       else Ok ewma);
  cand ← deref ctx candidate_chan;
  r ← C.int_incr (rounds_as_best (metric cand));
  ctx1 ← store_metric ctx candidate_chan
           {| accumulated_score := accumulated_score (metric cand);
              n_samples := n_samples (metric cand);
              rounds_as_best := r |};
  let ctx2 := set_algo_context ctx1 (Some ewma') in
  if negb (rounds_for_csa ewma' =? 0) &&
     (rounds_for_csa ewma' <=? rounds_with_a_better_channel ewma')
  then Ok (candidate_chan, ctx2)
  else Ok (None, ctx2).

Definition ewma_op_post_csa_hook (ctx : dcs ewma_context) (channel : chan_ptr)
  : result (dcs ewma_context) :=
  ewma ← algo_private ctx;
  Ok (set_algo_context ctx (Some (set_rounds_with_a_better_channel ewma 0))).

Definition ewma_op_process_measurement (ctx : dcs ewma_context)
    (meas : channel_measurement) (channel : chan_ptr) : result (dcs ewma_context) :=
  c ← deref ctx channel;
  n ← C.int_incr (n_samples (metric c));
  ewma ← algo_private ctx;
  store_metric ctx channel
    {| accumulated_score :=
         apply_ewma (ewma_alpha ewma) (metric_of meas) (accumulated_score (metric c));
       n_samples := n;
       rounds_as_best := rounds_as_best (metric c) |}.

Definition ewma_ops : algo_ops ewma_context :=
  {| evaluate_channels := Some ewma_op_evaluate_channels;
     process_measurement := Some ewma_op_process_measurement;
     post_csa_hook := Some ewma_op_post_csa_hook |}.

End Ewma.

(** ** modules/dcs/algorithms/sample_and_hold.c *)
Module SampleAndHold.
Import DcsH Algo.

Record sample_and_hold := {
  rounds_for_eval      : Z;   (* int *)
  threshold_percentage : Z;   (* uint8_t *)
  num_full_scans       : Z;   (* int *)
}.

Definition set_num_full_scans (s : sample_and_hold) (n : Z) :=
  {| rounds_for_eval := rounds_for_eval s;
     threshold_percentage := threshold_percentage s;
     num_full_scans := n |}.

Section WithLogLevel.
(** The value of [mmsm_get_log_level()]. *)
Variable log_level : Z.

Definition sample_hold_op_evaluate_channels (ctx : dcs sample_and_hold)
  : result (chan_ptr * dcs sample_and_hold) :=
  best ← dcs_algo_get_channel_with_highest_score ctx;
  b ← deref ctx best;
  r ← C.int_incr (rounds_as_best (metric b));
  ctx1 ← store_metric ctx best
           {| accumulated_score := accumulated_score (metric b);
              n_samples := n_samples (metric b);
              rounds_as_best := r |};
  sh_ctx ← algo_private ctx1;
  n ← C.int_incr (num_full_scans sh_ctx);
  let ctx2 := set_algo_context ctx1 (Some (set_num_full_scans sh_ctx n)) in
  m ← C.int_rem n (rounds_for_eval sh_ctx);
  if m =? 0 then
    cur ← deref ctx2 (current_channel ctx2);
    let threshold :=
      dcs_algo_calculate_threshold (score cur) (threshold_percentage sh_ctx) in
    b' ← deref ctx2 best;
    (* LOG_INFO prints accumulated_score / n_samples of the best channel *)
    _ ← Logging.LOG_VAR Logging.LOG_LEVEL_INFO log_level
          (if C.u32 (n_samples (metric b')) =? 0 then Err DivByZero else Ok tt);
    if threshold <? score b' then Ok (best, ctx2)
    else
      ctx3 ← dcs_algo_reset_accumulated_scores ctx2 0;
      Ok (None, ctx3)
  else Ok (None, ctx2).
End WithLogLevel.

Definition sample_hold_op_process_measurement (ctx : dcs sample_and_hold)
    (meas : channel_measurement) (channel : chan_ptr) : result (dcs sample_and_hold) :=
  c ← deref ctx channel;
  n ← C.int_incr (n_samples (metric c));
  store_metric ctx channel
    {| accumulated_score := C.u32 (accumulated_score (metric c) + metric_of meas);
       n_samples := n;
       rounds_as_best := rounds_as_best (metric c) |}.

Definition sample_hold_op_post_csa_hook (ctx : dcs sample_and_hold) (chan : chan_ptr)
  : result (dcs sample_and_hold) :=
  dcs_algo_reset_accumulated_scores ctx 0.

Definition sample_and_hold_ops (log_level : Z) : algo_ops sample_and_hold :=
  {| evaluate_channels := Some (sample_hold_op_evaluate_channels log_level);
     process_measurement := Some sample_hold_op_process_measurement;
     post_csa_hook := Some sample_hold_op_post_csa_hook |}.

End SampleAndHold.

(** ** modules/dcs/dcs.c *)
Module Dcs.
Import DcsH Algo MmsmData.

Definition MAX_CHANNEL_MEASURE_RETRIES : Z := 3.
Definition DCS_CHAN_SWITCH_GRACE_SECS : Z := 5.

(** [CHAN_SWITCH %d %u prim_bandwidth=%u sec_channel_offset=%d
    center_freq1=%u bandwidth=%u]: the arguments of the format. *)
Record chan_switch_cmd := {
  cs_count              : Z;
  cs_prim_center        : Z;
  cs_prim_bandwidth     : Z;
  cs_sec_channel_offset : Z;
  cs_center_freq1       : Z;
  cs_bandwidth          : Z;
}.

(** What [do_channel_switch] does to the outside, in order. *)
Inductive event :=
  | EvLock                                (* pthread_mutex_lock(&csa.mutex) *)
  | EvRequest (cmd : chan_switch_cmd)     (* mmsm_request(hostapd_intf, ecsa_cmd) *)
  | EvTimedWait (seconds : Z)             (* pthread_cond_timedwait(&csa.done, ...) *)
  | EvUnlock.                             (* pthread_mutex_unlock(&csa.mutex) *)

Section WithContext.
Context {A : Type}.
Implicit Type ctx : dcs A.

(** The function takes the address of the candidate; [channel] is the
    channel at that address. *)
Definition calculate_new_prim_ch_center_freq ctx (channel : dcs_channel) : result Z :=
  let half := Z.quot (bandwidth_mhz (ch channel) * 1000) 2 in
  let bottom_freq := C.u32 (frequency_khz (ch channel) - half) in
  let top_freq := C.u32 (frequency_khz (ch channel) + half) in
  let prim_1mhz_idx := current_prim_1mhz_ch_index ctx in
  prim_ch_center_khz ←
    (if current_primary_ch_width ctx =? 1 then
       khz ← C.int_mul prim_1mhz_idx 1000;
       Ok (C.u32 (bottom_freq + khz + 500))
     else if current_primary_ch_width ctx =? 2 then
       khz ← C.int_mul (Z.quot prim_1mhz_idx 2) 1000;
       khz2 ← C.int_mul khz 2;
       Ok (C.u32 (bottom_freq + khz2 + 1000))
     else Err AssertFailed);
  if prim_ch_center_khz <? top_freq then Ok prim_ch_center_khz
  else Err AssertFailed.

Definition calculate_sec_channel_offset ctx (channel : dcs_channel) : Z :=
  if bandwidth_mhz (ch channel) =? 1 then 0
  else if Z.land (current_prim_1mhz_ch_index ctx) 1 =? 0 then 1 else -1.

(** [TU_TO_SEC(beacon_interval * dtim_period * dtims_for_csa) +
    DCS_CHAN_SWITCH_GRACE_SECS], computed in [int] and stored in a
    [uint32_t]. *)
Definition chan_switch_time ctx : result Z :=
  a ← C.int_mul (beacon_interval ctx) (dtim_period ctx);
  b ← C.int_mul a (config_dtims_for_csa ctx);
  us ← C.int_mul b 1024;
  Ok (C.u32 (Z.quot us 1000000 + DCS_CHAN_SWITCH_GRACE_SECS)).

(** The arguments [snprintf] formats into [ecsa_cmd]. *)
Definition ecsa_cmd ctx (channel : dcs_channel) (prim : Z) : chan_switch_cmd :=
  {| cs_count := config_dtims_for_csa ctx;
     cs_prim_center := prim;
     cs_prim_bandwidth := current_primary_ch_width ctx;
     cs_sec_channel_offset := calculate_sec_channel_offset ctx channel;
     cs_center_freq1 := frequency_khz (ch channel);
     cs_bandwidth := bandwidth_mhz (ch channel) |}.

Section DoChannelSwitch.
(** The answer of the AP daemon to the command ([[]] is a null
    result). *)
Variable hostapd_request : chan_switch_cmd → list mmsm_data_item_t.
(** The wait on the CSA condition: the mutex is released for its
    duration, so the context comes back as the notification
    callback left it; [true] is ETIMEDOUT. *)
Variable csa_timedwait : dcs A → Z → bool * dcs A.

Definition do_channel_switch ctx (channel : chan_ptr)
  : result (Z * dcs A * list event) :=
  match channel with
  | None => Err AssertFailed             (* MMSM_ASSERT(channel) *)
  | Some _ =>
    if negb (config_csa_enabled ctx) then Ok (0, ctx, [])
    else
      c ← deref ctx channel;
      prim ← calculate_new_prim_ch_center_freq ctx c;
      let cmd := ecsa_cmd ctx c prim in
      let exit (ret : Z) (ctx' : dcs A) (trace : list event) :=
        Ok (ret, set_csa ctx' false 0, trace ++ [EvUnlock]) in
      match hostapd_request cmd with
      | [] => exit (- C.ENODATA) ctx [EvLock; EvRequest cmd]
      | first :: _ =>
        match mmsm_key first with
        | KeyU32 _ => Err OutOfBounds    (* d.string of an integer key *)
        | KeyString key =>
          if negb (bool_decide (key = C.text "OK")) then
            exit (- C.EBADR) ctx [EvLock; EvRequest cmd]
          else
            t ← chan_switch_time ctx;
            let ctx1 := set_csa ctx true (csa_freq_5g ctx) in
            let '(timed_out, ctx2) := csa_timedwait ctx1 t in
            let trace := [EvLock; EvRequest cmd; EvTimedWait t] in
            if timed_out then exit (- C.ETIMEDOUT) ctx2 trace
            else if csa_freq_5g ctx2 =? current_5g_freq ctx2 then exit 0 ctx2 trace
            else exit (- C.EPROTO) ctx2 trace
        end
      end
  end.
End DoChannelSwitch.

(** [list_get_next_item_or_null(channel, &scan.list, list)]. *)
Fixpoint list_get_next_item_or_null (l : list nat) (channel : nat) : chan_ptr :=
  match l with
  | [] => None
  | x :: l' => if decide (x = channel) then head l' else list_get_next_item_or_null l' channel
  end.

(** [list_remove(&channel->list)]. *)
Fixpoint list_remove (l : list nat) (channel : nat) : list nat :=
  match l with
  | [] => []
  | x :: l' => if decide (x = channel) then l' else x :: list_remove l' channel
  end.

Section ScanThread.
Variable ops : algo_ops A.
Variable hostapd_request : chan_switch_cmd → list mmsm_data_item_t.
Variable csa_timedwait : dcs A → Z → bool * dcs A.

(** One turn of the [while (1)] loop of
    [measurement_schedule_thread_fn].  [meas] is what
    [get_channel_measurement] returns in this turn; the loop
    variables [channel] and [attempt_count] are threaded through. *)
Definition scan_iteration ctx (channel : chan_ptr) (attempt_count : Z)
    (meas : option channel_measurement) : result (dcs A * chan_ptr * Z) :=
  (* get_channel_measurement reads channel->ch.frequency_khz *)
  _ ← deref ctx channel;
  '(ctx1, channel1, attempt_count1) ←
    match channel, meas with
    | None, _ => Err NullDeref
    | Some i, Some m =>
        ctx1 ← dcs_algo_ops_process_measurement ops ctx m channel;
        (* datalog_write_csv(..., context->current_channel->ch.channel_s1g) *)
        _ ← deref ctx1 (current_channel ctx1);
        Ok (ctx1, list_get_next_item_or_null (scan_list ctx1) i, 0)
    | Some i, None =>
        let attempt_count := attempt_count + 1 in
        if MAX_CHANNEL_MEASURE_RETRIES <=? attempt_count then
          let next := list_get_next_item_or_null (scan_list ctx) i in
          Ok (set_scan_list ctx (list_remove (scan_list ctx) i), next, 0)
        else Ok (ctx, channel, attempt_count)
    end;
  match channel1 with
  | Some _ => Ok (ctx1, channel1, attempt_count1)
  | None =>
      '(candidate_chan, ctx2) ← dcs_algo_ops_evaluate_channels ops ctx1;
      ctx3 ←
        (if bool_decide (candidate_chan ≠ None) &&
            bool_decide (candidate_chan ≠ current_channel ctx2) then
           '(ret, ctx3, _) ←
             do_channel_switch hostapd_request csa_timedwait ctx2 candidate_chan;
           if ret =? 0 then dcs_algo_ops_post_csa_hook ops ctx3 candidate_chan
           else Ok ctx3
         else Ok ctx2);
      Ok (ctx3, head (scan_list ctx3), attempt_count1)
  end.

End ScanThread.
End WithContext.

End Dcs.

(** ** Contexts of the scenarios *)
Module Scenarios.
Import DcsH.

Definition channel (f bw s1g sc n r : Z) : dcs_channel :=
  {| ch := {| frequency_khz := f; bandwidth_mhz := bw; channel_s1g := s1g |};
     metric := {| accumulated_score := sc; n_samples := n; rounds_as_best := r |} |}.

Definition measurement (m : Z) : channel_measurement :=
  {| metric_of := m; noise := 0; time_listen_us := 0; time_rx_us := 0 |}.

(** A context with primary width 1 MHz, index 0, beacon interval 100 TU,
    DTIM period 2, five DTIMs per switch and CSA enabled. *)
Definition context {A} (chans : list dcs_channel) (cur : chan_ptr)
    (scan : list nat) (priv : option A) : dcs A :=
  {| all_channels := chans;
     current_channel := cur;
     current_primary_ch_width := 1;
     current_prim_1mhz_ch_index := 0;
     current_5g_freq := 5180;
     dtim_period := 2;
     beacon_interval := 100;
     scan_list := scan;
     algo_context := priv;
     csa_in_progress := false;
     csa_freq_5g := 0;
     config_dtims_for_csa := 5;
     config_csa_enabled := true |}.

(** Three 1 MHz channels with equal scores; the middle one is current. *)
Definition tied_ctx : dcs unit :=
  context [channel 902500 1 1 100 0 0; channel 903500 1 3 100 0 0;
           channel 904500 1 5 100 0 0] (Some 1%nat) [0%nat; 1%nat; 2%nat] None.

(** S2: alpha = 20, one channel at score 100. *)
Definition s2_ctx : dcs Ewma.ewma_context :=
  context [channel 902500 1 1 100 0 0] (Some 0%nat) [0%nat]
    (Some {| Ewma.ewma_alpha := 20; Ewma.threshold_percentage := 10;
             Ewma.rounds_for_csa := 3; Ewma.rounds_with_a_better_channel := 0 |}).

(** S3: rounds_for_eval = 3, threshold_percentage = 10; channel A
    (current) and channel B, all scores zero at the start. *)
Definition s3_start : dcs SampleAndHold.sample_and_hold :=
  context [channel 902500 1 1 0 0 0; channel 903500 1 3 0 0 0]
    (Some 0%nat) [0%nat; 1%nat]
    (Some {| SampleAndHold.rounds_for_eval := 3;
             SampleAndHold.threshold_percentage := 10;
             SampleAndHold.num_full_scans := 0 |}).

(** One scan round of S3: A measures 100, B measures 110. *)
Definition s3_measure (ctx : dcs SampleAndHold.sample_and_hold)
  : result (dcs SampleAndHold.sample_and_hold) :=
  ctx1 ← SampleAndHold.sample_hold_op_process_measurement ctx (measurement 100) (Some 0%nat);
  SampleAndHold.sample_hold_op_process_measurement ctx1 (measurement 110) (Some 1%nat).

(** Two full rounds and the measurements of the third. *)
Definition s3_before_third_evaluation (log_level : Z)
  : result (dcs SampleAndHold.sample_and_hold) :=
  ctx1 ← s3_measure s3_start;
  r1 ← SampleAndHold.sample_hold_op_evaluate_channels log_level ctx1;
  ctx2 ← s3_measure r1.2;
  r2 ← SampleAndHold.sample_hold_op_evaluate_channels log_level ctx2;
  s3_measure r2.2.

(** S3 before the third evaluation: A at 300, B at 330. *)
Definition s3_ctx : dcs SampleAndHold.sample_and_hold :=
  context [channel 902500 1 1 300 3 0; channel 903500 1 3 330 3 2]
    (Some 0%nat) [0%nat; 1%nat]
    (Some {| SampleAndHold.rounds_for_eval := 3;
             SampleAndHold.threshold_percentage := 10;
             SampleAndHold.num_full_scans := 2 |}).

(** S3 after the third evaluation: scores reset. *)
Definition s3_after : dcs SampleAndHold.sample_and_hold :=
  context [channel 902500 1 1 0 0 0; channel 903500 1 3 0 0 3]
    (Some 0%nat) [0%nat; 1%nat]
    (Some {| SampleAndHold.rounds_for_eval := 3;
             SampleAndHold.threshold_percentage := 10;
             SampleAndHold.num_full_scans := 3 |}).

(** S4: operating channel at 9200000 kHz, 4 MHz wide; primary width
    2 MHz, primary 1 MHz index 2. *)
Definition s4_channel : dcs_channel := channel 9200000 4 40 0 0 0.

Definition s4_ctx : dcs unit :=
  {| all_channels := [s4_channel];
     current_channel := Some 0%nat;
     current_primary_ch_width := 2;
     current_prim_1mhz_ch_index := 2;
     current_5g_freq := 5180;
     dtim_period := 2;
     beacon_interval := 100;
     scan_list := [0%nat];
     algo_context := None;
     csa_in_progress := false;
     csa_freq_5g := 0;
     config_dtims_for_csa := 5;
     config_csa_enabled := true |}.

(** CSA disabled by configuration, after an unsolicited
    CH_SWITCH_NOTIFY left 5200 in [csa.freq_5g]. *)
Definition csa_disabled_ctx : dcs unit :=
  {| all_channels := [channel 902500 1 1 100 0 0; channel 903500 1 3 100 0 0];
     current_channel := Some 0%nat;
     current_primary_ch_width := 1;
     current_prim_1mhz_ch_index := 0;
     current_5g_freq := 5200;
     dtim_period := 2;
     beacon_interval := 100;
     scan_list := [0%nat; 1%nat];
     algo_context := None;
     csa_in_progress := false;
     csa_freq_5g := 5200;
     config_dtims_for_csa := 5;
     config_csa_enabled := false |}.

(** The same context with CSA enabled. *)
Definition csa_enabled_ctx : dcs unit :=
  {| all_channels := [channel 902500 1 1 100 0 0; channel 903500 1 3 100 0 0];
     current_channel := Some 0%nat;
     current_primary_ch_width := 1;
     current_prim_1mhz_ch_index := 0;
     current_5g_freq := 5200;
     dtim_period := 2;
     beacon_interval := 100;
     scan_list := [0%nat; 1%nat];
     algo_context := None;
     csa_in_progress := false;
     csa_freq_5g := 5200;
     config_dtims_for_csa := 5;
     config_csa_enabled := true |}.

Definition key_only (k : string) : MmsmData.mmsm_data_item_t :=
  MmsmData.mmsm_data_item_set_key_str MmsmData.mmsm_data_item_alloc (C.text k).

(** An AP daemon that refuses the switch, one that accepts it and one
    that does not answer. *)
Definition hostapd_fail (_ : Dcs.chan_switch_cmd) := [key_only "FAIL"].
Definition hostapd_ok (_ : Dcs.chan_switch_cmd) := [key_only "OK"].
Definition hostapd_silent (_ : Dcs.chan_switch_cmd) : list MmsmData.mmsm_data_item_t := [].

(** A wait that times out with the context untouched. *)
Definition wait_timeout {A} (ctx : dcs A) (_ : Z) : bool * dcs A := (true, ctx).


(** A key/value item as [parse_item] builds it. *)
Definition key_value (k v : string) : MmsmData.mmsm_data_item_t :=
  MmsmData.mmsm_data_item_set_val_string (key_only k) (C.text v).


Definition s1_items : list MmsmData.mmsm_data_item_t :=
  [key_value "bssid" "02:00:00:00:00:00"; key_value "freq" "2412";
   key_value "flags" "[AUTH][ASSOC]"].

(** A station entry without a [flags] line. *)
Definition no_flags_items : list MmsmData.mmsm_data_item_t :=
  [key_value "bssid" "02:00:00:00:00:00"; key_value "freq" "2412"].

(** A replay store with one sample on 902500 kHz and two on 903500. *)
Definition replay_store : list DcsTest.channel_measurement_list_per_ch :=
  [ {| DcsTest.per_ch_info :=
         {| frequency_khz := 902500; bandwidth_mhz := 1; channel_s1g := 1 |};
       DcsTest.channel_sample_list := [measurement 40] |};
    {| DcsTest.per_ch_info :=
         {| frequency_khz := 903500; bandwidth_mhz := 1; channel_s1g := 3 |};
       DcsTest.channel_sample_list := [measurement 50; measurement 60] |} ].

(** A replay store that holds a single measurement. *)
Definition replay_single : list DcsTest.channel_measurement_list_per_ch :=
  [ {| DcsTest.per_ch_info :=
         {| frequency_khz := 902500; bandwidth_mhz := 1; channel_s1g := 1 |};
       DcsTest.channel_sample_list := [measurement 40] |} ].

End Scenarios.

(** ** Vocabulary of the statements *)
Module Props.
Import DcsH.

(** Distance in frequency between the current channel and [c]. *)
Definition distance (cur c : dcs_channel) : Z := Z.abs (freq cur - freq c).

(** Frequencies below 2^31 kHz: the differences of the tie-break fit
    [int32_t]. *)
Definition freq_ok (c : dcs_channel) : Prop := 0 ≤ freq c < 2^31.

(** The order the best-channel loop maximises: score first; among equal
    scores a channel on the current frequency beats every other, and
    otherwise the larger distance from the current frequency wins. *)
Definition tie_rank (cur c : dcs_channel) : Z :=
  if freq c =? freq cur then 2^32 else Z.abs (freq cur - freq c).

Definition preference (cur c : dcs_channel) : Z :=
  score c * 2^33 + tie_rank cur c.

(** What the best-channel helper reads of a channel. *)
Definition view (c : dcs_channel) : Z * Z := (freq c, score c).

(** Well-formed context: the scan list links channels of
    [all_channels], [current_channel] points to one of them. *)
Definition scan_list_valid {A} (ctx : dcs A) : Prop :=
  Forall (λ i, is_Some (all_channels ctx !! i)) (scan_list ctx).


(** An attribute of a generic-netlink argument vector: its type tag with
    the value arguments that follow it.  [AttrOther] is any further tag,
    with whatever arguments the caller put after it. *)
Inductive attr_value :=
  | AttrU8 (v : Z)
  | AttrU16 (v : Z)
  | AttrU32 (v : Z)
  | AttrU64 (v : Z)
  | AttrString (s : list ascii)
  | AttrBinary (len : Z) (bytes : list ascii)
  | AttrFlag
  | AttrOther (tag : Z) (values : list Nl80211.va_arg_t).

Definition attr_tag (a : attr_value) : Z :=
  match a with
  | AttrU8 _ => Nl80211.NLA_U8
  | AttrU16 _ => Nl80211.NLA_U16
  | AttrU32 _ => Nl80211.NLA_U32
  | AttrU64 _ => Nl80211.NLA_U64
  | AttrString _ => Nl80211.NLA_STRING
  | AttrBinary _ _ => Nl80211.NLA_BINARY
  | AttrFlag => Nl80211.NLA_FLAG
  | AttrOther tag _ => tag
  end.

Definition attr_values (a : attr_value) : list Nl80211.va_arg_t :=
  match a with
  | AttrU8 v | AttrU16 v | AttrU32 v | AttrU64 v => [Nl80211.VaInt v]
  | AttrString s => [Nl80211.VaString s]
  | AttrBinary len bytes => [Nl80211.VaInt len; Nl80211.VaBuffer bytes]
  | AttrFlag => []
  | AttrOther _ values => values
  end.

(** The tags [process_request_args] has a case for. *)
Definition attr_supported (a : attr_value) : bool :=
  match a with
  | AttrFlag | AttrOther _ _ => false
  | _ => true
  end.

(** [<attr-id> <type tag> <value...>]. *)
Definition attr_args (a : Z * attr_value) : list Nl80211.va_arg_t :=
  Nl80211.VaInt a.1 :: Nl80211.VaInt (attr_tag a.2) :: attr_values a.2.

(** [<command-id> <flags> ( <attr-id> <type tag> <value...> )* -1]. *)
Definition request_args (cmd flags : Z) (attrs : list (Z * attr_value))
  : list Nl80211.va_arg_t :=
  Nl80211.VaInt cmd :: Nl80211.VaInt flags :: (attrs ≫= attr_args) ++ [Nl80211.VaInt (-1)].

(** The attribute id is not the sentinel, a binary length lies within
    its buffer, and [AttrOther] carries none of the seven named tags. *)
Definition attr_wf (a : Z * attr_value) : Prop :=
  a.1 ≠ -1 ∧
  match a.2 with
  | AttrBinary len bytes => 0 ≤ len ≤ Z.of_nat (length bytes)
  | AttrOther tag _ =>
      tag ∉ [Nl80211.NLA_U8; Nl80211.NLA_U16; Nl80211.NLA_U32; Nl80211.NLA_U64;
             Nl80211.NLA_STRING; Nl80211.NLA_BINARY; Nl80211.NLA_FLAG]
  | _ => True
  end.

(** The node of the request tree for a supported attribute. *)
Definition attr_node (a : Z * attr_value) : MmsmData.mmsm_data_item_t :=
  let cur := MmsmData.mmsm_data_item_set_key_u32 MmsmData.mmsm_data_item_alloc a.1 in
  match a.2 with
  | AttrU8 v => Nl80211.PACK_VA_ARG cur 1 v
  | AttrU16 v => Nl80211.PACK_VA_ARG cur 2 v
  | AttrU32 v => Nl80211.PACK_VA_ARG cur 4 v
  | AttrU64 v => Nl80211.PACK_VA_ARG cur 8 v
  | AttrString s => MmsmData.mmsm_data_item_set_val_string cur s
  | AttrBinary len bytes => MmsmData.set_value cur (Some (take (Z.to_nat len) bytes)) len
  | AttrFlag | AttrOther _ _ => cur
  end.

(** [{key = cmd-id, value = flags}]. *)
Definition request_head (cmd flags : Z) : MmsmData.mmsm_data_item_t :=
  Nl80211.PACK_VA_ARG
    (MmsmData.mmsm_data_item_set_key_u32 MmsmData.mmsm_data_item_alloc cmd) 2 flags.

(** [needle] occurs in [haystack]. *)
Definition substring (needle haystack : list ascii) : Prop :=
  ∃ before after, haystack = before ++ needle ++ after.

(** The number of measurements a replay store holds. *)
Definition total_samples (l : list DcsTest.channel_measurement_list_per_ch) : nat :=
  sum_list_with (λ p, length (DcsTest.channel_sample_list p)) l.

(** No frequency is listed with an empty queue
    ([add_channel_measurement_item] creates a queue with its first
    sample, [pop_channel_measurement] removes a queue with its last). *)
Definition replay_wf (l : list DcsTest.channel_measurement_list_per_ch) : Prop :=
  Forall (λ p, DcsTest.channel_sample_list p ≠ []) l.

Definition per_ch_freq (p : DcsTest.channel_measurement_list_per_ch) : Z :=
  frequency_khz (DcsTest.per_ch_info p).

(** The queue after its head has been popped: gone when it was the last
    sample. *)
Definition popped (p : DcsTest.channel_measurement_list_per_ch)
    (samples : list channel_measurement)
  : list DcsTest.channel_measurement_list_per_ch :=
  match samples with
  | [] => []
  | _ :: _ => [ {| DcsTest.per_ch_info := DcsTest.per_ch_info p;
                   DcsTest.channel_sample_list := samples |} ]
  end.

(** The number of measurements a run of requests has returned. *)
Definition returned (outcomes : list (option channel_measurement * bool)) : nat :=
  length (filter (λ o, is_Some o.1) outcomes).

(** No character of [s] is one of [bad]. *)
Definition free_of (bad s : list ascii) : Prop :=
  Forall (λ c, HostapdCtrl.is_delimiter bad c = false) s.

(** A line of an AP-ctrl response: an optional [<N>] tag, a key and,
    optionally, a separator character followed by a value; after the
    value there may be a further '=' and more text. *)
Record response_line := {
  line_tag   : option (list ascii);
  line_key   : list ascii;
  line_sep   : ascii;
  line_value : option (list ascii);
  line_rest  : option (list ascii);
}.

(** The key holds no '=', space, newline or NUL; a tag holds none of
    these and no '>'; without a tag the key is not empty and does not
    start with '<'; the separator is '=' or a space; a value is not
    empty and holds no '=', newline or NUL; the text after the value
    holds no newline or NUL, and there is none without a value. *)
Definition line_wf (l : response_line) : Prop :=
  free_of (C.text "= " ++ [HostapdCtrl.newline; MmsmData.NUL]) (line_key l) ∧
  match line_tag l with
  | Some t => free_of (C.text "= >" ++ [HostapdCtrl.newline; MmsmData.NUL]) t
  | None => ∃ c k, line_key l = c :: k ∧ c ≠ "<"%char
  end ∧
  match line_value l with
  | Some v =>
      HostapdCtrl.is_delimiter (C.text "= ") (line_sep l) = true ∧
      v ≠ [] ∧ free_of (C.text "=" ++ [HostapdCtrl.newline; MmsmData.NUL]) v ∧
      free_of [HostapdCtrl.newline; MmsmData.NUL] (default [] (line_rest l))
  | None => line_rest l = None
  end.

(** The text of a line, without its newline. *)
Definition line_body (l : response_line) : list ascii :=
  (if line_tag l is Some t then C.text "<" ++ t ++ C.text ">" else []) ++
  line_key l ++
  (if line_value l is Some v
   then line_sep l :: v ++ (if line_rest l is Some r then C.text "=" ++ r else [])
   else []).

Definition render_line (l : response_line) : list ascii :=
  line_body l ++ [HostapdCtrl.newline].

(** The sibling a line stands for: [{string-key, string-value}], or a
    key-only item.  The separator and the text after the value leave no
    trace. *)
Definition line_item (l : response_line) : MmsmData.mmsm_data_item_t :=
  let item := MmsmData.mmsm_data_item_set_key_str MmsmData.mmsm_data_item_alloc
                (line_key l) in
  if line_value l is Some v then MmsmData.mmsm_data_item_set_val_string item v
  else item.

End Props.

(** ** engine/helpers.c, include/helpers.h and include/mmsm_data.h:
       the other lookups and accessors *)
Module Lookups.
Import MmsmData.

(** [mmsm_find_value_by_intkey(head, key)], [key] a [uint32_t]. *)
Fixpoint mmsm_find_value_by_intkey (head : list mmsm_data_item_t) (key : Z)
  : option (list ascii) :=
  match head with
  | [] => None
  | item :: next =>
      match mmsm_key item with
      | KeyU32 k =>
          if k =? C.u32 key then mmsm_value item
          else mmsm_find_value_by_intkey next key
      | KeyString _ => mmsm_find_value_by_intkey next key
      end
  end.

(** [mmsm_find_key(head, key)]: the pointer to the item found, that is
    the chain that starts at it, or [[]] for [NULL]. *)
Fixpoint mmsm_find_key (head : list mmsm_data_item_t) (key : mmsm_key_t)
  : list mmsm_data_item_t :=
  match head with
  | [] => []
  | item :: next =>
      match mmsm_key item, key with
      | KeyString s, KeyString k =>
          if decide (s = k) then item :: next else mmsm_find_key next key
      | KeyU32 a, KeyU32 b =>
          if a =? b then item :: next else mmsm_find_key next key
      | _, _ => mmsm_find_key next key
      end
  end.

(** The [while (head && n > 0)] loop of [mmsm_find_nth_value]. *)
Fixpoint nth_loop (head : list mmsm_data_item_t) (n : nat) : list mmsm_data_item_t :=
  match n, head with
  | S n', _ :: next => nth_loop next n'
  | _, _ => head
  end.

(** [mmsm_find_nth_value(head, n)], [n] a [uint32_t]. *)
Definition mmsm_find_nth_value (head : list mmsm_data_item_t) (n : Z)
  : option (list ascii) :=
  match nth_loop head (Z.to_nat (C.u32 n)) with
  | [] => None
  | item :: _ => mmsm_value item
  end.

(** The inner [for] loop of [mmsm_find_by_nested_intkeys]: [iter] when
    the loop is left.  [attr_id] is an [int] and is compared with the
    [uint32_t] key. *)
Fixpoint seek_intkey (iter : list mmsm_data_item_t) (attr_id : Z)
  : list mmsm_data_item_t :=
  match iter with
  | [] => []
  | item :: next =>
      match mmsm_key item with
      | KeyU32 k => if k =? C.u32 attr_id then item :: next else seek_intkey next attr_id
      | KeyString _ => seek_intkey next attr_id
      end
  end.

(** The [while (attr_id != -1)] loop of [mmsm_find_by_nested_intkeys]
    and the final [return iter->mmsm_value]; [args] are the variadic
    arguments not yet fetched. *)
Fixpoint nested_intkeys_loop (iter : list mmsm_data_item_t) (attr_id : Z)
    (args : list Z) : result (option (list ascii)) :=
  if attr_id =? -1 then
    match iter with
    | [] => Err NullDeref
    | item :: _ => Ok (mmsm_value item)
    end
  else
    match seek_intkey iter attr_id with
    | [] => Ok None
    | item :: next =>
        match args with
        | [] => Err OutOfBounds              (* va_arg past the last argument *)
        | attr_id' :: args' =>
            nested_intkeys_loop
              (if attr_id' =? -1 then item :: next else mmsm_sub_values item)
              attr_id' args'
        end
    end.

(** [mmsm_find_by_nested_intkeys(head, ...)]. *)
Definition mmsm_find_by_nested_intkeys (head : list mmsm_data_item_t) (args : list Z)
  : result (option (list ascii)) :=
  match args with
  | [] => Err OutOfBounds
  | attr_id :: args' => nested_intkeys_loop head attr_id args'
  end.

(** The unsigned integer whose object representation the bytes are
    (little-endian, as [Nl80211.bytes_of]). *)
Fixpoint of_bytes (bytes : list ascii) : Z :=
  match bytes with
  | [] => 0
  | b :: bytes' => Z.of_N (N_of_ascii b) + 256 * of_bytes bytes'
  end.

(** [memcpy(&val, p, size)] for an unsigned [val] of [size] bytes. *)
Definition load (size : nat) (p : option (list ascii)) : result Z :=
  match p with
  | None => Err NullDeref
  | Some bytes =>
      if decide (size ≤ length bytes)%nat then Ok (of_bytes (take size bytes))
      else Err OutOfBounds
  end.

(** [mmsm_data_item_set_val_u32(item, val)]. *)
Definition mmsm_data_item_set_val_u32 (item : mmsm_data_item_t) (val : Z)
  : mmsm_data_item_t :=
  set_value item (Some (Nl80211.bytes_of 4 (C.u32 val))) 4.

(** [mmsm_data_item_get_val_u32(item)]. *)
Definition mmsm_data_item_get_val_u32 (item : mmsm_data_item_t) : result Z :=
  load 4 (mmsm_value item).

(** [mmsm_find_value_by_key_u32], [_u16] and [_u8] of helpers.h:
    [val ? *val : -1] at the width of the result. *)
Definition mmsm_find_value_by_key_uint (size : nat) (head : list mmsm_data_item_t)
    (key : list ascii) : result Z :=
  match Helpers.mmsm_find_value_by_key head key with
  | None => Ok ((-1) mod 2 ^ (8 * Z.of_nat size))
  | Some bytes => load size (Some bytes)
  end.

Definition mmsm_find_value_by_key_u32 := mmsm_find_value_by_key_uint 4.
Definition mmsm_find_value_by_key_u16 := mmsm_find_value_by_key_uint 2.
Definition mmsm_find_value_by_key_u8 := mmsm_find_value_by_key_uint 1.

End Lookups.

(** ** engine/config_helpers.c *)
Module ConfigHelpers.

Definition EINVAL : Z := 22.
Definition ENOMEM : Z := 12.

(** A [config_setting_t *] that is not [NULL], as far as the integer
    lookups go: what libconfig's [config_setting_lookup_int] finds for a
    member name, [None] when it returns [CONFIG_FALSE]. *)
Definition config_setting_t := string → option Z.

(** [cfg_parse_int(cfg, config_str, &error_counter)]: the value
    returned and the counter afterwards.  The qualified setting name
    that the function formats for its log lines is left out. *)
Definition cfg_parse_int (cfg : option config_setting_t) (config_str : string)
    (error_counter : Z) : result (Z * Z) :=
  match cfg with
  | None => Err AssertFailed             (* MMSM_ASSERT(cfg != NULL) *)
  | Some lookup_int =>
      match lookup_int config_str with
      | None => errors ← C.int_incr error_counter; Ok (0, errors)
      | Some out => Ok (out, error_counter)
      end
  end.

(** [context->config.sec_per_scan.tv_sec] and
    [context->config.sec_per_round.tv_sec], which [DcsH.dcs] leaves to
    the functions that use them. *)
Record scan_timing := {
  sec_per_scan  : Z;
  sec_per_round : Z;
}.

End ConfigHelpers.

(** ** modules/dcs/algorithms/ewma.c: initialisation *)
Module EwmaInit.
Import DcsH Algo Ewma ConfigHelpers.

(** [ewma_op_init(context, cfg)]; [calloc_ok] tells whether the
    allocation of the context succeeded.  The result is the return
    value, the DCS context and the scan timing. *)
Definition ewma_op_init (calloc_ok : bool) (ctx : dcs ewma_context)
    (timing : scan_timing) (cfg : option config_setting_t)
  : result (Z * dcs ewma_context * scan_timing) :=
  if negb calloc_ok then Ok (- ENOMEM, ctx, timing)
  else
    match cfg with
    | None => Ok (- EINVAL, ctx, timing)
    | Some _ =>
        '(threshold, errors) ← cfg_parse_int cfg "threshold_percentage" 0;
        '(val, errors) ← cfg_parse_int cfg "ewma_alpha" errors;
        errors ← (if (EWMA_ALPHA_MAX <? val) || (val <? EWMA_ALPHA_MIN)
                  then C.int_incr errors else Ok errors);
        let alpha := C.u8 val in
        '(val, errors) ← cfg_parse_int cfg "rounds_for_csa" errors;
        errors ← (if val <=? 0 then C.int_incr errors else Ok errors);
        '(per_scan, errors) ← cfg_parse_int cfg "sec_per_scan" errors;
        '(per_round, errors) ← cfg_parse_int cfg "sec_per_round" errors;
        let ewma := {| ewma_alpha := alpha;
                       threshold_percentage := C.u8 threshold;
                       rounds_for_csa := val;
                       rounds_with_a_better_channel := 0 |} in
        ctx' ← dcs_algo_reset_accumulated_scores
                 (set_algo_context ctx (Some ewma)) METRIC_INIT_VALUE;
        Ok (if errors =? 0 then 0 else - EINVAL, ctx',
            {| sec_per_scan := per_scan; sec_per_round := per_round |})
    end.

End EwmaInit.

(** ** modules/dcs/algorithms/sample_and_hold.c: initialisation *)
Module SampleAndHoldInit.
Import DcsH Algo SampleAndHold ConfigHelpers.

(** [sample_hold_op_init(context, cfg)]. *)
Definition sample_hold_op_init (calloc_ok : bool) (ctx : dcs sample_and_hold)
    (timing : scan_timing) (cfg : option config_setting_t)
  : result (Z * dcs sample_and_hold * scan_timing) :=
  match cfg with
  | None => Ok (- EINVAL, ctx, timing)
  | Some _ =>
      if negb calloc_ok then Ok (- ENOMEM, ctx, timing)
      else
        '(rounds, errors) ← cfg_parse_int cfg "rounds_for_eval" 0;
        '(threshold, errors) ← cfg_parse_int cfg "threshold_percentage" errors;
        '(per_scan, errors) ← cfg_parse_int cfg "sec_per_scan" errors;
        '(per_round, errors) ← cfg_parse_int cfg "sec_per_round" errors;
        let sh_ctx := {| rounds_for_eval := rounds;
                         threshold_percentage := C.u8 threshold;
                         num_full_scans := 0 |} in
        Ok (if errors =? 0 then 0 else - EINVAL,
            set_algo_context ctx (Some sh_ctx),
            {| sec_per_scan := per_scan; sec_per_round := per_round |})
  end.

End SampleAndHoldInit.

(** ** modules/dcs/dcs.c: the current channel and the scan list *)
Module DcsChannels.
Import DcsH Algo MmsmData.

Definition EAGAIN : Z := 11.
Definition MAX_RETRIES : Z := 10.

Section WithContext.
Context {A : Type}.
Implicit Type ctx : dcs A.

(** Assignment to the members of [struct dcs] that
    [update_current_channel] writes. *)
Definition set_status ctx (cur : chan_ptr) (width index freq_5g dtim beacon : Z)
  : dcs A :=
  {| all_channels := all_channels ctx;
     current_channel := cur;
     current_primary_ch_width := width;
     current_prim_1mhz_ch_index := index;
     current_5g_freq := freq_5g;
     dtim_period := dtim;
     beacon_interval := beacon;
     scan_list := scan_list ctx;
     algo_context := algo_context ctx;
     csa_in_progress := csa_in_progress ctx;
     csa_freq_5g := csa_freq_5g ctx;
     config_dtims_for_csa := config_dtims_for_csa ctx;
     config_csa_enabled := config_csa_enabled ctx |}.

Definition set_current_channel ctx (cur : chan_ptr) : dcs A :=
  set_status ctx cur (current_primary_ch_width ctx) (current_prim_1mhz_ch_index ctx)
    (current_5g_freq ctx) (dtim_period ctx) (beacon_interval ctx).

Definition set_current_5g_freq ctx (v : Z) : dcs A :=
  set_status ctx (current_channel ctx) (current_primary_ch_width ctx)
    (current_prim_1mhz_ch_index ctx) v (dtim_period ctx) (beacon_interval ctx).

Definition set_current_primary_ch_width ctx (v : Z) : dcs A :=
  set_status ctx (current_channel ctx) v (current_prim_1mhz_ch_index ctx)
    (current_5g_freq ctx) (dtim_period ctx) (beacon_interval ctx).

Definition set_current_prim_1mhz_ch_index ctx (v : Z) : dcs A :=
  set_status ctx (current_channel ctx) (current_primary_ch_width ctx) v
    (current_5g_freq ctx) (dtim_period ctx) (beacon_interval ctx).

Definition set_beacon_interval ctx (v : Z) : dcs A :=
  set_status ctx (current_channel ctx) (current_primary_ch_width ctx)
    (current_prim_1mhz_ch_index ctx) (current_5g_freq ctx) (dtim_period ctx) v.

Definition set_dtim_period ctx (v : Z) : dcs A :=
  set_status ctx (current_channel ctx) (current_primary_ch_width ctx)
    (current_prim_1mhz_ch_index ctx) (current_5g_freq ctx) v (beacon_interval ctx).

(** The loop over [all_channels] at the end of
    [update_current_channel], from index [i] on: the index of the first
    channel with that frequency and bandwidth.  [s1g_freq] and [s1g_bw]
    are [int32_t]; the frequency is compared as [uint32_t]. *)
Fixpoint channel_index (chans : list dcs_channel) (i : nat) (s1g_freq s1g_bw : Z)
  : option nat :=
  match chans with
  | [] => None
  | c :: chans' =>
      if (frequency_khz (ch c) =? C.u32 s1g_freq) && (bandwidth_mhz (ch c) =? s1g_bw)
      then Some i
      else channel_index chans' (S i) s1g_freq s1g_bw
  end.

Section UpdateCurrentChannel.
(** [strtol(val, NULL, 10)] and [strtoul(val, NULL, 10)] of the C
    library, on the string at [val]. *)
Variable strtol strtoul : list ascii → Z.

(** [val = (char * )mmsm_find_value_by_key(item, key)] and, when it is
    not [NULL], the string there. *)
Definition status_value (item : list mmsm_data_item_t) (key : string)
  : result (option (list ascii)) :=
  match Helpers.mmsm_find_value_by_key item (C.text key) with
  | None => Ok None
  | Some buf => val ← read_cstring buf; Ok (Some val)
  end.

(** [update_current_channel(dcs_context)]; [item] is the answer to the
    STATUS request, [[]] for [NULL].  The result is the return value and
    the context. *)
Definition update_current_channel (item : list mmsm_data_item_t) ctx
  : result (Z * dcs A) :=
  let err (ctx' : dcs A) : result (Z * dcs A) :=
    Ok (- ConfigHelpers.EINVAL, set_current_channel ctx' None) in
  match item with
  | [] => err ctx
  | _ :: _ =>
    v ← status_value item "s1g_freq";
    match v with
    | None => err ctx
    | Some val =>
      let s1g_freq := C.to_i32 (strtol val) in
      if s1g_freq =? -1 then Ok (- EAGAIN, ctx)
      else
        v ← status_value item "freq";
        match v with
        | None => err ctx
        | Some val =>
          let ctx := set_current_5g_freq ctx (C.u32 (strtoul val)) in
          v ← status_value item "s1g_bw";
          match v with
          | None => err ctx
          | Some val =>
            let s1g_bw := C.to_i32 (strtol val) in
            v ← status_value item "s1g_prim_chwidth";
            match v with
            | None => err ctx
            | Some val =>
              let ctx := set_current_primary_ch_width ctx (C.to_i32 (strtoul val)) in
              v ← status_value item "s1g_prim_1mhz_chan_index";
              match v with
              | None => err ctx
              | Some val =>
                let ctx := set_current_prim_1mhz_ch_index ctx (C.to_i32 (strtoul val)) in
                v ← status_value item "beacon_int";
                match v with
                | None => err ctx
                | Some val =>
                  let ctx := set_beacon_interval ctx (C.u16 (strtol val)) in
                  if beacon_interval ctx =? 0 then err ctx
                  else
                    v ← status_value item "dtim_period";
                    match v with
                    | None => err ctx
                    | Some val =>
                      let ctx := set_dtim_period ctx (C.u8 (strtol val)) in
                      if dtim_period ctx =? 0 then err ctx
                      else
                        match channel_index (all_channels ctx) 0 s1g_freq s1g_bw with
                        | Some i => Ok (0, set_current_channel ctx (Some i))
                        | None => err ctx
                        end
                    end
                end
              end
            end
          end
        end
    end
  end.
End UpdateCurrentChannel.

(** [primary_channel_is_available(context, channel)]; the channel is
    passed by value. *)
Definition primary_channel_is_available ctx (channel : dcs_channel) : result bool :=
  primary_freq_khz ← Dcs.calculate_new_prim_ch_center_freq ctx channel;
  let primary_bw_mhz := C.u8 (current_primary_ch_width ctx) in
  Ok (existsb (λ c, (frequency_khz (ch c) =? primary_freq_khz)
                    && (bandwidth_mhz (ch c) =? primary_bw_mhz))
        (all_channels ctx)).

(** The loop of [init_scan_list] from index [i] on; [scan] is the scan
    list built so far, and [list_add_tail] appends to it. *)
Fixpoint init_scan_loop ctx (bw : Z) (chans : list dcs_channel) (i : nat)
    (scan : list nat) : result (list nat) :=
  match chans with
  | [] => Ok scan
  | c :: chans' =>
      match (if bandwidth_mhz (ch c) =? bw then primary_channel_is_available ctx c
             else Ok false) with
      | Err f => Err f
      | Ok add => init_scan_loop ctx bw chans' (S i) (if add then scan ++ [i] else scan)
      end
  end.

(** [init_scan_list(context)]. *)
Definition init_scan_list ctx : result (dcs A) :=
  cur ← deref ctx (current_channel ctx);
  scan ← init_scan_loop ctx (bandwidth_mhz (ch cur)) (all_channels ctx) 0 [];
  Ok (set_scan_list ctx scan).

(** [wait_for_hostapd_state(hostapd_intf, state, wait_sec,
    num_retries)]: the [while (retries++ < num_retries)] loop with
    [remaining] turns left, [responses] being the answers to the STATUS
    requests still to come ([[]] is a null answer). *)
Fixpoint wait_for_hostapd_state (responses : list (list mmsm_data_item_t))
    (state : list ascii) (remaining : nat) {struct remaining} : result bool :=
  match remaining with
  | O => Ok false
  | S remaining' =>
      match responses with
      | [] => Ok false                      (* no answer: mmsm_request gives NULL *)
      | [] :: _ => Ok false
      | item :: responses' =>
          match Helpers.mmsm_find_value_by_key item (C.text "state") with
          | None => Err NullDeref           (* strcmp(NULL, state) *)
          | Some buf =>
              val ← read_cstring buf;
              if decide (val = state) then Ok true
              else wait_for_hostapd_state responses' state remaining'
          end
      end
  end.

End WithContext.
End DcsChannels.

(** ** modules/dcs/dcs.c and backend/morsectrl/vendor.h: vendor events *)
Module DcsEvents.
Import MmsmData.

Definition MORSE_OUI : Z := 0x0CBF74.
Definition MORSE_VENDOR_EVENT_OCS_DONE : Z := 1.
Definition MORSE_VENDOR_ATTR_DATA : Z := 0.

Section Nl80211Ids.
(** The identifiers that <linux/nl80211.h> gives to the vendor command
    and to its attributes. *)
Variables NL80211_CMD_VENDOR NL80211_ATTR_VENDOR_ID NL80211_ATTR_VENDOR_SUBCMD
  NL80211_ATTR_VENDOR_DATA : Z.

(** [is_morse_ocs_done_vendor_event(result)], [event] being the tree
    that [result] points to; [data] is read as a [uint32_t] where it
    is not [NULL]. *)
Definition is_morse_ocs_done_vendor_event (event : list mmsm_data_item_t)
  : result bool :=
  data ← Lookups.mmsm_find_by_nested_intkeys event
            [NL80211_CMD_VENDOR; NL80211_ATTR_VENDOR_ID; -1];
  match data with
  | None => Ok false
  | Some _ =>
      vendor_id ← Lookups.load 4 data;
      if negb (vendor_id =? MORSE_OUI) then Ok false
      else
        data ← Lookups.mmsm_find_by_nested_intkeys event
                  [NL80211_CMD_VENDOR; NL80211_ATTR_VENDOR_SUBCMD; -1];
        match data with
        | None => Ok false
        | Some _ =>
            subcmd ← Lookups.load 4 data;
            if negb (subcmd =? MORSE_VENDOR_EVENT_OCS_DONE) then Ok false
            else Ok true
        end
  end.

(** [get_ocs_done_from_vendor_event(result)]: the buffer that is taken
    for a [struct morse_cmd_evt_ocs_done], or [NULL]. *)
Definition get_ocs_done_from_vendor_event (event : list mmsm_data_item_t)
  : result (option (list ascii)) :=
  Lookups.mmsm_find_by_nested_intkeys event
    [NL80211_CMD_VENDOR; NL80211_ATTR_VENDOR_DATA; MORSE_VENDOR_ATTR_DATA; -1].

End Nl80211Ids.
End DcsEvents.

(** ** modules/dcs/dcs_test.c: loading the replay store *)
Module DcsTestLoad.
Import DcsH DcsTest.

Definition ENFILE : Z := 23.

(** [add_channel_measurement_item(list, item, ch)]: the store [list]
    afterwards.  The sample joins the tail of the queue of its
    frequency; without such a queue a new one is added at the tail of
    the store, with [ch] as its channel. *)
Fixpoint add_channel_measurement_item
    (per_ch_list : list channel_measurement_list_per_ch)
    (item : channel_measurement) (ch : morse_cmd_channel_info)
  : list channel_measurement_list_per_ch :=
  match per_ch_list with
  | [] => [ {| per_ch_info := ch; channel_sample_list := [item] |} ]
  | per_freq :: rest =>
      if frequency_khz (per_ch_info per_freq) =? frequency_khz ch then
        {| per_ch_info := per_ch_info per_freq;
           channel_sample_list := channel_sample_list per_freq ++ [item] |} :: rest
      else per_freq :: add_channel_measurement_item rest item ch
  end.

(** The loop of [initialise_channels_for_test] over the store, from
    index [i] on: the channels written and the current channel. *)
Fixpoint test_channels_loop (entries : list channel_measurement_list_per_ch)
    (i : nat) (initial_chan : Z) (current : chan_ptr)
  : list dcs_channel * chan_ptr :=
  match entries with
  | [] => ([], current)
  | entry :: entries' =>
      let chan := {| ch := per_ch_info entry;
                     metric := {| accumulated_score := 100; n_samples := 0;
                                  rounds_as_best := 0 |} |} in
      let current := if channel_s1g (per_ch_info entry) =? initial_chan
                     then Some i else current in
      let '(chans, current') := test_channels_loop entries' (S i) initial_chan current in
      (chan :: chans, current')
  end.

(** [initialise_channels_for_test(context)]: [fopen_ok] tells whether
    the sample file could be opened, [per_ch_sample_list] and
    [initial_chan] are what [load_channel_measurement_samples_from_file]
    has left in the store and returned, [calloc_ok] whether [calloc]
    gave memory (its result is not checked).  [num_chans] is a
    [uint8_t]: the array is allocated with [list_size] cut to eight
    bits, and the loop writes one element per entry of the store. *)
Definition initialise_channels_for_test {A} (fopen_ok calloc_ok : bool)
    (per_ch_sample_list : list channel_measurement_list_per_ch) (initial_chan : Z)
    (ctx : dcs A) : result (Z * dcs A) :=
  if negb fopen_ok then Ok (- ENFILE, ctx)
  else if initial_chan <=? 0 then Ok (- ConfigHelpers.EINVAL, ctx)
  else
    let num_chans := C.u8 (Z.of_nat (length per_ch_sample_list)) in
    if negb calloc_ok && (0 <? Z.of_nat (length per_ch_sample_list)) then Err NullDeref
    else if num_chans <? Z.of_nat (length per_ch_sample_list) then Err OutOfBounds
    else
      let '(chans, current) :=
        test_channels_loop per_ch_sample_list 0 initial_chan (current_channel ctx) in
      let ctx1 :=
        DcsChannels.set_current_channel
          (set_scan_list (set_all_channels ctx chans) (seq 0 (length per_ch_sample_list)))
          current in
      match current with
      | None => Ok (- ConfigHelpers.EINVAL, ctx1)
      | Some _ =>
          Ok (0, DcsChannels.set_current_prim_1mhz_ch_index
                   (DcsChannels.set_current_primary_ch_width ctx1 1) 0)
      end.

(** [initialise_channels(context)]: [init] is the initialisation that
    the mode selects, [initialise_channels_for_test] or
    [initialise_channels_from_driver].  Its result is stored in a
    [bool]. *)
Definition initialise_channels {A} (init : dcs A → result (Z * dcs A)) (ctx : dcs A)
  : result (Z * dcs A) :=
  '(r, ctx1) ← init ctx;
  let ret := if r =? 0 then 0 else 1 in
  if ret =? 0 then
    ctx2 ← DcsChannels.init_scan_list ctx1;
    Ok (ret, ctx2)
  else Ok (ret, ctx1).

End DcsTestLoad.

(** ** Vocabulary of the further properties *)
Module Terms.
Import MmsmData.

#[global] Instance mmsm_key_eq_dec : EqDecision mmsm_key_t.
Proof. solve_decision. Defined.

(** The item a chain pointer points to. *)
Definition pointee (p : list mmsm_data_item_t) : option mmsm_data_item_t := head p.

(** The descent along a path of integer keys: at every level the first
    sibling with the key, then its sub-values; the value of the item
    reached by the last key. *)
Fixpoint descend (items : list mmsm_data_item_t) (path : list Z) : option (list ascii) :=
  match path with
  | [] => None
  | k :: path' =>
      match Lookups.mmsm_find_key items (KeyU32 (C.u32 k)) with
      | [] => None
      | item :: _ =>
          match path' with
          | [] => mmsm_value item
          | _ :: _ => descend (mmsm_sub_values item) path'
          end
      end
  end.

(** A vendor event as the nl80211 monitor delivers it: the command
    item with its attributes as sub-values. *)
Definition attr_u32 (id v : Z) : mmsm_data_item_t :=
  Lookups.mmsm_data_item_set_val_u32
    (mmsm_data_item_set_key_u32 mmsm_data_item_alloc id) v.

Definition vendor_event : list mmsm_data_item_t :=
  [ {| mmsm_key := KeyU32 103; mmsm_value := None; mmsm_value_len := 0;
       mmsm_sub_values := [attr_u32 195 0x0CBF74; attr_u32 196 1] |} ].

(** The value buffer of the sibling a response line stands for: the
    text with its NUL, or [NULL] for a key-only line. *)
Definition line_buffer (l : Props.response_line) : option (list ascii) :=
  (λ v, v ++ [NUL]) <$> Props.line_value l.

(** Every character of [s] is one of [chars]. *)
Definition made_of (chars s : list ascii) : Prop :=
  Forall (λ c, HostapdCtrl.is_delimiter chars c = true) s.

Definition status_line (k v : string) : Props.response_line :=
  {| Props.line_tag := None; Props.line_key := C.text k;
     Props.line_sep := "="%char; Props.line_value := Some (C.text v);
     Props.line_rest := None |}.

Definition status_lines : list Props.response_line :=
  [status_line "state" "ENABLED"; status_line "freq" "5180"; status_line "freq" "5200"].

(** EWMA, two channels: the current one at 100 and a better one at
    150, which has been better for two rounds already. *)
Definition ewma_params : Ewma.ewma_context :=
  {| Ewma.ewma_alpha := 20; Ewma.threshold_percentage := 10;
     Ewma.rounds_for_csa := 3; Ewma.rounds_with_a_better_channel := 2 |}.

Definition ewma_two_ctx : DcsH.dcs Ewma.ewma_context :=
  Scenarios.context
    [Scenarios.channel 902500 1 1 100 4 0; Scenarios.channel 903500 1 3 150 4 2]
    (Some 0%nat) [0%nat; 1%nat] (Some ewma_params).

(** The group [ewma] of a configuration file. *)
Definition ewma_cfg : ConfigHelpers.config_setting_t :=
  λ name,
    if String.eqb name "ewma_alpha" then Some 20
    else if String.eqb name "threshold_percentage" then Some 10
    else if String.eqb name "rounds_for_csa" then Some 3
    else if String.eqb name "sec_per_scan" then Some 1
    else if String.eqb name "sec_per_round" then Some 60
    else None.

(** A group [sample_and_hold] with a hold time of zero rounds. *)
Definition zero_rounds_cfg : ConfigHelpers.config_setting_t :=
  λ name,
    if String.eqb name "rounds_for_eval" then Some 0
    else if String.eqb name "threshold_percentage" then Some 10
    else if String.eqb name "sec_per_scan" then Some 1
    else if String.eqb name "sec_per_round" then Some 60
    else None.

Definition no_timing : ConfigHelpers.scan_timing :=
  {| ConfigHelpers.sec_per_scan := 0; ConfigHelpers.sec_per_round := 0 |}.

(** The measurements of one channel handed to [process_measurement]
    one after the other. *)
Fixpoint process_all {A} (f : DcsH.dcs A → DcsH.channel_measurement → DcsH.chan_ptr →
                              result (DcsH.dcs A))
    (ctx : DcsH.dcs A) (ms : list DcsH.channel_measurement) (channel : DcsH.chan_ptr)
  : result (DcsH.dcs A) :=
  match ms with
  | [] => Ok ctx
  | m :: ms' => ctx' ← f ctx m channel; process_all f ctx' ms' channel
  end.

Definition metric_sum (ms : list DcsH.channel_measurement) : Z :=
  foldr (λ m acc, DcsH.metric_of m + acc) 0 ms.

(** A channel that [init_scan_list] takes into the scan list: it has
    the bandwidth [bw], and the primary channel it would have is one of
    the available channels. *)
Definition scannable {A} (ctx : DcsH.dcs A) (bw : Z) (c : DcsH.dcs_channel) : Prop :=
  DcsH.bandwidth_mhz (DcsH.ch c) = bw ∧
  ∃ p c2,
    Dcs.calculate_new_prim_ch_center_freq ctx c = Ok p ∧
    c2 ∈ DcsH.all_channels ctx ∧
    DcsH.frequency_khz (DcsH.ch c2) = p ∧
    DcsH.bandwidth_mhz (DcsH.ch c2) = C.u8 (DcsH.current_primary_ch_width ctx).

(** Two 2 MHz channels and the 1 MHz channels under the first of them
    only; the current channel is the first 2 MHz channel. *)
Definition two_mhz_ctx : DcsH.dcs unit :=
  Scenarios.context
    [Scenarios.channel 903000 2 2 0 0 0; Scenarios.channel 905000 2 6 0 0 0;
     Scenarios.channel 902500 1 1 0 0 0; Scenarios.channel 903500 1 3 0 0 0]
    (Some 0%nat) [] None.

(** The seven lines of a STATUS answer that [update_current_channel]
    reads. *)
Definition status_keys : list string :=
  ["s1g_freq"; "freq"; "s1g_bw"; "s1g_prim_chwidth"; "s1g_prim_1mhz_chan_index";
   "beacon_int"; "dtim_period"]%string.

(** Every value of the chain is a C string. *)
Definition text_values (items : list mmsm_data_item_t) : Prop :=
  Forall (λ item, ∀ buf, mmsm_value item = Some buf → is_ok (read_cstring buf)) items.

(** A decimal number without sign, and with an optional minus sign:
    what [strtoul] and [strtol] make of such texts. *)
Fixpoint decimal_digits (s : list ascii) (acc : Z) : Z :=
  match s with
  | [] => acc
  | c :: s' =>
      let d := Z.of_N (N_of_ascii c) - 48 in
      if (0 <=? d) && (d <=? 9) then decimal_digits s' (10 * acc + d) else acc
  end.

Definition decimal (s : list ascii) : Z :=
  match s with
  | c :: s' => if decide (c = "-"%char) then - decimal_digits s' 0 else decimal_digits s 0
  | [] => 0
  end.

Definition status_items (s1g_freq : string) : list mmsm_data_item_t :=
  [Scenarios.key_value "state" "ENABLED"; Scenarios.key_value "s1g_freq" s1g_freq;
   Scenarios.key_value "freq" "5200"; Scenarios.key_value "s1g_bw" "1";
   Scenarios.key_value "s1g_prim_chwidth" "1";
   Scenarios.key_value "s1g_prim_1mhz_chan_index" "0";
   Scenarios.key_value "beacon_int" "100"; Scenarios.key_value "dtim_period" "2"].

(** A STATUS answer that is there, has a [state] line, and reports
    another state than [state]. *)
Definition other_state (state : list ascii) (item : list mmsm_data_item_t) : Prop :=
  item ≠ [] ∧
  ∃ buf val, Helpers.mmsm_find_value_by_key item (C.text "state") = Some buf ∧
             read_cstring buf = Ok val ∧ val ≠ state.

(** The state of the scan thread between two turns of its loop: the
    scan list has no repetition and points into [all_channels], the
    channel to measure next is one of the list, and the count of failed
    attempts is below the limit. *)
Definition scan_position_ok {A} (ctx : DcsH.dcs A) (channel : DcsH.chan_ptr)
    (attempt_count : Z) : Prop :=
  NoDup (DcsH.scan_list ctx) ∧
  Props.scan_list_valid ctx ∧
  (∃ j, channel = Some j ∧ j ∈ DcsH.scan_list ctx) ∧
  0 ≤ attempt_count < Dcs.MAX_CHANNEL_MEASURE_RETRIES.

(** [ctx'] has the scan list and the number of channels of [ctx]. *)
Definition keeps_channels {A} (ctx ctx' : DcsH.dcs A) : Prop :=
  DcsH.scan_list ctx' = DcsH.scan_list ctx ∧
  length (DcsH.all_channels ctx') = length (DcsH.all_channels ctx).

(** The queue of a frequency in a replay store: the samples of the
    first entry with that frequency, none when there is no entry. *)
Fixpoint queue_of (store : list DcsTest.channel_measurement_list_per_ch) (freq_khz : Z)
  : list DcsH.channel_measurement :=
  match store with
  | [] => []
  | p :: store' =>
      if decide (Props.per_ch_freq p = freq_khz) then DcsTest.channel_sample_list p
      else queue_of store' freq_khz
  end.

(** The rows of a sample file, in file order, each with the channel
    scanned from it. *)
Definition sample_rows := list (DcsH.channel_measurement * DcsH.morse_cmd_channel_info).

Definition load_all (store : list DcsTest.channel_measurement_list_per_ch)
    (rows : sample_rows) : list DcsTest.channel_measurement_list_per_ch :=
  foldl (λ st row, DcsTestLoad.add_channel_measurement_item st row.1 row.2) store rows.

(** The measurements of the rows on a frequency, in file order. *)
Definition rows_on (freq_khz : Z)
    (rows : list (DcsH.channel_measurement * DcsH.morse_cmd_channel_info))
  : list DcsH.channel_measurement :=
  (filter (λ row, DcsH.frequency_khz row.2 = freq_khz) rows).*1.

(** The channel that [initialise_channels_for_test] makes of a store
    entry: the channel of the entry with a score of 100 in zeroed
    memory. *)
Definition test_channel (entry : DcsTest.channel_measurement_list_per_ch)
  : DcsH.dcs_channel :=
  {| DcsH.ch := DcsTest.per_ch_info entry;
     DcsH.metric := {| DcsH.accumulated_score := 100; DcsH.n_samples := 0;
                       DcsH.rounds_as_best := 0 |} |}.

Definition on_channel (s1g_chan : Z) (entry : DcsTest.channel_measurement_list_per_ch)
  : Prop :=
  DcsH.channel_s1g (DcsTest.per_ch_info entry) = s1g_chan.

(** [k] is the last entry of the store on the S1G channel [s1g_chan]. *)
Definition last_on_channel (store : list DcsTest.channel_measurement_list_per_ch)
    (s1g_chan : Z) (k : nat) : Prop :=
  (∃ entry, store !! k = Some entry ∧ on_channel s1g_chan entry) ∧
  ∀ k' entry, (k < k')%nat → store !! k' = Some entry → ¬ on_channel s1g_chan entry.

(** A store entry of 1 MHz bandwidth whose band edges are frequencies
    of 32 bits. *)
Definition one_mhz (entry : DcsTest.channel_measurement_list_per_ch) : Prop :=
  DcsH.bandwidth_mhz (DcsTest.per_ch_info entry) = 1 ∧
  500 ≤ DcsH.frequency_khz (DcsTest.per_ch_info entry) < 2^32 - 500.

(** A context as [calloc] gives it, before the channels are known. *)
Definition blank_ctx : DcsH.dcs unit := Scenarios.context [] None [] None.

(** A sample file with one row on each of 256 frequencies. *)
Definition rows_256 : sample_rows :=
  (λ i, (Scenarios.measurement 40,
         {| DcsH.frequency_khz := 902500 + 1000 * Z.of_nat i;
            DcsH.bandwidth_mhz := 1; DcsH.channel_s1g := 1 |})) <$> seq 0 256.

End Terms.

(* ================================================================== *)
(** * Part II: properties                                              *)
(* ================================================================== *)

Import DcsH Algo Props.

(** ** Integer conversions *)

Lemma to_i32_small (z : Z) : - 2^31 ≤ z < 2^31 → C.to_i32 z = z.
Proof.
  intros Hz. unfold C.to_i32, C.u32.
  destruct (Z.ltb_spec (z mod 2^32) (2^31)) as [H|H];
    pose proof (Z.mod_pos_bound z (2^32) ltac:(lia)) as Hb;
    assert (Hd : z = 2^32 * (z / 2^32) + z mod 2^32) by (apply Z.div_mod; lia);
    lia.
Qed.

Lemma u32_small (z : Z) : 0 ≤ z < 2^32 → C.u32 z = z.
Proof. intros H. unfold C.u32. by apply Z.mod_small. Qed.

Lemma int_incr_ok (x : Z) : x < C.INT_MAX → C.int_incr x = Ok (x + 1).
Proof.
  intros Hx. unfold C.int_incr.
  destruct (Z.ltb_spec x C.INT_MAX); [reflexivity | lia].
Qed.

Lemma abs_ok (x : Z) : - 2^31 < x → C.abs x = Ok (Z.abs x).
Proof.
  intros Hx. unfold C.abs, C.INT_MIN.
  destruct (Z.eqb_spec x (- 2^31)); [lia | reflexivity].
Qed.

(** ** algo.c: the best-channel helper *)

Section BestChannel.
Context {A : Type}.
Implicit Type ctx : dcs A.

Lemma tie_rank_bounds cur c :
  freq_ok cur → freq_ok c → 0 ≤ tie_rank cur c ≤ 2^32.
Proof.
  unfold freq_ok, tie_rank. intros ??.
  destruct (Z.eqb_spec (freq c) (freq cur)); lia.
Qed.

Lemma highest_score_step_spec ctx k cur b bc n nc :
  current_channel ctx = Some k → all_channels ctx !! k = Some cur →
  all_channels ctx !! b = Some bc → all_channels ctx !! n = Some nc →
  freq_ok cur → freq_ok bc → freq_ok nc →
  highest_score_step ctx (Some b) n =
    Ok (Some (if preference cur bc <? preference cur nc then n else b)).
Proof.
  intros Hk Hcur Hb Hn Fc Fb Fn.
  pose proof (tie_rank_bounds cur bc Fc Fb) as Rb.
  pose proof (tie_rank_bounds cur nc Fc Fn) as Rn.
  unfold highest_score_step, deref. rewrite Hn, Hb. cbn.
  unfold preference.
  destruct (Z.ltb_spec (score bc) (score nc)) as [Hlt|Hge].
  { destruct (Z.ltb_spec (score bc * 2^33 + tie_rank cur bc)
                         (score nc * 2^33 + tie_rank cur nc)); [done | lia]. }
  destruct (Z.eqb_spec (score nc) (score bc)) as [Heq|Hne].
  2:{ destruct (Z.ltb_spec (score bc * 2^33 + tie_rank cur bc)
                           (score nc * 2^33 + tie_rank cur nc)); [lia | done]. }
  rewrite Hk, Hcur. cbn. rewrite Heq.
  unfold freq_ok in *.
  rewrite !to_i32_small by lia.
  unfold tie_rank in *.
  destruct (Z.eqb_spec (freq cur - freq bc) 0) as [Hb0|Hb0].
  { destruct (Z.eqb_spec (freq bc) (freq cur)); [|lia].
    destruct (Z.eqb_spec (freq nc) (freq cur));
      match goal with |- context [?a <? ?b] => destruct (Z.ltb_spec a b) end;
      first [done | lia]. }
  rewrite !abs_ok by lia. cbn.
  destruct (Z.eqb_spec (freq bc) (freq cur)); [lia|].
  destruct (Z.eqb_spec (freq cur - freq nc) 0) as [Hn0|Hn0];
    destruct (Z.eqb_spec (freq nc) (freq cur)); try lia;
    destruct (Z.ltb_spec (Z.abs (freq cur - freq bc)) (Z.abs (freq cur - freq nc)));
    cbn;
    match goal with |- context [?a <? ?b] => destruct (Z.ltb_spec a b) end;
    first [done | lia].
Qed.

(** The loop returns the first channel of maximal preference. *)
Lemma highest_score_loop_spec ctx k cur :
  current_channel ctx = Some k → all_channels ctx !! k = Some cur →
  Forall freq_ok (all_channels ctx) →
  ∀ (pos : list nat) (b : nat) bc,
    Forall (λ i, is_Some (all_channels ctx !! i)) pos →
    all_channels ctx !! b = Some bc →
    ∃ b' bc',
      highest_score_loop ctx pos (Some b) = Ok (Some b') ∧
      b' ∈ b :: pos ∧ all_channels ctx !! b' = Some bc' ∧
      ∀ i c, i ∈ b :: pos → all_channels ctx !! i = Some c →
             preference cur c ≤ preference cur bc'.
Proof.
  intros Hk Hcur Hfreq pos.
  assert (Hf : ∀ i c, all_channels ctx !! i = Some c → freq_ok c).
  { intros i c Hi. eapply Forall_lookup_1 in Hfreq; eauto. }
  induction pos as [|n pos IH]; intros b bc Hpos Hb.
  - exists b, bc. cbn. split_and!; [done | apply list_elem_of_singleton; done | done |].
    intros i c Hi Hc. apply list_elem_of_singleton in Hi as ->.
    rewrite Hb in Hc. injection Hc as <-. lia.
  - inversion Hpos as [|? ? [nc Hn] Hpos']; subst. clear Hpos. rename Hpos' into Hpos.
    cbn [highest_score_loop].
    rewrite (highest_score_step_spec ctx k cur b bc n nc) by eauto.
    cbn.
    destruct (Z.ltb_spec (preference cur bc) (preference cur nc)) as [Hlt|Hge].
    + destruct (IH n nc Hpos Hn) as (b' & bc' & Hr & Hin & Hl & Hmax).
      exists b', bc'. split_and!; [done | | done |].
      * apply elem_of_cons. right. done.
      * intros i c Hi Hc. apply elem_of_cons in Hi as [->|Hi].
        -- rewrite Hb in Hc. injection Hc as <-.
           specialize (Hmax n nc ltac:(apply elem_of_cons; by left) Hn). lia.
        -- by apply (Hmax i c).
    + destruct (IH b bc Hpos Hb) as (b' & bc' & Hr & Hin & Hl & Hmax).
      exists b', bc'. split_and!; [done | | done |].
      * apply elem_of_cons in Hin as [->|Hin]; [by left|].
        right. apply elem_of_cons. by right.
      * intros i c Hi Hc. apply elem_of_cons in Hi as [->|Hi].
        -- apply (Hmax b c); [by left | done].
        -- apply elem_of_cons in Hi as [->|Hi].
           ++ rewrite Hn in Hc. injection Hc as <-.
              specialize (Hmax b bc ltac:(by left) Hb). lia.
           ++ apply (Hmax i c); [by right | done].
Qed.

(** The helper reads nothing but the scan list, the current-channel
    pointer and the [view] of each channel. *)
Lemma deref_view {B} ctx (ctx' : dcs B) p :
  view <$> all_channels ctx' = view <$> all_channels ctx →
  match deref ctx p, deref ctx' p with
  | Ok c, Ok c' => view c = view c'
  | Err e, Err e' => e = e'
  | _, _ => False
  end.
Proof.
  intros Hv. unfold deref. destruct p as [i|]; [|done].
  assert (Hi : view <$> (all_channels ctx' !! i) = view <$> (all_channels ctx !! i)).
  { rewrite <- !list_lookup_fmap. by rewrite Hv. }
  destruct (all_channels ctx !! i), (all_channels ctx' !! i); cbn in Hi; congruence.
Qed.

Lemma highest_score_step_view {B} ctx (ctx' : dcs B) best n :
  current_channel ctx' = current_channel ctx →
  view <$> all_channels ctx' = view <$> all_channels ctx →
  highest_score_step ctx' best n = highest_score_step ctx best n.
Proof.
  intros Hc Hv. unfold highest_score_step. destruct best as [b|]; [|done].
  pose proof (deref_view ctx ctx' (Some n) Hv) as Hn.
  pose proof (deref_view ctx ctx' (Some b) Hv) as Hb.
  pose proof (deref_view ctx ctx' (current_channel ctx) Hv) as Hcur.
  rewrite Hc.
  destruct (deref ctx (Some n)) as [nc|], (deref ctx' (Some n)) as [nc'|];
    try done; [|by subst].
  cbn.
  destruct (deref ctx (Some b)) as [bc|], (deref ctx' (Some b)) as [bc'|];
    try done; [|by subst].
  cbn. unfold view in Hn, Hb.
  injection Hn as Hn1 Hn2. injection Hb as Hb1 Hb2.
  rewrite <- Hn2, <- Hb2.
  destruct (score bc <? score nc); [done|].
  destruct (score nc =? score bc); [|done].
  destruct (deref ctx (current_channel ctx)) as [cc|],
           (deref ctx' (current_channel ctx)) as [cc'|]; try done; [|by subst].
  cbn. unfold view in Hcur. injection Hcur as Hc1 Hc2.
  by rewrite <- Hn1, <- Hb1, <- Hc1.
Qed.

Lemma highest_score_loop_view {B} ctx (ctx' : dcs B) pos best :
  current_channel ctx' = current_channel ctx →
  view <$> all_channels ctx' = view <$> all_channels ctx →
  highest_score_loop ctx' pos best = highest_score_loop ctx pos best.
Proof.
  intros Hc Hv. revert best.
  induction pos as [|n pos IH]; intros best; [done|].
  cbn. rewrite (highest_score_step_view ctx ctx') by done.
  destruct (highest_score_step ctx best n); cbn; [apply IH | done].
Qed.

(** On a valid, non-empty scan list the helper returns a channel of the
    list. *)
Lemma highest_score_some ctx k cur :
  scan_list ctx ≠ [] →
  scan_list_valid ctx →
  current_channel ctx = Some k →
  all_channels ctx !! k = Some cur →
  Forall freq_ok (all_channels ctx) →
  ∃ b best,
    dcs_algo_get_channel_with_highest_score ctx = Ok (Some b) ∧
    b ∈ scan_list ctx ∧ all_channels ctx !! b = Some best.
Proof.
  intros Hne Hvalid Hk Hcur Hfreq.
  unfold dcs_algo_get_channel_with_highest_score, scan_list_valid in *.
  destruct (scan_list ctx) as [|n pos]; [done|].
  inversion Hvalid as [|? ? [nc Hn] Hpos]; subst.
  cbn [highest_score_loop highest_score_step]. cbn.
  destruct (highest_score_loop_spec ctx k cur Hk Hcur Hfreq pos n nc Hpos Hn)
    as (b & best & Hr & Hin & Hb & _).
  by exists b, best.
Qed.

End BestChannel.

(** C1.  On a non-empty scan list the best-channel helper returns a
    channel of the list with the highest accumulated score; the answer
    depends only on the scan list, the current-channel pointer and the
    frequencies and scores, so a repeated call with unchanged scores
    returns the same pointer; among the channels that tie for the highest
    score it returns one on the current frequency if there is one (the
    current channel itself when no other listed channel shares its
    frequency), and otherwise one whose frequency is furthest from the
    current channel's. *)
Theorem best_channel_selection {A} (ctx : dcs A) (k : nat) (cur : dcs_channel) :
  scan_list ctx ≠ [] →
  scan_list_valid ctx →
  current_channel ctx = Some k →
  all_channels ctx !! k = Some cur →
  Forall freq_ok (all_channels ctx) →
  ∃ b best,
    dcs_algo_get_channel_with_highest_score ctx = Ok (Some b) ∧
    b ∈ scan_list ctx ∧
    all_channels ctx !! b = Some best ∧
    (∀ i c, i ∈ scan_list ctx → all_channels ctx !! i = Some c →
            score c ≤ score best) ∧
    (∀ B (ctx' : dcs B),
        scan_list ctx' = scan_list ctx →
        current_channel ctx' = current_channel ctx →
        view <$> all_channels ctx' = view <$> all_channels ctx →
        dcs_algo_get_channel_with_highest_score ctx' = Ok (Some b)) ∧
    (∀ i c, i ∈ scan_list ctx → all_channels ctx !! i = Some c →
            score c = score best →
            freq best = freq cur ∨
            (freq c ≠ freq cur ∧ distance cur c ≤ distance cur best)) ∧
    (k ∈ scan_list ctx → score cur = score best →
       freq best = freq cur ∧
       ((∀ j cj, j ∈ scan_list ctx → all_channels ctx !! j = Some cj →
                 freq cj = freq cur → j = k) → b = k)).
Proof.
  intros Hne Hvalid Hk Hcur Hfreq.
  unfold dcs_algo_get_channel_with_highest_score, scan_list_valid in *.
  destruct (scan_list ctx) as [|n pos] eqn:Hscan; [done|].
  inversion Hvalid as [|? ? [nc Hn] Hpos]; subst.
  cbn [highest_score_loop highest_score_step]. cbn.
  destruct (highest_score_loop_spec ctx k cur Hk Hcur Hfreq pos n nc Hpos Hn)
    as (b & best & Hr & Hin & Hb & Hmax).
  assert (Hf : ∀ i c, all_channels ctx !! i = Some c → freq_ok c).
  { intros i c Hi. eapply Forall_lookup_1 in Hfreq; eauto. }
  assert (Rmax : ∀ i c, i ∈ n :: pos → all_channels ctx !! i = Some c →
                  score c ≤ score best ∧
                  (score c = score best → tie_rank cur c ≤ tie_rank cur best)).
  { intros i c Hi Hc. specialize (Hmax i c Hi Hc). unfold preference in Hmax.
    pose proof (tie_rank_bounds cur c (Hf _ _ Hcur) (Hf _ _ Hc)).
    pose proof (tie_rank_bounds cur best (Hf _ _ Hcur) (Hf _ _ Hb)).
    split; [lia|]. intros Heq. rewrite Heq in Hmax. lia. }
  exists b, best. split_and!; try done.
  - intros i c Hi Hc. by apply (Rmax i c).
  - intros B ctx' Hs Hc Hv. rewrite Hs. cbn [highest_score_loop highest_score_step]. cbn.
    rewrite (highest_score_loop_view ctx ctx') by done. done.
  - intros i c Hi Hc Heq. destruct (Rmax i c Hi Hc) as [_ Hrank].
    specialize (Hrank Heq). unfold tie_rank, distance in *.
    pose proof (Hf _ _ Hcur) as Fc. pose proof (Hf _ _ Hc) as Fi.
    pose proof (Hf _ _ Hb) as Fb. unfold freq_ok in *.
    destruct (Z.eqb_spec (freq best) (freq cur)); [by left|].
    destruct (Z.eqb_spec (freq c) (freq cur)); [lia|]. right. split; [done|lia].
  - intros Hkin Heq. destruct (Rmax k cur Hkin Hcur) as [_ Hrank].
    specialize (Hrank Heq). unfold tie_rank in Hrank.
    pose proof (Hf _ _ Hcur) as Fc. pose proof (Hf _ _ Hb) as Fb. unfold freq_ok in *.
    rewrite Z.eqb_refl in Hrank.
    destruct (Z.eqb_spec (freq best) (freq cur)) as [Hfb|]; [|lia].
    split; [done|]. intros Huniq. by apply (Huniq b best).
Qed.

(** ** Stores through a channel pointer *)

Section Store.
Context {A : Type}.
Implicit Type ctx : dcs A.

Lemma deref_Some ctx i c : all_channels ctx !! i = Some c → deref ctx (Some i) = Ok c.
Proof. intros H. unfold deref. by rewrite H. Qed.

Lemma store_metric_Some ctx i c m :
  all_channels ctx !! i = Some c →
  store_metric ctx (Some i) m =
    Ok (set_all_channels ctx (<[i := {| ch := ch c; metric := m |}]> (all_channels ctx))).
Proof. intros H. unfold store_metric. by rewrite (deref_Some ctx i c). Qed.

(** [dcs_algo_reset_accumulated_scores] succeeds on a valid list, sets
    score and sample count of every listed channel and touches nothing
    else. *)
Lemma reset_loop_spec (pos : list nat) (v : Z) :
  ∀ ctx,
    Forall (λ i, is_Some (all_channels ctx !! i)) pos →
    ∃ ctx',
      reset_loop ctx pos v = Ok ctx' ∧
      scan_list ctx' = scan_list ctx ∧
      current_channel ctx' = current_channel ctx ∧
      algo_context ctx' = algo_context ctx ∧
      csa_in_progress ctx' = csa_in_progress ctx ∧
      csa_freq_5g ctx' = csa_freq_5g ctx ∧
      length (all_channels ctx') = length (all_channels ctx) ∧
      ∀ i c, all_channels ctx !! i = Some c →
        ∃ c', all_channels ctx' !! i = Some c' ∧
              ch c' = ch c ∧
              rounds_as_best (metric c') = rounds_as_best (metric c) ∧
              (i ∈ pos → score c' = C.u32 v ∧ n_samples (metric c') = 0) ∧
              (i ∉ pos → c' = c).
Proof.
  induction pos as [|n pos IH]; intros ctx Hpos.
  - exists ctx. split_and!; try done. intros i c Hc. exists c.
    split_and!; try done. intros Hi. by apply elem_of_nil in Hi.
  - inversion Hpos as [|? ? [nc Hn] Hpos']; subst.
    cbn [reset_loop]. rewrite (deref_Some ctx n nc Hn). cbn.
    rewrite (store_metric_Some ctx n nc _ Hn). cbn.
    set (ctx1 := set_all_channels ctx _).
    assert (Hlen : length (all_channels ctx1) = length (all_channels ctx)).
    { subst ctx1. cbn. apply length_insert. }
    destruct (IH ctx1) as (ctx' & Hr & Hs & Hc & Ha & Hp & Hq & Hl & Hall).
    { eapply List.Forall_impl; [|exact Hpos']. intros i [c Hc]. cbn in *.
      apply lookup_lt_is_Some. rewrite length_insert.
      apply lookup_lt_is_Some. eauto. }
    exists ctx'. split_and!; try done; [congruence|].
    intros i c Hi.
    destruct (decide (i = n)) as [->|Hne].
    + assert (Hi1 : all_channels ctx1 !! n = Some
                {| ch := ch nc;
                   metric := {| accumulated_score := C.u32 v; n_samples := 0;
                                rounds_as_best := rounds_as_best (metric nc) |} |}).
      { subst ctx1. cbn. apply list_lookup_insert_eq. by eapply lookup_lt_Some. }
      rewrite Hn in Hi. injection Hi as <-.
      destruct (Hall n _ Hi1) as (c' & Hc' & Hch & Hrb & Hin & Hout).
      exists c'. split_and!; try done.
      * intros _. destruct (decide (n ∈ pos)) as [Hd|Hd]; [by apply Hin|].
        rewrite (Hout Hd). done.
      * intros Hnot. exfalso. apply Hnot. by left.
    + assert (Hi1 : all_channels ctx1 !! i = Some c).
      { subst ctx1. cbn. by rewrite list_lookup_insert_ne. }
      destruct (Hall i c Hi1) as (c' & Hc' & Hch & Hrb & Hin & Hout).
      exists c'. split_and!; try done.
      * intros Hi'. apply elem_of_cons in Hi' as [?|?]; [done | by apply Hin].
      * intros Hnot. apply Hout. intros ?. apply Hnot. by right.
Qed.

End Store.

(** A witness of C1: three channels tie, the current one is kept. *)
Lemma best_channel_selection_witness :
  ∃ b best,
    dcs_algo_get_channel_with_highest_score Scenarios.tied_ctx = Ok (Some b) ∧
    b ∈ scan_list Scenarios.tied_ctx ∧
    all_channels Scenarios.tied_ctx !! b = Some best ∧
    (∀ i c, i ∈ scan_list Scenarios.tied_ctx →
            all_channels Scenarios.tied_ctx !! i = Some c → score c ≤ score best) ∧
    (∀ B (ctx' : dcs B),
        scan_list ctx' = scan_list Scenarios.tied_ctx →
        current_channel ctx' = current_channel Scenarios.tied_ctx →
        view <$> all_channels ctx' = view <$> all_channels Scenarios.tied_ctx →
        dcs_algo_get_channel_with_highest_score ctx' = Ok (Some b)) ∧
    (∀ i c, i ∈ scan_list Scenarios.tied_ctx →
            all_channels Scenarios.tied_ctx !! i = Some c →
            score c = score best →
            freq best = freq (Scenarios.channel 903500 1 3 100 0 0) ∨
            (freq c ≠ freq (Scenarios.channel 903500 1 3 100 0 0) ∧
             distance (Scenarios.channel 903500 1 3 100 0 0) c
               ≤ distance (Scenarios.channel 903500 1 3 100 0 0) best)) ∧
    (1%nat ∈ scan_list Scenarios.tied_ctx →
       score (Scenarios.channel 903500 1 3 100 0 0) = score best →
       freq best = freq (Scenarios.channel 903500 1 3 100 0 0) ∧
       ((∀ j cj, j ∈ scan_list Scenarios.tied_ctx →
                 all_channels Scenarios.tied_ctx !! j = Some cj →
                 freq cj = freq (Scenarios.channel 903500 1 3 100 0 0) → j = 1%nat) →
        b = 1%nat)).
Proof.
  apply (best_channel_selection Scenarios.tied_ctx 1
           (Scenarios.channel 903500 1 3 100 0 0)).
  - discriminate.
  - repeat constructor; eexists; reflexivity.
  - reflexivity.
  - reflexivity.
  - repeat constructor; unfold freq_ok; cbn; lia.
Defined.

(** ** ewma.c *)

Lemma apply_ewma_exact (alpha m s : Z) :
  0 ≤ alpha ≤ 100 → 0 ≤ m < 2^16 → 0 ≤ s < 2^16 →
  Ewma.apply_ewma alpha m s = (alpha * m + (100 - alpha) * s) / 100.
Proof.
  intros Ha Hm Hs. unfold Ewma.apply_ewma, Ewma.EWMA_ALPHA_MAX, C.u32, C.u16.
  rewrite (Z.mod_small alpha) by lia.
  rewrite (Z.mod_small (100 - alpha)) by lia.
  rewrite (Z.mod_small (alpha * m)) by nia.
  rewrite (Z.mod_small ((100 - alpha) * s)) by nia.
  rewrite (Z.mod_small (alpha * m + (100 - alpha) * s)) by nia.
  apply Z.mod_small. split.
  - apply Z.div_pos; nia.
  - apply Z.div_lt_upper_bound; nia.
Qed.

(** Every score the EWMA produces fits the [uint16_t] that [apply_ewma]
    returns, so the range assumed of the previous score is an invariant
    of the algorithm (it starts from METRIC_INIT_VALUE). *)
Lemma apply_ewma_range (alpha m s : Z) : 0 ≤ Ewma.apply_ewma alpha m s < 2^16.
Proof. unfold Ewma.apply_ewma, C.u16. apply Z.mod_pos_bound. lia. Qed.

(** C2.  One EWMA [process_measurement] on a channel at score [s] with a
    measurement of metric [m] stores the score
    [(alpha*m + (100-alpha)*s) / 100] (integer division) and increments
    [n_samples] by exactly one, leaving the rest of the channel and all
    other channels as they were; with alpha = 20, s = 100 and m = 50 the
    new score is 90 and a sample count of 0 becomes 1.  The configuration
    is one that [ewma_op_init] accepts, the metric is a [uint8_t] and the
    score is in the range of [apply_ewma]. *)
Theorem ewma_process_measurement_recurrence
    (ctx : dcs Ewma.ewma_context) (e : Ewma.ewma_context)
    (i : nat) (c : dcs_channel) (meas : channel_measurement) :
  algo_context ctx = Some e →
  all_channels ctx !! i = Some c →
  Ewma.EWMA_ALPHA_MIN ≤ Ewma.ewma_alpha e ≤ Ewma.EWMA_ALPHA_MAX →
  0 ≤ metric_of meas ≤ 255 →
  0 ≤ score c < 2^16 →
  n_samples (metric c) < C.INT_MAX →
  ∃ ctx' c',
    Ewma.ewma_op_process_measurement ctx meas (Some i) = Ok ctx' ∧
    all_channels ctx' !! i = Some c' ∧
    score c' =
      (Ewma.ewma_alpha e * metric_of meas + (100 - Ewma.ewma_alpha e) * score c) / 100 ∧
    n_samples (metric c') = n_samples (metric c) + 1 ∧
    ch c' = ch c ∧
    rounds_as_best (metric c') = rounds_as_best (metric c) ∧
    (∀ j, j ≠ i → all_channels ctx' !! j = all_channels ctx !! j) ∧
    (Ewma.ewma_alpha e = 20 → score c = 100 → metric_of meas = 50 →
     n_samples (metric c) = 0 →
     score c' = 90 ∧ n_samples (metric c') = 1).
Proof.
  intros He Hc Ha Hm Hs Hn.
  unfold Ewma.EWMA_ALPHA_MIN, Ewma.EWMA_ALPHA_MAX in Ha. unfold score in Hs.
  unfold Ewma.ewma_op_process_measurement.
  rewrite (deref_Some ctx i c Hc). cbn.
  unfold C.int_incr. destruct (Z.ltb_spec (n_samples (metric c)) C.INT_MAX); [|lia]. cbn.
  unfold algo_private. rewrite He. cbn.
  rewrite (store_metric_Some ctx i c _ Hc).
  eexists _, _. split; [reflexivity|]. cbn.
  split; [apply list_lookup_insert_eq; by eapply lookup_lt_Some|].
  unfold score. cbn.
  rewrite apply_ewma_exact by lia.
  split_and!; try done.
  - intros j Hj. by apply list_lookup_insert_ne.
  - intros -> -> -> ->. done.
Qed.

(** A witness of C2: scenario S2. *)
Lemma ewma_process_measurement_recurrence_witness :
  ∃ ctx' c',
    Ewma.ewma_op_process_measurement Scenarios.s2_ctx (Scenarios.measurement 50)
      (Some 0%nat) = Ok ctx' ∧
    all_channels ctx' !! 0%nat = Some c' ∧
    score c' = (20 * 50 + (100 - 20) * 100) / 100 ∧
    n_samples (metric c') = 0 + 1 ∧
    ch c' = ch (Scenarios.channel 902500 1 1 100 0 0) ∧
    rounds_as_best (metric c') = 0 ∧
    (∀ j, j ≠ 0%nat → all_channels ctx' !! j = all_channels Scenarios.s2_ctx !! j) ∧
    (20 = 20 → 100 = 100 → 50 = 50 → 0 = 0 →
     score c' = 90 ∧ n_samples (metric c') = 1).
Proof.
  apply (ewma_process_measurement_recurrence Scenarios.s2_ctx
           {| Ewma.ewma_alpha := 20; Ewma.threshold_percentage := 10;
              Ewma.rounds_for_csa := 3; Ewma.rounds_with_a_better_channel := 0 |}
           0 (Scenarios.channel 902500 1 1 100 0 0) (Scenarios.measurement 50)).
  - reflexivity.
  - reflexivity.
  - unfold Ewma.EWMA_ALPHA_MIN, Ewma.EWMA_ALPHA_MAX; cbn; lia.
  - cbn; lia.
  - unfold score; cbn; lia.
  - unfold C.INT_MAX; cbn; lia.
Defined.

(** ** sample_and_hold.c *)

Lemma calculate_threshold_exact (x pct : Z) :
  0 ≤ pct ≤ 255 → 0 ≤ x * (100 + pct) < 2^32 →
  dcs_algo_calculate_threshold x pct = x * (100 + pct) / 100.
Proof.
  intros Hp Hx. unfold dcs_algo_calculate_threshold, C.u32.
  rewrite (Z.mod_small (100 + pct)) by lia.
  by rewrite (Z.mod_small (x * (100 + pct))) by lia.
Qed.

Lemma score_fmap_insert (l : list dcs_channel) i c m :
  l !! i = Some c → accumulated_score m = accumulated_score (metric c) →
  score <$> <[i := {| ch := ch c; metric := m |}]> l = score <$> l.
Proof.
  intros Hl Hm. rewrite list_fmap_insert. apply list_insert_id.
  rewrite list_lookup_fmap, Hl. cbn. unfold score. cbn. by rewrite Hm.
Qed.

(** S3 is reached by two full rounds and the measurements of the third. *)
Lemma s3_reached (log_level : Z) :
  Scenarios.s3_before_third_evaluation log_level = Ok Scenarios.s3_ctx.
Proof.
  unfold Scenarios.s3_before_third_evaluation,
    SampleAndHold.sample_hold_op_evaluate_channels, Logging.LOG_VAR.
  destruct (Logging.LOG_LEVEL_INFO <=? log_level); vm_compute; reflexivity.
Qed.

(** The cases of the sample-and-hold [evaluate_channels]. *)
Lemma sample_hold_evaluate_channels_cases
    (log_level : Z) (ctx : dcs SampleAndHold.sample_and_hold)
    (sh : SampleAndHold.sample_and_hold) (k : nat) (cur : dcs_channel) :
  scan_list ctx ≠ [] →
  scan_list_valid ctx →
  current_channel ctx = Some k →
  all_channels ctx !! k = Some cur →
  Forall freq_ok (all_channels ctx) →
  algo_context ctx = Some sh →
  SampleAndHold.rounds_for_eval sh ≠ 0 →
  C.INT_MIN ≤ SampleAndHold.num_full_scans sh < C.INT_MAX →
  0 ≤ SampleAndHold.threshold_percentage sh ≤ 255 →
  (∀ i c, i ∈ scan_list ctx → all_channels ctx !! i = Some c →
          rounds_as_best (metric c) < C.INT_MAX) →
  (log_level < Logging.LOG_LEVEL_INFO ∨
   ∀ i c, i ∈ scan_list ctx → all_channels ctx !! i = Some c →
          C.u32 (n_samples (metric c)) ≠ 0) →
  let n' := SampleAndHold.num_full_scans sh + 1 in
  let threshold :=
    dcs_algo_calculate_threshold (score cur) (SampleAndHold.threshold_percentage sh) in
  ∃ b best ret ctx' best',
    dcs_algo_get_channel_with_highest_score ctx = Ok (Some b) ∧
    all_channels ctx !! b = Some best ∧
    SampleAndHold.sample_hold_op_evaluate_channels log_level ctx = Ok (ret, ctx') ∧
    algo_context ctx' = Some (SampleAndHold.set_num_full_scans sh n') ∧
    all_channels ctx' !! b = Some best' ∧
    rounds_as_best (metric best') = rounds_as_best (metric best) + 1 ∧
    (¬ (SampleAndHold.rounds_for_eval sh | n') →
       ret = None ∧ score <$> all_channels ctx' = score <$> all_channels ctx) ∧
    ((SampleAndHold.rounds_for_eval sh | n') →
       (threshold < score best →
          ret = Some b ∧ score <$> all_channels ctx' = score <$> all_channels ctx) ∧
       (score best ≤ threshold →
          ret = None ∧
          ∀ i c', i ∈ scan_list ctx → all_channels ctx' !! i = Some c' → score c' = 0)) ∧
    threshold =
      (score cur * (100 + SampleAndHold.threshold_percentage sh)) mod 2^32 / 100 ∧
    (0 ≤ score cur * (100 + SampleAndHold.threshold_percentage sh) < 2^32 →
       threshold = score cur * (100 + SampleAndHold.threshold_percentage sh) / 100).
Proof.
  intros Hne Hvalid Hk Hcur Hfreq Hsh Hr0 Hn Hpct Hrb Hlog n' threshold.
  destruct (highest_score_some ctx k cur Hne Hvalid Hk Hcur Hfreq)
    as (b & best & Hbest & Hin & Hb).
  remember (SampleAndHold.sample_hold_op_evaluate_channels log_level ctx) as E eqn:HE.
  unfold SampleAndHold.sample_hold_op_evaluate_channels in HE.
  rewrite Hbest in HE. cbn in HE.
  rewrite (deref_Some ctx b best Hb) in HE. cbn in HE.
  rewrite (int_incr_ok (rounds_as_best (metric best))) in HE by eauto.
  cbn in HE. rewrite (store_metric_Some ctx b best _ Hb) in HE. cbn in HE.
  set (best1 := {| ch := ch best; metric := _ |}) in HE.
  set (ctx1 := set_all_channels ctx _) in HE.
  unfold algo_private in HE. cbn in HE. rewrite Hsh in HE. cbn in HE.
  rewrite (int_incr_ok (SampleAndHold.num_full_scans sh)) in HE by lia.
  cbn in HE. fold n' in HE.
  set (ctx2 := set_algo_context ctx1 _) in HE.
  assert (Hb1 : all_channels ctx2 !! b = Some best1).
  { cbn. apply list_lookup_insert_eq. by eapply lookup_lt_Some. }
  assert (Hscore : score <$> all_channels ctx2 = score <$> all_channels ctx).
  { cbn. by apply score_fmap_insert. }
  assert (Hth : threshold =
    (score cur * (100 + SampleAndHold.threshold_percentage sh)) mod 2^32 / 100).
  { subst threshold. unfold dcs_algo_calculate_threshold, C.u32.
    by rewrite (Z.mod_small (100 + _)) by lia. }
  assert (Hex : 0 ≤ score cur * (100 + SampleAndHold.threshold_percentage sh) < 2^32 →
       threshold = score cur * (100 + SampleAndHold.threshold_percentage sh) / 100).
  { intros Hx. subst threshold. by apply calculate_threshold_exact. }
  unfold C.int_rem in HE.
  destruct (Z.eqb_spec (SampleAndHold.rounds_for_eval sh) 0) as [|_]; [done|].
  replace ((n' =? C.INT_MIN) && (SampleAndHold.rounds_for_eval sh =? -1)) with false in HE.
  2:{ symmetry. apply andb_false_iff. left. apply Z.eqb_neq. subst n'. lia. }
  cbn in HE.
  pose proof (Z.rem_divide n' (SampleAndHold.rounds_for_eval sh) Hr0) as Hdiv.
  destruct (Z.eqb_spec (Z.rem n' (SampleAndHold.rounds_for_eval sh)) 0) as [Hz|Hnz].
  2:{ exists b, best, None, ctx2, best1.
      split_and!; try done.
      - intros Hd. apply Hdiv in Hd. done. }
  apply Hdiv in Hz.
  (* the evaluation round *)
  assert (∃ cur2, all_channels ctx2 !! k = Some cur2 ∧ score cur2 = score cur)
    as (cur2 & Hcur2 & Hsc2).
  { assert (H : score <$> (all_channels ctx2 !! k) = score <$> (all_channels ctx !! k)).
    { rewrite <- !list_lookup_fmap. by rewrite Hscore. }
    rewrite Hcur in H.
    destruct (all_channels ctx2 !! k) as [cur2|]; [|done].
    exists cur2. split; [done|]. injection H as H. done. }
  rewrite Hk in HE.
  rewrite (deref_Some ctx2 k cur2 Hcur2) in HE. cbn in HE.
  rewrite (deref_Some ctx2 b best1 Hb1) in HE. cbn in HE.
  rewrite Hsc2 in HE. fold threshold in HE.
  assert (Hlogok : Logging.LOG_VAR Logging.LOG_LEVEL_INFO log_level
            (if C.u32 (n_samples (metric best)) =? 0 then Err DivByZero else Ok tt)
          = Ok tt).
  { unfold Logging.LOG_VAR.
    destruct (Z.leb_spec Logging.LOG_LEVEL_INFO log_level) as [Hl|Hl]; [|done].
    destruct Hlog as [Hlog|Hlog]; [lia|].
    specialize (Hlog b best Hin Hb).
    by destruct (Z.eqb_spec (C.u32 (n_samples (metric best))) 0). }
  rewrite Hlogok in HE. cbn in HE.
  fold (score best) in HE.
  destruct (Z.ltb_spec threshold (score best)) as [Hgt|Hle].
  { exists b, best, (Some b), ctx2, best1.
    split_and!; try done.
    intros _. split; [done|]. intros ?. lia. }
  destruct (reset_loop_spec (scan_list ctx) 0 ctx2)
    as (ctx3 & Hr & Hs3' & Hc3 & Ha3 & _ & _ & Hl3 & Hall).
  { unfold scan_list_valid in Hvalid. cbn.
    eapply List.Forall_impl; [|exact Hvalid]. intros i Hi. cbn in Hi.
    apply lookup_lt_is_Some. rewrite length_insert. by apply lookup_lt_is_Some. }
  rewrite Hr in HE. cbn in HE.
  destruct (Hall b best1 Hb1) as (best3 & Hb3 & _ & Hrb3 & _).
  exists b, best, None, ctx3, best3.
  split_and!; try done.
  intros _. split; [intros ?; lia|]. intros _. split; [done|].
  intros i c' Hi Hc'.
  assert (is_Some (all_channels ctx2 !! i)) as [c2 Hc2].
  { apply lookup_lt_is_Some. rewrite <- Hl3. apply lookup_lt_is_Some. eauto. }
  destruct (Hall i c2 Hc2) as (c3 & Hc3' & _ & _ & Hin3 & _).
  rewrite Hc' in Hc3'. injection Hc3' as <-.
  by destruct (Hin3 Hi).
Qed.

(** The sample-and-hold [evaluate_channels] where it returns.  The
    scan list is not empty and points into the channel array, there is
    a current channel, [rounds_for_eval] is not zero, the counters can
    be incremented within [int], and either nothing is logged at INFO
    level or every channel of the scan list has samples (the log line
    divides the score by the sample count).  Then the call increments
    [rounds_as_best] of the best channel and [num_full_scans].  When
    the new [num_full_scans] is not a multiple of [rounds_for_eval] it
    returns no channel and leaves every score as it was.  At a multiple
    it returns the best channel if its score exceeds the threshold of
    the current channel, computed in [uint32_t] as
    [score * (100 + threshold_percentage) / 100] (the plain integer
    quotient whenever the product fits 32 bits), with nothing reset;
    otherwise it sets the score of every channel of the scan list to 0
    and returns no channel.  In scenario S3 (A current at 300, B at 330,
    third round, 10 percent) the threshold is 330, 330 > 330 fails, no
    channel is returned and the scores are reset. *)
Theorem sample_hold_evaluate_channels_spec
    (log_level : Z) (ctx : dcs SampleAndHold.sample_and_hold)
    (sh : SampleAndHold.sample_and_hold) (k : nat) (cur : dcs_channel) :
  scan_list ctx ≠ [] →
  scan_list_valid ctx →
  current_channel ctx = Some k →
  all_channels ctx !! k = Some cur →
  Forall freq_ok (all_channels ctx) →
  algo_context ctx = Some sh →
  SampleAndHold.rounds_for_eval sh ≠ 0 →
  C.INT_MIN ≤ SampleAndHold.num_full_scans sh < C.INT_MAX →
  0 ≤ SampleAndHold.threshold_percentage sh ≤ 255 →
  (∀ i c, i ∈ scan_list ctx → all_channels ctx !! i = Some c →
          rounds_as_best (metric c) < C.INT_MAX) →
  (log_level < Logging.LOG_LEVEL_INFO ∨
   ∀ i c, i ∈ scan_list ctx → all_channels ctx !! i = Some c →
          C.u32 (n_samples (metric c)) ≠ 0) →
  let n' := SampleAndHold.num_full_scans sh + 1 in
  let threshold :=
    dcs_algo_calculate_threshold (score cur) (SampleAndHold.threshold_percentage sh) in
  ∃ b best ret ctx' best',
    dcs_algo_get_channel_with_highest_score ctx = Ok (Some b) ∧
    all_channels ctx !! b = Some best ∧
    SampleAndHold.sample_hold_op_evaluate_channels log_level ctx = Ok (ret, ctx') ∧
    algo_context ctx' = Some (SampleAndHold.set_num_full_scans sh n') ∧
    all_channels ctx' !! b = Some best' ∧
    rounds_as_best (metric best') = rounds_as_best (metric best) + 1 ∧
    (¬ (SampleAndHold.rounds_for_eval sh | n') →
       ret = None ∧ score <$> all_channels ctx' = score <$> all_channels ctx) ∧
    ((SampleAndHold.rounds_for_eval sh | n') →
       (threshold < score best →
          ret = Some b ∧ score <$> all_channels ctx' = score <$> all_channels ctx) ∧
       (score best ≤ threshold →
          ret = None ∧
          ∀ i c', i ∈ scan_list ctx → all_channels ctx' !! i = Some c' → score c' = 0)) ∧
    threshold =
      (score cur * (100 + SampleAndHold.threshold_percentage sh)) mod 2^32 / 100 ∧
    (0 ≤ score cur * (100 + SampleAndHold.threshold_percentage sh) < 2^32 →
       threshold = score cur * (100 + SampleAndHold.threshold_percentage sh) / 100) ∧
    (dcs_algo_calculate_threshold 300 10 = 330 ∧
     SampleAndHold.sample_hold_op_evaluate_channels log_level Scenarios.s3_ctx
       = Ok (None, Scenarios.s3_after)).
Proof.
  intros Hne Hvalid Hk Hcur Hfreq Hsh Hr0 Hn Hpct Hrb Hlog n' threshold.
  destruct (sample_hold_evaluate_channels_cases log_level ctx sh k cur
              Hne Hvalid Hk Hcur Hfreq Hsh Hr0 Hn Hpct Hrb Hlog)
    as (b & best & ret & ctx' & best' & H1 & H2 & H3 & H4 & H5 & H6 & H7 & H8 & H9 & H10).
  exists b, best, ret, ctx', best'.
  split_and!; try assumption; [reflexivity|].
  unfold SampleAndHold.sample_hold_op_evaluate_channels, Logging.LOG_VAR.
  destruct (Logging.LOG_LEVEL_INFO <=? log_level); vm_compute; reflexivity.
Qed.

(** Scenario S3 as an instance. *)
Lemma sample_hold_evaluate_channels_spec_witness :
  let sh := {| SampleAndHold.rounds_for_eval := 3;
               SampleAndHold.threshold_percentage := 10;
               SampleAndHold.num_full_scans := 2 |} in
  let cur := Scenarios.channel 902500 1 1 300 3 0 in
  let n' := 2 + 1 in
  let threshold := dcs_algo_calculate_threshold 300 10 in
  ∃ b best ret ctx' best',
    dcs_algo_get_channel_with_highest_score Scenarios.s3_ctx = Ok (Some b) ∧
    all_channels Scenarios.s3_ctx !! b = Some best ∧
    SampleAndHold.sample_hold_op_evaluate_channels 3 Scenarios.s3_ctx = Ok (ret, ctx') ∧
    algo_context ctx' = Some (SampleAndHold.set_num_full_scans sh n') ∧
    all_channels ctx' !! b = Some best' ∧
    rounds_as_best (metric best') = rounds_as_best (metric best) + 1 ∧
    (¬ (3 | n') →
       ret = None ∧
       score <$> all_channels ctx' = score <$> all_channels Scenarios.s3_ctx) ∧
    ((3 | n') →
       (threshold < score best →
          ret = Some b ∧
          score <$> all_channels ctx' = score <$> all_channels Scenarios.s3_ctx) ∧
       (score best ≤ threshold →
          ret = None ∧
          ∀ i c', i ∈ scan_list Scenarios.s3_ctx →
                  all_channels ctx' !! i = Some c' → score c' = 0)) ∧
    threshold = (300 * (100 + 10)) mod 2^32 / 100 ∧
    (0 ≤ 300 * (100 + 10) < 2^32 → threshold = 300 * (100 + 10) / 100) ∧
    (dcs_algo_calculate_threshold 300 10 = 330 ∧
     SampleAndHold.sample_hold_op_evaluate_channels 3 Scenarios.s3_ctx
       = Ok (None, Scenarios.s3_after)).
Proof.
  apply (sample_hold_evaluate_channels_spec 3 Scenarios.s3_ctx
           {| SampleAndHold.rounds_for_eval := 3;
              SampleAndHold.threshold_percentage := 10;
              SampleAndHold.num_full_scans := 2 |}
           0 (Scenarios.channel 902500 1 1 300 3 0)).
  - discriminate.
  - repeat constructor; eexists; reflexivity.
  - reflexivity.
  - reflexivity.
  - repeat constructor; unfold freq_ok; cbn; lia.
  - reflexivity.
  - cbn; lia.
  - unfold C.INT_MIN, C.INT_MAX; cbn; lia.
  - cbn; lia.
  - intros i c Hi Hc. unfold C.INT_MAX.
    destruct i as [|[|i]]; cbn in Hc; [| |by destruct i];
      injection Hc as <-; cbn; lia.
  - right. intros i c Hi Hc.
    destruct i as [|[|i]]; cbn in Hc; [| |by destruct i];
      injection Hc as <-; vm_compute; discriminate.
Defined.

(** C3.  The claim says of every call that it increments the two
    counters and returns no channel off the multiples of
    [rounds_for_eval].  [sample_hold_op_init] takes [rounds_for_eval]
    from the configuration without a check, where [ewma_op_init]
    refuses a [rounds_for_csa] that is not positive.  With
    [rounds_for_eval = 0] the initialisation succeeds, and every
    evaluation on the context it leaves, at any log level, divides by
    zero in [num_full_scans % rounds_for_eval]: it returns nothing,
    where the claim has it return no channel with the scores unchanged
    (1 is not a multiple of 0). *)
Lemma sample_hold_evaluate_zero_rounds :
  let ctx' :=
    set_algo_context Scenarios.s3_start
      (Some {| SampleAndHold.rounds_for_eval := 0;
               SampleAndHold.threshold_percentage := 10;
               SampleAndHold.num_full_scans := 0 |}) in
  SampleAndHoldInit.sample_hold_op_init true Scenarios.s3_start Terms.no_timing
    (Some Terms.zero_rounds_cfg)
    = Ok (0, ctx',
          {| ConfigHelpers.sec_per_scan := 1; ConfigHelpers.sec_per_round := 60 |}) ∧
  scan_list ctx' = [0; 1]%nat ∧
  current_channel ctx' = Some 0%nat ∧
  dcs_algo_get_channel_with_highest_score ctx' = Ok (Some 0%nat) ∧
  (∀ log_level,
     SampleAndHold.sample_hold_op_evaluate_channels log_level ctx' = Err DivByZero) ∧
  (∀ log_level attempt_count,
     Dcs.scan_iteration (SampleAndHold.sample_and_hold_ops log_level)
       Scenarios.hostapd_ok (λ c _, (false, c)) ctx' (Some 1%nat) attempt_count
       (Some (Scenarios.measurement 40))
       = Err DivByZero).
Proof.
  split_and!; [reflexivity..| |].
  - intros log_level. reflexivity.
  - intros log_level attempt_count. reflexivity.
Qed.


(** ** dcs.c: primary channel and secondary offset *)

Lemma int_mul_ok (a b : Z) :
  C.INT_MIN ≤ a * b ≤ C.INT_MAX → C.int_mul a b = Ok (a * b).
Proof.
  intros H. unfold C.int_mul.
  destruct (Z.leb_spec C.INT_MIN (a * b)); [|lia].
  destruct (Z.leb_spec (a * b) C.INT_MAX); [done|lia].
Qed.

Lemma land_1_even (i : Z) : (Z.land i 1 =? 0) = Z.even i.
Proof.
  change 1 with (Z.ones 1). rewrite Z.land_ones by lia.
  change (2 ^ 1) with 2. rewrite Zeven_mod. done.
Qed.

(** C7.  For a candidate channel whose band edges
    [bottom = frequency_khz - bandwidth_mhz*1000/2] and
    [top = frequency_khz + bandwidth_mhz*1000/2] are frequencies of 32
    bits, and a primary 1 MHz index [i] that is not negative: the
    primary centre computed is [bottom + i*1000 + 500] kHz for a 1 MHz
    primary and [bottom + floor(i/2)*2000 + 1000] kHz for a 2 MHz
    primary; the function returns it when it lies below [top] (its
    closing assertion).  The secondary channel offset is 0 for a 1 MHz
    target, +1 for an even index and -1 for an odd one, and this is the
    offset that the switch command carries: the command that
    [do_channel_switch] formats has the computed primary centre and
    this offset among its arguments, and it is the one command that
    the AP daemon is asked.  S4: 9200000 kHz, 4 MHz, 2 MHz primary,
    index 2 give 9201000 kHz and +1, and the request of the switch
    carries both. *)
Theorem primary_center_and_secondary_offset {A} (ctx : dcs A) (c : dcs_channel) :
  let i := current_prim_1mhz_ch_index ctx in
  let w := current_primary_ch_width ctx in
  let bw := bandwidth_mhz (ch c) in
  let bottom := frequency_khz (ch c) - bw * 1000 / 2 in
  let top := frequency_khz (ch c) + bw * 1000 / 2 in
  0 ≤ i → 0 ≤ bw ≤ 255 → 0 ≤ bottom → top < 2^32 →
  (w = 1 → bottom + i * 1000 + 500 < top →
     Dcs.calculate_new_prim_ch_center_freq ctx c = Ok (bottom + i * 1000 + 500)) ∧
  (w = 2 → bottom + i / 2 * 2000 + 1000 < top →
     Dcs.calculate_new_prim_ch_center_freq ctx c = Ok (bottom + i / 2 * 2000 + 1000)) ∧
  (bw = 1 → Dcs.calculate_sec_channel_offset ctx c = 0) ∧
  (bw ≠ 1 → Z.even i = true → Dcs.calculate_sec_channel_offset ctx c = 1) ∧
  (bw ≠ 1 → Z.odd i = true → Dcs.calculate_sec_channel_offset ctx c = -1) ∧
  (Dcs.calculate_new_prim_ch_center_freq Scenarios.s4_ctx Scenarios.s4_channel
     = Ok 9201000 ∧
   Dcs.calculate_sec_channel_offset Scenarios.s4_ctx Scenarios.s4_channel = 1) ∧
  (∀ prim,
     Dcs.ecsa_cmd ctx c prim
       = {| Dcs.cs_count := config_dtims_for_csa ctx;
            Dcs.cs_prim_center := prim;
            Dcs.cs_prim_bandwidth := w;
            Dcs.cs_sec_channel_offset :=
              if bw =? 1 then 0 else if Z.even i then 1 else -1;
            Dcs.cs_center_freq1 := frequency_khz (ch c);
            Dcs.cs_bandwidth := bw |}) ∧
  (∀ (hostapd_request : Dcs.chan_switch_cmd → list MmsmData.mmsm_data_item_t)
     (csa_timedwait : dcs A → Z → bool * dcs A) (k : nat) (prim : Z),
     config_csa_enabled ctx = true →
     all_channels ctx !! k = Some c →
     Dcs.calculate_new_prim_ch_center_freq ctx c = Ok prim →
     let cmd :=
       {| Dcs.cs_count := config_dtims_for_csa ctx;
          Dcs.cs_prim_center := prim;
          Dcs.cs_prim_bandwidth := w;
          Dcs.cs_sec_channel_offset :=
            if bw =? 1 then 0 else if Z.even i then 1 else -1;
          Dcs.cs_center_freq1 := frequency_khz (ch c);
          Dcs.cs_bandwidth := bw |} in
     Dcs.do_channel_switch hostapd_request csa_timedwait ctx (Some k)
       = Dcs.do_channel_switch (λ _, hostapd_request cmd) csa_timedwait ctx (Some k) ∧
     (hostapd_request cmd = [] →
        Dcs.do_channel_switch hostapd_request csa_timedwait ctx (Some k)
          = Ok (- C.ENODATA, set_csa ctx false 0,
                [Dcs.EvLock; Dcs.EvRequest cmd; Dcs.EvUnlock]))) ∧
  (∀ csa_timedwait : dcs unit → Z → bool * dcs unit,
     Dcs.do_channel_switch (λ _, []) csa_timedwait Scenarios.s4_ctx (Some 0%nat)
       = Ok (- C.ENODATA, set_csa Scenarios.s4_ctx false 0,
             [Dcs.EvLock;
              Dcs.EvRequest
                {| Dcs.cs_count := 5; Dcs.cs_prim_center := 9201000;
                   Dcs.cs_prim_bandwidth := 2; Dcs.cs_sec_channel_offset := 1;
                   Dcs.cs_center_freq1 := 9200000; Dcs.cs_bandwidth := 4 |};
              Dcs.EvUnlock])).
Proof.
  intros i w bw bottom top Hi Hbw Hbot Htop.
  assert (Hcmd : ∀ prim,
     Dcs.ecsa_cmd ctx c prim
       = {| Dcs.cs_count := config_dtims_for_csa ctx;
            Dcs.cs_prim_center := prim;
            Dcs.cs_prim_bandwidth := w;
            Dcs.cs_sec_channel_offset :=
              if bw =? 1 then 0 else if Z.even i then 1 else -1;
            Dcs.cs_center_freq1 := frequency_khz (ch c);
            Dcs.cs_bandwidth := bw |}).
  { intros prim. unfold Dcs.ecsa_cmd, Dcs.calculate_sec_channel_offset.
    fold bw i w. by rewrite land_1_even. }
  assert (Hq : Z.quot (bw * 1000) 2 = bw * 1000 / 2) by (apply Z.quot_div_nonneg; lia).
  assert (Hh : 0 ≤ bw * 1000 / 2 ≤ 127500).
  { split; [apply Z.div_pos; lia|]. apply Z.div_le_upper_bound; lia. }
  split_and!.
  - intros Hw Hlt. unfold Dcs.calculate_new_prim_ch_center_freq.
    fold i w bw. rewrite Hq. fold bottom top.
    rewrite Hw. cbn [Z.eqb Pos.eqb].
    rewrite (u32_small bottom) by lia.
    rewrite int_mul_ok by (unfold C.INT_MIN, C.INT_MAX; lia). cbn.
    rewrite (u32_small (bottom + i * 1000 + 500)) by lia.
    rewrite (u32_small top) by lia.
    destruct (Z.ltb_spec (bottom + i * 1000 + 500) top); [done|lia].
  - intros Hw Hlt. unfold Dcs.calculate_new_prim_ch_center_freq.
    fold i w bw. rewrite Hq. fold bottom top.
    rewrite Hw. cbn [Z.eqb Pos.eqb].
    assert (Hi2 : Z.quot i 2 = i / 2) by (apply Z.quot_div_nonneg; lia).
    rewrite Hi2.
    assert (0 ≤ i / 2) by (apply Z.div_pos; lia).
    rewrite (u32_small bottom) by lia.
    rewrite int_mul_ok by (unfold C.INT_MIN, C.INT_MAX; lia). cbn.
    rewrite int_mul_ok by (unfold C.INT_MIN, C.INT_MAX; lia). cbn.
    replace (i / 2 * 1000 * 2) with (i / 2 * 2000) by lia.
    rewrite (u32_small (bottom + i / 2 * 2000 + 1000)) by lia.
    rewrite (u32_small top) by lia.
    destruct (Z.ltb_spec (bottom + i / 2 * 2000 + 1000) top); [done|lia].
  - intros Hb. unfold Dcs.calculate_sec_channel_offset. fold bw. by rewrite Hb.
  - intros Hb He. unfold Dcs.calculate_sec_channel_offset. fold bw i.
    destruct (Z.eqb_spec bw 1); [done|]. by rewrite land_1_even, He.
  - intros Hb Ho. unfold Dcs.calculate_sec_channel_offset. fold bw i.
    destruct (Z.eqb_spec bw 1); [done|]. rewrite land_1_even.
    rewrite <- Z.negb_odd, Ho. done.
  - reflexivity.
  - reflexivity.
  - exact Hcmd.
  - intros hostapd_request csa_timedwait k prim Hen Hk Hprim cmd.
    unfold Dcs.do_channel_switch. rewrite Hen. cbn [negb].
    rewrite (deref_Some ctx k c Hk). cbn [mbind result_bind].
    rewrite Hprim. cbn [mbind result_bind]. rewrite (Hcmd prim). fold cmd.
    split; [reflexivity|]. by intros ->.
  - intros csa_timedwait. reflexivity.
Qed.

(** A witness of C7: scenario S4. *)
Lemma primary_center_and_secondary_offset_witness :
  let i := 2 in
  let w := 2 in
  let bw := 4 in
  let bottom := 9200000 - bw * 1000 / 2 in
  let top := 9200000 + bw * 1000 / 2 in
  (w = 1 → bottom + i * 1000 + 500 < top →
     Dcs.calculate_new_prim_ch_center_freq Scenarios.s4_ctx Scenarios.s4_channel
       = Ok (bottom + i * 1000 + 500)) ∧
  (w = 2 → bottom + i / 2 * 2000 + 1000 < top →
     Dcs.calculate_new_prim_ch_center_freq Scenarios.s4_ctx Scenarios.s4_channel
       = Ok (bottom + i / 2 * 2000 + 1000)) ∧
  (bw = 1 → Dcs.calculate_sec_channel_offset Scenarios.s4_ctx Scenarios.s4_channel = 0) ∧
  (bw ≠ 1 → Z.even i = true →
     Dcs.calculate_sec_channel_offset Scenarios.s4_ctx Scenarios.s4_channel = 1) ∧
  (bw ≠ 1 → Z.odd i = true →
     Dcs.calculate_sec_channel_offset Scenarios.s4_ctx Scenarios.s4_channel = -1) ∧
  (Dcs.calculate_new_prim_ch_center_freq Scenarios.s4_ctx Scenarios.s4_channel
     = Ok 9201000 ∧
   Dcs.calculate_sec_channel_offset Scenarios.s4_ctx Scenarios.s4_channel = 1) ∧
  (∀ prim,
     Dcs.ecsa_cmd Scenarios.s4_ctx Scenarios.s4_channel prim
       = {| Dcs.cs_count := 5;
            Dcs.cs_prim_center := prim;
            Dcs.cs_prim_bandwidth := w;
            Dcs.cs_sec_channel_offset :=
              if bw =? 1 then 0 else if Z.even i then 1 else -1;
            Dcs.cs_center_freq1 := 9200000;
            Dcs.cs_bandwidth := bw |}) ∧
  (∀ (hostapd_request : Dcs.chan_switch_cmd → list MmsmData.mmsm_data_item_t)
     (csa_timedwait : dcs unit → Z → bool * dcs unit) (k : nat) (prim : Z),
     config_csa_enabled Scenarios.s4_ctx = true →
     all_channels Scenarios.s4_ctx !! k = Some Scenarios.s4_channel →
     Dcs.calculate_new_prim_ch_center_freq Scenarios.s4_ctx Scenarios.s4_channel
       = Ok prim →
     let cmd :=
       {| Dcs.cs_count := 5;
          Dcs.cs_prim_center := prim;
          Dcs.cs_prim_bandwidth := w;
          Dcs.cs_sec_channel_offset :=
            if bw =? 1 then 0 else if Z.even i then 1 else -1;
          Dcs.cs_center_freq1 := 9200000;
          Dcs.cs_bandwidth := bw |} in
     Dcs.do_channel_switch hostapd_request csa_timedwait Scenarios.s4_ctx (Some k)
       = Dcs.do_channel_switch (λ _, hostapd_request cmd) csa_timedwait
           Scenarios.s4_ctx (Some k) ∧
     (hostapd_request cmd = [] →
        Dcs.do_channel_switch hostapd_request csa_timedwait Scenarios.s4_ctx (Some k)
          = Ok (- C.ENODATA, set_csa Scenarios.s4_ctx false 0,
                [Dcs.EvLock; Dcs.EvRequest cmd; Dcs.EvUnlock]))) ∧
  (∀ csa_timedwait : dcs unit → Z → bool * dcs unit,
     Dcs.do_channel_switch (λ _, []) csa_timedwait Scenarios.s4_ctx (Some 0%nat)
       = Ok (- C.ENODATA, set_csa Scenarios.s4_ctx false 0,
             [Dcs.EvLock;
              Dcs.EvRequest
                {| Dcs.cs_count := 5; Dcs.cs_prim_center := 9201000;
                   Dcs.cs_prim_bandwidth := 2; Dcs.cs_sec_channel_offset := 1;
                   Dcs.cs_center_freq1 := 9200000; Dcs.cs_bandwidth := 4 |};
              Dcs.EvUnlock])).
Proof.
  apply (primary_center_and_secondary_offset Scenarios.s4_ctx Scenarios.s4_channel).
  - cbn; lia.
  - cbn; lia.
  - vm_compute; discriminate.
  - vm_compute; reflexivity.
Defined.

(** ** dcs.c: the channel switch *)

Section ChannelSwitch.
Context {A : Type}.
Variable hostapd_request : Dcs.chan_switch_cmd → list MmsmData.mmsm_data_item_t.
Variable csa_timedwait : dcs A → Z → bool * dcs A.

(** Every return that follows the lock goes through [exit:]. *)
Lemma do_channel_switch_exit_state (ctx : dcs A) (channel : chan_ptr) ret ctx' trace :
  config_csa_enabled ctx = true →
  Dcs.do_channel_switch hostapd_request csa_timedwait ctx channel = Ok (ret, ctx', trace) →
  csa_in_progress ctx' = false ∧ csa_freq_5g ctx' = 0 ∧
  head trace = Some Dcs.EvLock ∧ last trace = Some Dcs.EvUnlock.
Proof.
  intros Hen. unfold Dcs.do_channel_switch. rewrite Hen.
  destruct channel as [j|]; [|done]. cbn.
  destruct (deref ctx (Some j)) as [c|]; [|done]. cbn.
  destruct (Dcs.calculate_new_prim_ch_center_freq ctx c) as [prim|]; [|done]. cbn.
  destruct (hostapd_request _) as [|first rest].
  { intros [= <- <- <-]. done. }
  destruct (MmsmData.mmsm_key first) as [|key]; [done|].
  destruct (bool_decide _); cbn.
  2:{ intros [= <- <- <-]. done. }
  destruct (Dcs.chan_switch_time ctx) as [t|]; [|done]. cbn.
  destruct (csa_timedwait _ t) as [timed_out ctx2].
  destruct timed_out; [intros [= <- <- <-]; done|].
  destruct (_ =? _); intros [= <- <- <-]; done.
Qed.

End ChannelSwitch.

(** The claim as stated fails on the early return: with CSA disabled by
    configuration the function returns before the lock and clears
    nothing, so a frequency captured from an earlier notification stays
    in [csa.freq_5g]. *)
Lemma do_channel_switch_disabled_keeps_frequency :
  ∃ ret ctx' trace,
    Dcs.do_channel_switch Scenarios.hostapd_ok Scenarios.wait_timeout
      Scenarios.csa_disabled_ctx (Some 1%nat) = Ok (ret, ctx', trace) ∧
    ¬ (csa_in_progress ctx' = false ∧ csa_freq_5g ctx' = 0).
Proof.
  exists 0, Scenarios.csa_disabled_ctx, []. split; [reflexivity|].
  intros [_ H]. discriminate H.
Qed.

(** C4, amended.  With CSA disabled by configuration [do_channel_switch]
    returns success at once: no lock, no request, no wait, the CSA state
    untouched.  With CSA enabled: a first key other than "OK" makes the
    call fail with -EBADR after lock, request and unlock, without a wait
    on the CSA condition; an "OK" sets [in_progress] for exactly the
    wait; and on every return [in_progress] is false and the captured
    frequency is 0. *)
Theorem do_channel_switch_spec {A}
    (hostapd_request : Dcs.chan_switch_cmd → list MmsmData.mmsm_data_item_t)
    (csa_timedwait : dcs A → Z → bool * dcs A)
    (ctx : dcs A) (j : nat) (c : dcs_channel) (prim : Z) :
  all_channels ctx !! j = Some c →
  Dcs.calculate_new_prim_ch_center_freq ctx c = Ok prim →
  let cmd := Dcs.ecsa_cmd ctx c prim in
  let call := Dcs.do_channel_switch hostapd_request csa_timedwait ctx (Some j) in
  (config_csa_enabled ctx = false → call = Ok (0, ctx, [])) ∧
  (config_csa_enabled ctx = true →
     (hostapd_request cmd = [] →
        call = Ok (- C.ENODATA, set_csa ctx false 0,
                   [Dcs.EvLock; Dcs.EvRequest cmd; Dcs.EvUnlock])) ∧
     (∀ first rest key,
        hostapd_request cmd = first :: rest →
        MmsmData.mmsm_key first = MmsmData.KeyString key →
        key ≠ C.text "OK" →
        call = Ok (- C.EBADR, set_csa ctx false 0,
                   [Dcs.EvLock; Dcs.EvRequest cmd; Dcs.EvUnlock])) ∧
     (∀ first rest t,
        hostapd_request cmd = first :: rest →
        MmsmData.mmsm_key first = MmsmData.KeyString (C.text "OK") →
        Dcs.chan_switch_time ctx = Ok t →
        let waiting := set_csa ctx true (csa_freq_5g ctx) in
        csa_in_progress waiting = true ∧
        ∃ ret,
          call = Ok (ret, set_csa (csa_timedwait waiting t).2 false 0,
                     [Dcs.EvLock; Dcs.EvRequest cmd; Dcs.EvTimedWait t; Dcs.EvUnlock]) ∧
          ((csa_timedwait waiting t).1 = true → ret = - C.ETIMEDOUT)) ∧
     (∀ ret ctx' trace,
        call = Ok (ret, ctx', trace) →
        csa_in_progress ctx' = false ∧ csa_freq_5g ctx' = 0 ∧
        head trace = Some Dcs.EvLock ∧ last trace = Some Dcs.EvUnlock)).
Proof.
  intros Hc Hprim cmd call. split.
  - intros Hdis. subst call. unfold Dcs.do_channel_switch. by rewrite Hdis.
  - intros Hen.
    assert (Hcall : call =
      match hostapd_request cmd with
      | [] => Ok (- C.ENODATA, set_csa ctx false 0,
                  [Dcs.EvLock; Dcs.EvRequest cmd] ++ [Dcs.EvUnlock])
      | first :: _ =>
          match MmsmData.mmsm_key first with
          | MmsmData.KeyU32 _ => Err OutOfBounds
          | MmsmData.KeyString key =>
              if negb (bool_decide (key = C.text "OK")) then
                Ok (- C.EBADR, set_csa ctx false 0,
                    [Dcs.EvLock; Dcs.EvRequest cmd] ++ [Dcs.EvUnlock])
              else
                t ← Dcs.chan_switch_time ctx;
                let '(timed_out, ctx2) :=
                  csa_timedwait (set_csa ctx true (csa_freq_5g ctx)) t in
                let trace := [Dcs.EvLock; Dcs.EvRequest cmd; Dcs.EvTimedWait t] in
                if timed_out then Ok (- C.ETIMEDOUT, set_csa ctx2 false 0, trace ++ [Dcs.EvUnlock])
                else if csa_freq_5g ctx2 =? current_5g_freq ctx2
                     then Ok (0, set_csa ctx2 false 0, trace ++ [Dcs.EvUnlock])
                     else Ok (- C.EPROTO, set_csa ctx2 false 0, trace ++ [Dcs.EvUnlock])
          end
      end).
    { subst call cmd. unfold Dcs.do_channel_switch. rewrite Hen. cbn.
      rewrite (deref_Some ctx j c Hc). cbn. rewrite Hprim. cbn. reflexivity. }
    split_and!.
    + intros Hnull. rewrite Hcall, Hnull. done.
    + intros first rest key Hr Hk Hne. rewrite Hcall, Hr, Hk.
      rewrite bool_decide_eq_false_2 by done. done.
    + intros first rest t Hr Hk Ht waiting. split; [done|].
      rewrite Hcall, Hr, Hk. rewrite bool_decide_eq_true_2 by done. cbn.
      rewrite Ht. cbn. fold waiting.
      destruct (csa_timedwait waiting t) as [timed_out ctx2]. cbn.
      destruct timed_out; [eexists; split; [reflexivity|done]|].
      destruct (_ =? _); eexists; (split; [reflexivity|done]).
    + intros ret ctx' trace Hret.
      exact (do_channel_switch_exit_state hostapd_request csa_timedwait ctx (Some j)
               ret ctx' trace Hen Hret).
Qed.

(** A witness of the amended C4: the AP daemon answers FAIL. *)
Lemma do_channel_switch_spec_witness :
  Dcs.do_channel_switch Scenarios.hostapd_fail Scenarios.wait_timeout
    Scenarios.csa_enabled_ctx (Some 1%nat)
  = Ok (- C.EBADR, set_csa Scenarios.csa_enabled_ctx false 0,
        [Dcs.EvLock;
         Dcs.EvRequest (Dcs.ecsa_cmd Scenarios.csa_enabled_ctx
                          (Scenarios.channel 903500 1 3 100 0 0) 903500);
         Dcs.EvUnlock]).
Proof.
  refine (proj1 (proj2 (proj2 (do_channel_switch_spec
            Scenarios.hostapd_fail Scenarios.wait_timeout Scenarios.csa_enabled_ctx 1
            (Scenarios.channel 903500 1 3 100 0 0) 903500 _ _) _))
          (Scenarios.key_only "FAIL") [] (C.text "FAIL") _ _ _).
  - reflexivity.
  - reflexivity.
  - reflexivity.
  - reflexivity.
  - reflexivity.
  - discriminate.
Defined.

(** ** The empty scan list *)







(** ** dcs.c: the scan thread drops its last channel *)

Section ScanThread.
Context {A : Type}.
Variable ops : algo_ops A.
Variable hostapd_request : Dcs.chan_switch_cmd → list MmsmData.mmsm_data_item_t.
Variable csa_timedwait : dcs A → Z → bool * dcs A.




End ScanThread.



(** ** helpers.c: the flag predicate *)

Lemma starts_with_spec (needle haystack : list ascii) :
  Helpers.starts_with needle haystack = true ↔ ∃ after, haystack = needle ++ after.
Proof.
  revert haystack. induction needle as [|a needle IH]; intros haystack; cbn.
  - split; [intros _; by exists haystack | done].
  - destruct haystack as [|b haystack].
    + split; [done | intros [after H]; discriminate].
    + case_decide as Hab.
      * subst b. rewrite IH. split; intros [after H]; exists after; congruence.
      * split; [done | intros [after H]; congruence].
Qed.

Lemma strstr_spec (haystack needle : list ascii) :
  Helpers.strstr haystack needle = true ↔ substring needle haystack.
Proof.
  unfold substring. induction haystack as [|c haystack IH]; cbn.
  - rewrite orb_false_r, starts_with_spec. split.
    + intros [after H]. by exists [], after.
    + intros (before & after & H). destruct before; [by exists after|discriminate].
  - rewrite orb_true_iff, starts_with_spec, IH. split.
    + intros [[after H]|(before & after & H)].
      * by exists [], after.
      * exists (c :: before), after. by rewrite H.
    + intros (before & after & H). destruct before as [|b before].
      * left. by exists after.
      * right. exists before, after. cbn in H. congruence.
Qed.

(** Where the key is present with a text value and the flag fits the
    1024-byte buffer, the predicate is the substring test on [[F]]. *)
Lemma mmsm_is_flag_set_in_present (res : list MmsmData.mmsm_data_item_t)
    (key flag buf value : list ascii) :
  Helpers.mmsm_find_value_by_key res key = Some buf →
  MmsmData.read_cstring buf = Ok value →
  (length flag < 1022)%nat →
  ∃ b, Helpers.mmsm_is_flag_set_in res key flag = Ok b ∧
       (b = true ↔ substring (C.text "[" ++ flag ++ C.text "]") value).
Proof.
  intros Hfind Hread Hlen. unfold Helpers.mmsm_is_flag_set_in.
  rewrite Hfind, Hread.
  destruct (Z.leb_spec 1024 (Z.of_nat (length flag) + 2)); [lia|].
  eexists. split; [reflexivity|]. apply strstr_spec.
Qed.

(** S1: AUTH is set, CONNECTED is not. *)
Lemma s1_flags :
  Helpers.mmsm_is_flag_set_in Scenarios.s1_items (C.text "flags") (C.text "AUTH") = Ok true ∧
  Helpers.mmsm_is_flag_set_in Scenarios.s1_items (C.text "flags") (C.text "CONNECTED") = Ok false.
Proof. split; vm_compute; reflexivity. Qed.

(** C9.  The code at a result without the key: [mmsm_find_value_by_key]
    returns [NULL] and [strstr] is called on it, where the claim has the
    predicate return false. *)
Theorem mmsm_is_flag_set_in_missing_key :
  Helpers.mmsm_find_value_by_key Scenarios.no_flags_items (C.text "flags") = None ∧
  Helpers.mmsm_is_flag_set_in Scenarios.no_flags_items (C.text "flags") (C.text "AUTH")
    = Err NullDeref.
Proof. split; vm_compute; reflexivity. Qed.

(** ** nl80211.c: the argument vector *)

Lemma process_attrs_spec (attrs : list (Z * attr_value)) :
  Forall attr_wf attrs →
  Nl80211.process_attrs ((attrs ≫= attr_args) ++ [Nl80211.VaInt (-1)]) =
    Ok (if forallb (λ a, attr_supported a.2) attrs then Some (attr_node <$> attrs) else None).
Proof.
  induction attrs as [|[id a] attrs IH]; intros Hwf; [reflexivity|].
  inversion Hwf as [|? ? [Hid Ha] Hwf']; subst. cbn in Hid, Ha.
  specialize (IH Hwf').
  cbn [mbind list_bind forallb fmap list_fmap].
  rewrite <- app_assoc.
  destruct (Z.eqb_spec id (-1)) as [|Hne]; [done|].
  apply Z.eqb_neq in Hne.
  set (rest := (attrs ≫= attr_args) ++ [Nl80211.VaInt (-1)]) in *.
  destruct a as [v|v|v|v|str|len bytes| |tag values];
    unfold attr_args;
    cbn [attr_tag attr_values attr_supported app andb attr_node snd fst];
    cbn [Nl80211.process_attrs]; rewrite Hne.
  1-5: cbn; rewrite IH; cbn; by destruct (forallb _ attrs).
  - cbn.
    destruct (Z.leb_spec 0 len); [|lia].
    destruct (Z.leb_spec len (Z.of_nat (length bytes))); [|lia].
    cbn. rewrite IH. cbn. by destruct (forallb _ attrs).
  - reflexivity.
  - assert (Hnt : ∀ t, t ∈ [Nl80211.NLA_U8; Nl80211.NLA_U16; Nl80211.NLA_U32;
                            Nl80211.NLA_U64; Nl80211.NLA_STRING; Nl80211.NLA_BINARY;
                            Nl80211.NLA_FLAG] → (tag =? t) = false).
    { intros t Ht. apply Z.eqb_neq. intros ->. done. }
    rewrite !Hnt by (repeat constructor). reflexivity.
Qed.

(** The claim as stated fails on the FLAG tag: it shares the [default]
    label, so the tree is freed and the result is null. *)
Lemma process_request_args_rejects_flag :
  Nl80211.backend_nl80211_process_request_args
    (request_args 103 0 [(1, AttrU32 7); (2, AttrFlag)]) = Ok [] ∧
  Nl80211.backend_nl80211_process_request_args
    [Nl80211.VaInt 103; Nl80211.VaInt 0; Nl80211.VaInt 2;
     Nl80211.VaInt Nl80211.NLA_FLAG; Nl80211.VaInt (-1)] = Ok [].
Proof. split; reflexivity. Qed.

(** C6, amended.  For every generic-netlink argument vector
    [process_request_args] accepts the six type tags U8, U16, U32, U64,
    STRING and BINARY, building the request tree [{key = cmd-id,
    value = flags}] followed by one attribute node per attribute, and
    returns a null request tree exactly when some attribute carries
    another tag, FLAG included. *)
Theorem process_request_args_spec (cmd flags : Z) (attrs : list (Z * attr_value)) :
  Forall attr_wf attrs →
  (Forall (λ a, attr_supported a.2 = true) attrs →
     Nl80211.backend_nl80211_process_request_args (request_args cmd flags attrs)
       = Ok (request_head cmd flags :: (attr_node <$> attrs))) ∧
  (Exists (λ a, attr_supported a.2 = false) attrs →
     Nl80211.backend_nl80211_process_request_args (request_args cmd flags attrs)
       = Ok []) ∧
  (Nl80211.backend_nl80211_process_request_args (request_args cmd flags attrs) = Ok [] ↔
     ∃ a, a ∈ attrs ∧
          attr_tag a.2 ∉ [Nl80211.NLA_U8; Nl80211.NLA_U16; Nl80211.NLA_U32;
                          Nl80211.NLA_U64; Nl80211.NLA_STRING; Nl80211.NLA_BINARY]).
Proof.
  intros Hwf.
  assert (Hrun : Nl80211.backend_nl80211_process_request_args (request_args cmd flags attrs)
    = Ok (if forallb (λ a, attr_supported a.2) attrs
          then request_head cmd flags :: (attr_node <$> attrs) else [])).
  { unfold Nl80211.backend_nl80211_process_request_args, request_args.
    rewrite (process_attrs_spec attrs Hwf). cbn. by destruct (forallb _ attrs). }
  assert (Hall : forallb (λ a, attr_supported a.2) attrs = true ↔
                 Forall (λ a, attr_supported a.2 = true) attrs).
  { rewrite forallb_forall, Forall_forall. split; intros H x Hx; apply H.
    - by apply list_elem_of_In.
    - by apply list_elem_of_In. }
  assert (Htag : ∀ a, attr_wf a →
    (attr_supported a.2 = false ↔
     attr_tag a.2 ∉ [Nl80211.NLA_U8; Nl80211.NLA_U16; Nl80211.NLA_U32;
                     Nl80211.NLA_U64; Nl80211.NLA_STRING; Nl80211.NLA_BINARY])).
  { intros [id a] [_ Ha]. cbn in *.
    destruct a; cbn; split; try done.
    all: try (intros H; exfalso; apply H; repeat constructor; fail).
    - intros _ H. repeat (apply elem_of_cons in H as [H|H]; [discriminate H|]).
      by apply elem_of_nil in H.
    - intros _ H. apply Ha.
      repeat (apply elem_of_cons in H as [H|H]; [rewrite H; repeat constructor|]).
      by apply elem_of_nil in H. }
  assert (Hcase :
    (Forall (λ a, attr_supported a.2 = true) attrs ∧
     Nl80211.backend_nl80211_process_request_args (request_args cmd flags attrs)
       = Ok (request_head cmd flags :: (attr_node <$> attrs))) ∨
    (Exists (λ a, attr_supported a.2 = false) attrs ∧
     Nl80211.backend_nl80211_process_request_args (request_args cmd flags attrs) = Ok [])).
  { rewrite Hrun. destruct (forallb (λ a, attr_supported a.2) attrs) eqn:E.
    - left. split; [|done]. by apply Hall.
    - right. split; [|done].
      assert (¬ Forall (λ a, attr_supported a.2 = true) attrs) as Hn.
      { intros H. apply Hall in H. congruence. }
      apply not_Forall_Exists in Hn; [|intros a; apply _].
      eapply Exists_impl; [exact Hn|]. intros a Ha. cbn in Ha.
      by destruct (attr_supported a.2). }
  clear Hrun Hall.
  split_and!.
  - intros Hsup. destruct Hcase as [[_ H]|[Hex _]]; [done|].
    apply Exists_exists in Hex as (a & Ha & Hf).
    rewrite Forall_forall in Hsup. specialize (Hsup a Ha). congruence.
  - intros Hex. destruct Hcase as [[Hsup _]|[_ H]]; [|done].
    apply Exists_exists in Hex as (a & Ha & Hf).
    rewrite Forall_forall in Hsup. specialize (Hsup a Ha). congruence.
  - rewrite Forall_forall in Hwf.
    destruct Hcase as [[Hsup H]|[Hex H]]; rewrite H.
    + split; [done|]. intros (a & Ha & Htg). exfalso.
      rewrite Forall_forall in Hsup.
      apply (Htag a (Hwf a Ha)) in Htg. specialize (Hsup a Ha). congruence.
    + split; [|done]. intros _.
      apply Exists_exists in Hex as (a & Ha & Hf).
      exists a. split; [done|]. by apply (Htag a (Hwf a Ha)).
Qed.

(** A witness of the amended C6: a vector with one attribute of each
    accepted tag. *)
Lemma process_request_args_spec_witness :
  Nl80211.backend_nl80211_process_request_args
    (request_args 103 0
       [(1, AttrU8 7); (2, AttrU16 8); (3, AttrU32 9); (4, AttrU64 10);
        (5, AttrString (C.text "wlan0")); (6, AttrBinary 2 (C.text "abc"))])
  = Ok (request_head 103 0 ::
        (attr_node <$>
           [(1, AttrU8 7); (2, AttrU16 8); (3, AttrU32 9); (4, AttrU64 10);
            (5, AttrString (C.text "wlan0")); (6, AttrBinary 2 (C.text "abc"))])).
Proof.
  refine (proj1 (process_request_args_spec 103 0 _ _) _).
  - repeat constructor; cbn; lia.
  - repeat constructor.
Defined.

(** ** dcs_test.c: the replay source *)

Lemma pop_loop_miss (l : list DcsTest.channel_measurement_list_per_ch) (freq_khz : Z) :
  Forall (λ q, per_ch_freq q ≠ freq_khz) l →
  DcsTest.pop_loop l freq_khz = Ok (None, l).
Proof.
  induction l as [|q l IH]; intros H; [done|].
  inversion H as [|? ? Hq Hl]; subst. cbn. unfold per_ch_freq in Hq.
  destruct (Z.eqb_spec (frequency_khz (DcsTest.per_ch_info q)) freq_khz); [done|].
  by rewrite (IH Hl).
Qed.

Lemma pop_loop_hit (pre post : list DcsTest.channel_measurement_list_per_ch) p
    (freq_khz : Z) m ms :
  Forall (λ q, per_ch_freq q ≠ freq_khz) pre →
  per_ch_freq p = freq_khz →
  DcsTest.channel_sample_list p = m :: ms →
  DcsTest.pop_loop (pre ++ p :: post) freq_khz = Ok (Some m, pre ++ popped p ms ++ post).
Proof.
  intros Hpre Hp Hq. induction pre as [|q pre IH].
  - cbn. unfold per_ch_freq in Hp. rewrite Hp, Z.eqb_refl, Hq. by destruct ms.
  - inversion Hpre as [|? ? Hq' Hpre']; subst. cbn. unfold per_ch_freq in Hq'.
    destruct (Z.eqb_spec (frequency_khz (DcsTest.per_ch_info q)) (per_ch_freq p)); [done|].
    by rewrite (IH Hpre').
Qed.

(** The first queue on a frequency, if there is one. *)
Lemma first_queue (l : list DcsTest.channel_measurement_list_per_ch) (freq_khz : Z) :
  Forall (λ q, per_ch_freq q ≠ freq_khz) l ∨
  ∃ pre p post, l = pre ++ p :: post ∧
                Forall (λ q, per_ch_freq q ≠ freq_khz) pre ∧ per_ch_freq p = freq_khz.
Proof.
  induction l as [|q l IH]; [by left|].
  destruct (decide (per_ch_freq q = freq_khz)) as [Hq|Hq].
  - right. by exists [], q, l.
  - destruct IH as [IH|(pre & p & post & -> & Hpre & Hp)].
    + left. by constructor.
    + right. exists (q :: pre), p, post. split_and!; [done| |done]. by constructor.
Qed.

Lemma total_samples_app l1 l2 :
  total_samples (l1 ++ l2) = (total_samples l1 + total_samples l2)%nat.
Proof. unfold total_samples. apply sum_list_with_app. Qed.

Lemma total_samples_cons p l :
  total_samples (p :: l) = (length (DcsTest.channel_sample_list p) + total_samples l)%nat.
Proof. reflexivity. Qed.

Lemma total_samples_popped p ms : total_samples (popped p ms) = length ms.
Proof. destruct ms; cbn; [done|]. unfold total_samples. cbn. lia. Qed.

Lemma total_samples_empty l : replay_wf l → (l = [] ↔ total_samples l = 0%nat).
Proof.
  intros Hwf. split; [by intros ->|].
  destruct l as [|p l]; [done|]. inversion Hwf as [|? ? Hp _]; subst.
  unfold total_samples. cbn. destruct (DcsTest.channel_sample_list p); [done|]. cbn. lia.
Qed.

(** One request: what is returned, what is left, when the halt is
    signalled. *)
Lemma pop_channel_measurement_spec (l : list DcsTest.channel_measurement_list_per_ch)
    (freq_khz : Z) :
  replay_wf l →
  ∃ meas l' halt,
    DcsTest.pop_channel_measurement l freq_khz = Ok (meas, l', halt) ∧
    replay_wf l' ∧
    (total_samples l' + (if meas is Some _ then 1 else 0) = total_samples l)%nat ∧
    (halt = true ↔ total_samples l' = 0%nat).
Proof.
  intros Hwf. unfold DcsTest.pop_channel_measurement.
  destruct (first_queue l freq_khz) as [Hmiss|(pre & p & post & -> & Hpre & Hp)].
  - rewrite (pop_loop_miss l freq_khz Hmiss). cbn.
    exists None, l, (bool_decide (l = [])). split_and!; [done|done|lia|].
    rewrite bool_decide_eq_true. by apply total_samples_empty.
  - apply Forall_app in Hwf as [Hwpre Hwpost].
    destruct (proj1 (Forall_cons _ _ _) Hwpost) as [Hq Hwpost'].
    destruct (DcsTest.channel_sample_list p) as [|m ms] eqn:Eq; [done|].
    rewrite (pop_loop_hit pre post p freq_khz m ms Hpre Hp Eq). cbn.
    assert (Hwf' : replay_wf (pre ++ popped p ms ++ post)).
    { apply Forall_app. split; [done|]. apply Forall_app. split; [|done].
      destruct ms; cbn; [constructor|]. by repeat constructor. }
    eexists (Some m), _, _. split_and!; [reflexivity|done| |].
    + rewrite !total_samples_app, total_samples_popped, total_samples_cons, Eq.
      cbn. lia.
    + rewrite bool_decide_eq_true. by apply total_samples_empty.
Qed.

Lemma returned_cons meas halt outcomes :
  returned ((meas, halt) :: outcomes) =
    ((if meas is Some _ then 1 else 0) + returned outcomes)%nat.
Proof.
  unfold returned. rewrite filter_cons. cbn.
  destruct meas; cbn.
  - rewrite decide_True by eauto. done.
  - rewrite decide_False; [done|]. by intros [? ?].
Qed.

(** The halt is signalled by exactly those requests after which every
    measurement of the store has been returned. *)
Lemma replay_spec (requests : list Z) :
  ∀ l, replay_wf l →
  ∃ outcomes,
    DcsTest.replay l requests = Ok outcomes ∧
    length outcomes = length requests ∧
    ∀ k meas halt, outcomes !! k = Some (meas, halt) →
      (halt = true ↔ returned (take (S k) outcomes) = total_samples l).
Proof.
  induction requests as [|freq_khz requests IH]; intros l Hwf.
  - exists []. split_and!; [done|done|]. intros k ? ? H. by rewrite lookup_nil in H.
  - destruct (pop_channel_measurement_spec l freq_khz Hwf)
      as (meas & l' & halt & Hpop & Hwf' & Htot & Hhalt).
    destruct (IH l' Hwf') as (outcomes & Hrun & Hlen & Hk).
    exists ((meas, halt) :: outcomes). cbn [DcsTest.replay].
    rewrite Hpop. cbn [mbind result_bind]. rewrite Hrun. cbn [mbind result_bind].
    split_and!; [done|by cbn; rewrite Hlen|].
    intros k meas' halt' Hlook. destruct k as [|k].
    + injection Hlook as <- <-.
      change (take 1 ((meas, halt) :: outcomes)) with [(meas, halt)].
      rewrite returned_cons. change (returned []) with 0%nat.
      rewrite Hhalt. lia.
    + cbn in Hlook. change (take (S (S k)) ((meas, halt) :: outcomes))
        with ((meas, halt) :: take (S k) outcomes).
      rewrite returned_cons, (Hk k meas' halt' Hlook). lia.
Qed.

Lemma returned_all (outcomes : list (option channel_measurement * bool)) :
  Forall (λ o, is_Some o.1) outcomes → returned outcomes = length outcomes.
Proof.
  induction outcomes as [|[meas halt] outcomes IH]; intros H; [done|].
  inversion H as [|? ? [m Hm] H']; subst. cbn in Hm. subst meas.
  rewrite returned_cons, (IH H'). done.
Qed.

(** The claim as stated fails: the request that returns the last
    measurement of the store signals the halt itself, before any further
    request is made. *)
Lemma replay_halts_on_last_measurement :
  total_samples Scenarios.replay_single = 1%nat ∧
  DcsTest.replay Scenarios.replay_single [902500]
    = Ok [(Some (Scenarios.measurement 40), true)].
Proof. split; reflexivity. Qed.

(** C5, amended.  In a replay store that holds N measurements, a request
    for a frequency that has a queue pops and returns the head of that
    queue, and a request for a frequency without a queue returns nothing
    and leaves the store as it is.  The halt is signalled by exactly
    those requests after which all N measurements have been returned:
    when each of the first requests returns a measurement, the halt is
    first signalled by request N, the one that returns the last
    measurement, and by every later request. *)
Theorem replay_exhaustion (per_ch_list : list DcsTest.channel_measurement_list_per_ch)
    (requests : list Z) :
  replay_wf per_ch_list →
  let N := total_samples per_ch_list in
  (∀ freq_khz pre p post m ms,
     per_ch_list = pre ++ p :: post →
     Forall (λ q, per_ch_freq q ≠ freq_khz) pre →
     per_ch_freq p = freq_khz →
     DcsTest.channel_sample_list p = m :: ms →
     DcsTest.pop_channel_measurement per_ch_list freq_khz
       = Ok (Some m, pre ++ popped p ms ++ post, bool_decide (N = 1%nat))) ∧
  (∀ freq_khz,
     Forall (λ q, per_ch_freq q ≠ freq_khz) per_ch_list →
     DcsTest.pop_channel_measurement per_ch_list freq_khz
       = Ok (None, per_ch_list, bool_decide (N = 0%nat))) ∧
  ∃ outcomes,
    DcsTest.replay per_ch_list requests = Ok outcomes ∧
    length outcomes = length requests ∧
    (∀ k meas halt, outcomes !! k = Some (meas, halt) →
       (halt = true ↔ returned (take (S k) outcomes) = N)) ∧
    (∀ k meas halt,
       Forall (λ o, is_Some o.1) (take (S k) outcomes) →
       outcomes !! k = Some (meas, halt) →
       (halt = true ↔ S k = N)).
Proof.
  intros Hwf N. split_and!.
  - intros freq_khz pre p post m ms -> Hpre Hp Hq.
    unfold DcsTest.pop_channel_measurement.
    rewrite (pop_loop_hit pre post p freq_khz m ms Hpre Hp Hq). cbn [mbind result_bind].
    do 2 f_equal. apply bool_decide_ext.
    assert (Hwf' : replay_wf (pre ++ popped p ms ++ post)).
    { apply Forall_app in Hwf as [Hwpre Hwpost].
      destruct (proj1 (Forall_cons _ _ _) Hwpost) as [_ Hwpost'].
      apply Forall_app. split; [done|]. apply Forall_app. split; [|done].
      destruct ms; cbn; [constructor|]. by repeat constructor. }
    rewrite (total_samples_empty _ Hwf'). subst N.
    rewrite !total_samples_app, total_samples_popped, total_samples_cons, Hq.
    cbn. lia.
  - intros freq_khz Hmiss. unfold DcsTest.pop_channel_measurement.
    rewrite (pop_loop_miss per_ch_list freq_khz Hmiss). cbn [mbind result_bind].
    do 2 f_equal. apply bool_decide_ext. by apply total_samples_empty.
  - destruct (replay_spec requests per_ch_list Hwf) as (outcomes & Hrun & Hlen & Hk).
    exists outcomes. split_and!; [done|done|done|].
    intros k meas halt Hall Hlook. rewrite (Hk k meas halt Hlook).
    rewrite (returned_all _ Hall), length_take.
    apply lookup_lt_Some in Hlook. fold N. lia.
Qed.

(** A witness of the amended C5: three measurements, four requests. *)
Lemma replay_exhaustion_witness :
  let per_ch_list := Scenarios.replay_store in
  let N := total_samples per_ch_list in
  (∀ freq_khz pre p post m ms,
     per_ch_list = pre ++ p :: post →
     Forall (λ q, per_ch_freq q ≠ freq_khz) pre →
     per_ch_freq p = freq_khz →
     DcsTest.channel_sample_list p = m :: ms →
     DcsTest.pop_channel_measurement per_ch_list freq_khz
       = Ok (Some m, pre ++ popped p ms ++ post, bool_decide (N = 1%nat))) ∧
  (∀ freq_khz,
     Forall (λ q, per_ch_freq q ≠ freq_khz) per_ch_list →
     DcsTest.pop_channel_measurement per_ch_list freq_khz
       = Ok (None, per_ch_list, bool_decide (N = 0%nat))) ∧
  ∃ outcomes,
    DcsTest.replay per_ch_list [902500; 903500; 903500; 903500] = Ok outcomes ∧
    length outcomes = 4%nat ∧
    (∀ k meas halt, outcomes !! k = Some (meas, halt) →
       (halt = true ↔ returned (take (S k) outcomes) = N)) ∧
    (∀ k meas halt,
       Forall (λ o, is_Some o.1) (take (S k) outcomes) →
       outcomes !! k = Some (meas, halt) →
       (halt = true ↔ S k = N)).
Proof.
  apply (replay_exhaustion Scenarios.replay_store [902500; 903500; 903500; 903500]).
  repeat constructor; discriminate.
Defined.

(** The run of the witness, evaluated. *)
Lemma replay_store_run :
  DcsTest.replay Scenarios.replay_store [902500; 903500; 903500; 903500]
    = Ok [(Some (Scenarios.measurement 40), false);
          (Some (Scenarios.measurement 50), false);
          (Some (Scenarios.measurement 60), true);
          (None, true)].
Proof. reflexivity. Qed.

(** ** hostapd_ctrl.c: the response parser *)

Lemma parse_output_loop_unfold (s : list ascii) :
  HostapdCtrl.parse_output_loop s =
    match HostapdCtrl.strtok_r s [HostapdCtrl.newline] [] with
    | None => Ok (Some [])
    | Some (token, save_ptr, after) =>
        match HostapdCtrl.parse_item token after MmsmData.mmsm_data_item_alloc with
        | Err f => Err f
        | Ok (ret, item) =>
            if ret =? 0 then
              match HostapdCtrl.parse_output_loop save_ptr with
              | Ok (Some items) => Ok (Some (item :: items))
              | r => r
              end
            else Ok None
        end
    end.
Proof.
  funelim (HostapdCtrl.parse_output_loop s);
    match goal with
    | H : HostapdCtrl.strtok_r _ _ _ = _ |- _ => by rewrite H
    end.
Qed.

Section Tokens.
Variable delim : list ascii.

Lemma free_of_app (bad1 bad2 s : list ascii) :
  free_of (bad1 ++ bad2) s → free_of bad1 s ∧ free_of bad2 s.
Proof.
  unfold free_of, HostapdCtrl.is_delimiter. intros H.
  split; eapply List.Forall_impl; try exact H; cbn; intros c Hc;
    apply bool_decide_eq_false in Hc; apply bool_decide_eq_false;
    intros Hin; apply Hc; apply elem_of_app; auto.
Qed.

Lemma free_of_concat (bad s1 s2 : list ascii) :
  free_of bad s1 → free_of bad s2 → free_of bad (s1 ++ s2).
Proof. intros H1 H2. apply Forall_app. by split. Qed.

Lemma skip_delimiters_token (c : ascii) (s : list ascii) :
  HostapdCtrl.is_delimiter delim c = false →
  HostapdCtrl.skip_delimiters delim (c :: s) = c :: s.
Proof. intros H. cbn. by rewrite H. Qed.

Lemma scan_token_delimiter (t rest : list ascii) (d : ascii) :
  free_of delim t → HostapdCtrl.is_delimiter delim d = true →
  HostapdCtrl.scan_token delim (t ++ d :: rest) = (t, Some rest).
Proof.
  intros Ht Hd. induction t as [|c t IH]; cbn.
  - by rewrite Hd.
  - inversion Ht as [|? ? Hc Ht']; subst. rewrite Hc, (IH Ht'). done.
Qed.

Lemma scan_token_end (t : list ascii) :
  free_of delim t → HostapdCtrl.scan_token delim t = (t, None).
Proof.
  intros Ht. induction t as [|c t IH]; cbn; [done|].
  inversion Ht as [|? ? Hc Ht']; subst. rewrite Hc, (IH Ht'). done.
Qed.

Lemma strtok_r_delimiter (t rest beyond : list ascii) (d : ascii) :
  t ≠ [] → free_of delim t → HostapdCtrl.is_delimiter delim d = true →
  HostapdCtrl.strtok_r (t ++ d :: rest) delim beyond
    = Some (t, rest, rest ++ MmsmData.NUL :: beyond).
Proof.
  intros Hne Ht Hd. unfold HostapdCtrl.strtok_r.
  destruct t as [|c t]; [done|]. inversion Ht as [|? ? Hc Ht']; subst.
  change ((c :: t) ++ d :: rest) with (c :: (t ++ d :: rest)).
  rewrite (skip_delimiters_token c _ Hc).
  change (c :: (t ++ d :: rest)) with ((c :: t) ++ d :: rest).
  by rewrite (scan_token_delimiter (c :: t) rest d Ht Hd).
Qed.

Lemma strtok_r_end (t beyond : list ascii) :
  t ≠ [] → free_of delim t →
  HostapdCtrl.strtok_r t delim beyond = Some (t, [], beyond).
Proof.
  intros Hne Ht. unfold HostapdCtrl.strtok_r.
  destruct t as [|c t]; [done|]. inversion Ht as [|? ? Hc Ht']; subst.
  rewrite (skip_delimiters_token c _ Hc).
  by rewrite (scan_token_end (c :: t) Ht).
Qed.

End Tokens.

Lemma after_char_found (c : ascii) (t rest : list ascii) :
  Forall (λ x, x ≠ c) t → HostapdCtrl.after_char c (t ++ c :: rest) = Some rest.
Proof.
  intros Ht. induction t as [|x t IH]; cbn.
  - by rewrite decide_True.
  - inversion Ht as [|? ? Hx Ht']; subst. rewrite decide_False by done. by apply IH.
Qed.

Lemma read_cstring_app (s rest : list ascii) :
  Forall (λ x, x ≠ MmsmData.NUL) s →
  MmsmData.read_cstring (s ++ MmsmData.NUL :: rest) = Ok s.
Proof.
  intros Hs. induction s as [|x s IH]; cbn.
  - by rewrite decide_True.
  - inversion Hs as [|? ? Hx Hs']; subst. rewrite decide_False by done.
    by rewrite (IH Hs').
Qed.

Lemma free_of_not (bad s : list ascii) (c : ascii) :
  c ∈ bad → free_of bad s → Forall (λ x, x ≠ c) s.
Proof.
  intros Hc Hs. eapply List.Forall_impl; [|exact Hs]. cbn. intros x Hx ->.
  unfold HostapdCtrl.is_delimiter in Hx. by apply bool_decide_eq_false in Hx.
Qed.

Lemma is_delimiter_singleton (c d : ascii) :
  HostapdCtrl.is_delimiter [d] c = false ↔ c ≠ d.
Proof.
  unfold HostapdCtrl.is_delimiter. rewrite bool_decide_eq_false.
  by rewrite list_elem_of_singleton.
Qed.

(** The first token of a well-formed line is its tag and key. *)
Lemma line_first_token (l : response_line) :
  line_wf l →
  let token := (if line_tag l is Some t then C.text "<" ++ t ++ C.text ">" else [])
               ++ line_key l in
  token ≠ [] ∧ free_of (C.text "= ") token ∧ free_of [HostapdCtrl.newline] token.
Proof.
  intros (Hkey & Htag & _) token. subst token.
  apply free_of_app in Hkey as [Hk1 Hk2].
  assert (Hknl : free_of [HostapdCtrl.newline] (line_key l)).
  { eapply List.Forall_impl; [|exact Hk2]. cbn. intros c Hc.
    apply is_delimiter_singleton. intros ->. discriminate Hc. }
  destruct (line_tag l) as [t|].
  - apply free_of_app in Htag as [Ht1 Ht2].
    assert (Ht3 : free_of (C.text "= ") t).
    { eapply List.Forall_impl; [|exact Ht1]. cbn. intros c Hc.
      unfold HostapdCtrl.is_delimiter in *.
      apply bool_decide_eq_false in Hc. apply bool_decide_eq_false.
      intros Hin. apply Hc.
      apply (proj2 (elem_of_app (C.text "= ") (C.text ">") c)). by left. }
    assert (Htnl : free_of [HostapdCtrl.newline] t).
    { eapply List.Forall_impl; [|exact Ht2]. cbn. intros c Hc.
      apply is_delimiter_singleton. intros ->. discriminate Hc. }
    split_and!; [done| |].
    + repeat apply free_of_concat; try done; by repeat constructor.
    + repeat apply free_of_concat; try done; by repeat constructor.
  - destruct Htag as (c & k & Hk & Hc). cbn. rewrite Hk in *. done.
Qed.

(** [parse_item] on a well-formed line. *)
Lemma parse_item_line (l : response_line) (beyond : list ascii) :
  line_wf l →
  HostapdCtrl.parse_item (line_body l) beyond MmsmData.mmsm_data_item_alloc
    = Ok (0, line_item l).
Proof.
  intros Hwf. destruct (line_first_token l Hwf) as (Hne & Htok & _).
  destruct Hwf as (Hkey & Htag & Hval).
  apply free_of_app in Hkey as [Hk1 Hk2].
  assert (Hknul : Forall (λ x, x ≠ MmsmData.NUL) (line_key l)).
  { apply (free_of_not [HostapdCtrl.newline; MmsmData.NUL] _ MmsmData.NUL); [|done].
    by repeat constructor. }
  unfold line_body, line_item. unfold HostapdCtrl.parse_item.
  rewrite app_assoc.
  set (token := (if line_tag l is Some t then _ else []) ++ line_key l) in *.
  assert (Hkeyok : ∀ after,
    match token with
    | c :: _ => if decide (c = "<"%char) then HostapdCtrl.skip_tag token after else Ok token
    | [] => Ok token
    end = Ok (line_key l)).
  { intros after. subst token. destruct (line_tag l) as [t|].
    - cbn [app C.text String.list_ascii_of_string]. rewrite decide_True by done.
      unfold HostapdCtrl.skip_tag.
      apply free_of_app in Htag as [Ht1 _].
      assert (Htgt : Forall (λ x, x ≠ ">"%char) t).
      { apply (free_of_not (C.text "= >") _ ">"%char); [|done].
        by repeat constructor. }
      replace (("<"%char :: (t ++ [">"%char]) ++ line_key l) ++ MmsmData.NUL :: after)
        with (("<"%char :: t) ++ ">"%char :: (line_key l ++ MmsmData.NUL :: after)).
      2:{ cbn. by rewrite <- !app_assoc. }
      rewrite after_char_found by (constructor; done).
      by apply read_cstring_app.
    - destruct Htag as (c & k & Hk & Hc). cbn. rewrite Hk.
      by rewrite decide_False. }
  destruct (line_value l) as [v|].
  - destruct Hval as (Hsep & Hvne & Hv & _). apply free_of_app in Hv as [Hv1 _].
    rewrite (strtok_r_delimiter (C.text "= ") token _ beyond (line_sep l) Hne Htok Hsep).
    rewrite Hkeyok. cbn [mbind result_bind].
    destruct (line_rest l) as [r|].
    + change (v ++ C.text "=" ++ r) with (v ++ "="%char :: r).
      by rewrite (strtok_r_delimiter (C.text "=") v r beyond "="%char Hvne Hv1 eq_refl).
    + rewrite app_nil_r.
      by rewrite (strtok_r_end (C.text "=") v beyond Hvne Hv1).
  - rewrite app_nil_r.
    rewrite (strtok_r_end (C.text "= ") token beyond Hne Htok).
    rewrite Hkeyok. cbn [mbind result_bind]. done.
Qed.

Lemma line_body_no_newline (l : response_line) :
  line_wf l → line_body l ≠ [] ∧ free_of [HostapdCtrl.newline] (line_body l).
Proof.
  intros Hwf. destruct (line_first_token l Hwf) as (Hne & _ & Hnl).
  destruct Hwf as (_ & _ & Hval). unfold line_body.
  set (token := (if line_tag l is Some t then _ else []) ++ line_key l) in *.
  rewrite app_assoc. fold token. split.
  - destruct token; [done|]. done.
  - apply free_of_concat; [done|]. destruct (line_value l) as [v|]; [|constructor].
    destruct Hval as (Hsep & _ & Hv & Hr). apply free_of_app in Hv as [_ Hv2].
    assert (Hweak : ∀ x, free_of [HostapdCtrl.newline; MmsmData.NUL] x →
                       free_of [HostapdCtrl.newline] x).
    { intros x Hx. eapply List.Forall_impl; [|exact Hx]. cbn. intros c Hc.
      apply is_delimiter_singleton. intros ->. discriminate Hc. }
    constructor.
    { apply is_delimiter_singleton. intros E. rewrite E in Hsep. discriminate Hsep. }
    apply free_of_concat; [by apply Hweak|].
    destruct (line_rest l) as [r|]; [|constructor].
    apply free_of_concat; [by repeat constructor|]. by apply Hweak.
Qed.

(** The loop of [parse_output] on well-formed lines. *)
Lemma parse_output_loop_lines (lines : list response_line) :
  Forall line_wf lines →
  HostapdCtrl.parse_output_loop (lines ≫= render_line)
    = Ok (Some (line_item <$> lines)).
Proof.
  induction lines as [|l lines IH]; intros Hwf.
  - by rewrite parse_output_loop_unfold.
  - inversion Hwf as [|? ? Hl Hwf']; subst.
    destruct (line_body_no_newline l Hl) as [Hne Hnl].
    rewrite parse_output_loop_unfold.
    cbn [mbind list_bind]. unfold render_line at 1. rewrite <- app_assoc. cbn [app].
    rewrite (strtok_r_delimiter [HostapdCtrl.newline] (line_body l) _ []
               HostapdCtrl.newline Hne Hnl eq_refl).
    rewrite (parse_item_line l _ Hl). cbn [Z.eqb].
    by rewrite (IH Hwf').
Qed.




(* ================================================================== *)
(** * Part III: the rest of the cited files                            *)
(* ================================================================== *)

(** ** helpers.c: lookups in a sibling chain *)

(** [mmsm_find_key] returns the first sibling with the key, and [NULL]
    exactly when no sibling has it. *)
Theorem mmsm_find_key_first_match (head : list MmsmData.mmsm_data_item_t)
    (key : MmsmData.mmsm_key_t) :
  (Lookups.mmsm_find_key head key = [] ∧
   Forall (λ i, MmsmData.mmsm_key i ≠ key) head) ∨
  (∃ pre item post,
     head = pre ++ item :: post ∧
     Lookups.mmsm_find_key head key = item :: post ∧
     MmsmData.mmsm_key item = key ∧
     Forall (λ i, MmsmData.mmsm_key i ≠ key) pre).
Proof.
  induction head as [|item next IH]; [left; by split|].
  assert (Hstep : MmsmData.mmsm_key item ≠ key →
                  Lookups.mmsm_find_key (item :: next) key = Lookups.mmsm_find_key next key).
  { intros Hne. cbn. destruct (MmsmData.mmsm_key item) as [a|s], key as [b|k]; try done.
    - destruct (Z.eqb_spec a b); congruence.
    - case_decide; congruence. }
  destruct (decide (MmsmData.mmsm_key item = key)) as [Heq|Hne].
  - right. exists [], item, next. split_and!; try done.
    cbn. rewrite Heq. destruct key as [b|k].
    + by rewrite Z.eqb_refl.
    + by rewrite decide_True.
  - rewrite (Hstep Hne). destruct IH as [[IH1 IH2]|(pre & it & post & -> & IH2 & IH3 & IH4)].
    + left. split; [done|]. by constructor.
    + right. exists (item :: pre), it, post. split_and!; try done. by constructor.
Qed.

(** The value lookups are [mmsm_find_key] followed by the read of
    [mmsm_value]: the value of the first sibling with the key decides,
    so a sibling without value hides a later one with the same key. *)
Theorem mmsm_find_value_through_find_key (head : list MmsmData.mmsm_data_item_t) :
  (∀ key, Helpers.mmsm_find_value_by_key head key =
          Terms.pointee (Lookups.mmsm_find_key head (MmsmData.KeyString key))
            ≫= MmsmData.mmsm_value) ∧
  (∀ key, Lookups.mmsm_find_value_by_intkey head key =
          Terms.pointee (Lookups.mmsm_find_key head (MmsmData.KeyU32 (C.u32 key)))
            ≫= MmsmData.mmsm_value) ∧
  (∀ key item later,
     Helpers.mmsm_find_value_by_key
       (MmsmData.set_value (MmsmData.mmsm_data_item_set_key_str item key) None 0 :: later)
       key = None).
Proof.
  split_and!.
  - intros key. induction head as [|item next IH]; [done|]. cbn.
    destruct (MmsmData.mmsm_key item) as [a|s]; [done|]. by case_decide.
  - intros key. induction head as [|item next IH]; [done|]. cbn.
    destruct (MmsmData.mmsm_key item) as [a|s]; [|done].
    by destruct (Z.eqb_spec a (C.u32 key)).
  - intros key item later. cbn. by rewrite decide_True.
Qed.

Lemma seek_intkey_find_key (iter : list MmsmData.mmsm_data_item_t) (attr_id : Z) :
  Lookups.seek_intkey iter attr_id
    = Lookups.mmsm_find_key iter (MmsmData.KeyU32 (C.u32 attr_id)).
Proof.
  induction iter as [|item next IH]; [done|]. cbn.
  destruct (MmsmData.mmsm_key item); [|done]. by rewrite IH.
Qed.

Lemma nested_intkeys_loop_descend (ks : list Z) :
  ∀ (head : list MmsmData.mmsm_data_item_t) (k : Z),
    Forall (λ x, x ≠ -1) (k :: ks) →
    Lookups.nested_intkeys_loop head k (ks ++ [-1]) = Ok (Terms.descend head (k :: ks)).
Proof.
  induction ks as [|k' ks IH]; intros head k Hks;
    inversion Hks as [|? ? Hk Hks']; subst.
  - cbn. destruct (Z.eqb_spec k (-1)); [done|].
    rewrite seek_intkey_find_key.
    by destruct (Lookups.mmsm_find_key head (MmsmData.KeyU32 (C.u32 k))).
  - cbn [Lookups.nested_intkeys_loop app]. destruct (Z.eqb_spec k (-1)); [done|].
    rewrite seek_intkey_find_key. cbn [Terms.descend].
    destruct (Lookups.mmsm_find_key head (MmsmData.KeyU32 (C.u32 k))) as [|item next];
      [done|].
    inversion Hks' as [|? ? Hk' _]; subst.
    destruct (Z.eqb_spec k' (-1)); [done|].
    by rewrite (IH (MmsmData.mmsm_sub_values item) k' Hks').
Qed.

(** [mmsm_find_by_nested_intkeys] with the keys [k1, ..., kn, -1]
    descends the tree: at every level it takes the first sibling with
    the key and goes on in its sub-values, and it returns the value of
    the item reached by [kn], or [NULL] as soon as a level has no
    sibling with the key.  With no key at all it returns the value of
    the head item, and dereferences [NULL] when the tree is empty. *)
Theorem mmsm_find_by_nested_intkeys_descends
    (head : list MmsmData.mmsm_data_item_t) (k : Z) (ks : list Z) :
  Forall (λ x, x ≠ -1) (k :: ks) →
  Lookups.mmsm_find_by_nested_intkeys head (k :: ks ++ [-1])
    = Ok (Terms.descend head (k :: ks)) ∧
  Lookups.mmsm_find_by_nested_intkeys head [-1]
    = match head with
      | [] => Err NullDeref
      | item :: _ => Ok (MmsmData.mmsm_value item)
      end.
Proof.
  intros Hks. split.
  - by apply nested_intkeys_loop_descend.
  - done.
Qed.

Lemma mmsm_find_by_nested_intkeys_descends_witness :
  Lookups.mmsm_find_by_nested_intkeys Terms.vendor_event ([103; 196] ++ [-1])
    = Ok (Terms.descend Terms.vendor_event [103; 196]) ∧
  Lookups.mmsm_find_by_nested_intkeys Terms.vendor_event [-1] = Ok None.
Proof.
  apply (mmsm_find_by_nested_intkeys_descends Terms.vendor_event 103 [196]).
  repeat constructor; lia.
Defined.

(** ** mmsm_data.h: values as object representations *)

Lemma of_bytes_bytes_of (size : nat) (z : Z) :
  0 ≤ z → Lookups.of_bytes (Nl80211.bytes_of size z) = z mod 2 ^ (8 * Z.of_nat size).
Proof.
  revert z. induction size as [|size IH]; intros z Hz.
  - cbn. by rewrite Z.mod_1_r.
  - cbn [Nl80211.bytes_of Lookups.of_bytes].
    rewrite N_ascii_embedding.
    2:{ apply N2Z.inj_lt. rewrite Z2N.id by (apply Z.mod_pos_bound; lia).
        apply Z.mod_pos_bound. lia. }
    rewrite Z2N.id by (apply Z.mod_pos_bound; lia).
    rewrite IH by (apply Z.div_pos; lia).
    replace (8 * Z.of_nat (S size)) with (8 + 8 * Z.of_nat size) by lia.
    rewrite Z.pow_add_r by lia. change (2 ^ 8) with 256.
    rewrite Z.rem_mul_r by lia. lia.
Qed.

Lemma bytes_of_length (size : nat) (z : Z) : length (Nl80211.bytes_of size z) = size.
Proof. revert z. induction size as [|size IH]; intros z; cbn; [done|]. by rewrite IH. Qed.

Lemma load_bytes_of (size : nat) (z : Z) :
  0 ≤ z →
  Lookups.load size (Some (Nl80211.bytes_of size z)) = Ok (z mod 2 ^ (8 * Z.of_nat size)).
Proof.
  intros Hz. unfold Lookups.load. rewrite bytes_of_length.
  rewrite decide_True by done.
  rewrite firstn_all2 by (rewrite bytes_of_length; lia).
  by rewrite of_bytes_bytes_of.
Qed.

(** A [uint32_t] stored with [mmsm_data_item_set_val_u32] is read back
    by [mmsm_data_item_get_val_u32], and an integer argument packed by
    [PACK_VA_ARG] at 1, 2, 4 or 8 bytes is read back modulo the width of
    its type; the key and the sub-values of the item are untouched.
    Reading a [uint32_t] from an item without value dereferences [NULL],
    and from a value of fewer than four bytes it reads past the
    buffer. *)
Theorem value_u32_round_trip (item : MmsmData.mmsm_data_item_t) (val : Z) (size : nat) :
  Lookups.mmsm_data_item_get_val_u32 (Lookups.mmsm_data_item_set_val_u32 item val)
    = Ok (C.u32 val) ∧
  Lookups.load size (MmsmData.mmsm_value (Nl80211.PACK_VA_ARG item size val))
    = Ok (val mod 2 ^ (8 * Z.of_nat size)) ∧
  MmsmData.mmsm_key (Lookups.mmsm_data_item_set_val_u32 item val)
    = MmsmData.mmsm_key item ∧
  MmsmData.mmsm_sub_values (Lookups.mmsm_data_item_set_val_u32 item val)
    = MmsmData.mmsm_sub_values item ∧
  Lookups.mmsm_data_item_get_val_u32 (MmsmData.set_value item None 0) = Err NullDeref ∧
  (∀ bytes len,
     Lookups.mmsm_data_item_get_val_u32
       (MmsmData.set_value item (Some (take 3 bytes)) len) = Err OutOfBounds).
Proof.
  assert (Hpow : 0 < 2 ^ (8 * Z.of_nat size)) by (apply Z.pow_pos_nonneg; lia).
  split_and!; try done.
  - unfold Lookups.mmsm_data_item_get_val_u32, Lookups.mmsm_data_item_set_val_u32.
    cbn [MmsmData.set_value MmsmData.mmsm_value].
    rewrite load_bytes_of by (apply Z.mod_pos_bound; done).
    change (2 ^ (8 * Z.of_nat 4)) with (2 ^ 32). unfold C.u32.
    by rewrite Z.mod_mod.
  - unfold Nl80211.PACK_VA_ARG. cbn [MmsmData.set_value MmsmData.mmsm_value].
    rewrite load_bytes_of by (apply Z.mod_pos_bound; done).
    by rewrite Z.mod_mod by lia.
  - intros bytes len. unfold Lookups.mmsm_data_item_get_val_u32, Lookups.load.
    cbn [MmsmData.set_value MmsmData.mmsm_value].
    rewrite decide_False; [done|]. rewrite length_take. lia.
Qed.

(** ** include/helpers.h: the typed lookups *)

Lemma find_value_by_key_first (pre post : list MmsmData.mmsm_data_item_t)
    (item : MmsmData.mmsm_data_item_t) (key : list ascii) :
  Forall (λ i, MmsmData.mmsm_key i ≠ MmsmData.KeyString key) pre →
  MmsmData.mmsm_key item = MmsmData.KeyString key →
  Helpers.mmsm_find_value_by_key (pre ++ item :: post) key = MmsmData.mmsm_value item.
Proof.
  intros Hpre Hitem. induction Hpre as [|i pre Hi _ IH]; cbn.
  - rewrite Hitem. by rewrite decide_True.
  - destruct (MmsmData.mmsm_key i) as [|s]; [done|].
    rewrite decide_False; [done|]. congruence.
Qed.

Lemma find_value_by_key_none (head : list MmsmData.mmsm_data_item_t) (key : list ascii) :
  Forall (λ i, MmsmData.mmsm_key i ≠ MmsmData.KeyString key) head →
  Helpers.mmsm_find_value_by_key head key = None.
Proof.
  induction 1 as [|i head Hi _ IH]; cbn; [done|].
  destruct (MmsmData.mmsm_key i) as [|s]; [done|].
  rewrite decide_False; [done|]. congruence.
Qed.

(** The typed lookups [mmsm_find_value_by_key_u32], [_u16] and [_u8]
    give back a [uint32_t] stored under the key, and give the all-ones
    value of their width both when no sibling has the key and when the
    first sibling with the key has no value, so a caller cannot tell a
    missing key from a stored -1.  On a text value of fewer than four
    bytes the 32-bit lookup reads past the buffer. *)
Theorem typed_lookup_by_key (pre post : list MmsmData.mmsm_data_item_t)
    (item : MmsmData.mmsm_data_item_t) (key : list ascii) :
  Forall (λ i, MmsmData.mmsm_key i ≠ MmsmData.KeyString key) pre →
  MmsmData.mmsm_key item = MmsmData.KeyString key →
  (∀ val,
     Lookups.mmsm_find_value_by_key_u32
       (pre ++ Lookups.mmsm_data_item_set_val_u32 item val :: post) key
       = Ok (C.u32 val)) ∧
  Lookups.mmsm_find_value_by_key_u32 pre key = Ok (2^32 - 1) ∧
  Lookups.mmsm_find_value_by_key_u16 pre key = Ok (2^16 - 1) ∧
  Lookups.mmsm_find_value_by_key_u8 pre key = Ok (2^8 - 1) ∧
  Lookups.mmsm_find_value_by_key_u32 (pre ++ MmsmData.set_value item None 0 :: post) key
    = Ok (2^32 - 1) ∧
  (∀ text,
     (length text < 3)%nat →
     Lookups.mmsm_find_value_by_key_u32
       (pre ++ MmsmData.mmsm_data_item_set_val_string item text :: post) key
       = Err OutOfBounds).
Proof.
  intros Hpre Hitem.
  unfold Lookups.mmsm_find_value_by_key_u32, Lookups.mmsm_find_value_by_key_u16,
    Lookups.mmsm_find_value_by_key_u8, Lookups.mmsm_find_value_by_key_uint.
  rewrite (find_value_by_key_none pre key Hpre). split_and!; try done.
  - intros val. rewrite (find_value_by_key_first pre post _ key Hpre) by done.
    cbn [MmsmData.mmsm_value Lookups.mmsm_data_item_set_val_u32 MmsmData.set_value].
    rewrite load_bytes_of by (unfold C.u32; apply Z.mod_pos_bound; lia).
    f_equal. unfold C.u32. change (8 * Z.of_nat 4) with 32. by rewrite Z.mod_mod.
  - by rewrite (find_value_by_key_first pre post _ key Hpre).
  - intros text Hlen. rewrite (find_value_by_key_first pre post _ key Hpre) by done.
    cbn [MmsmData.mmsm_value MmsmData.mmsm_data_item_set_val_string].
    unfold Lookups.load. rewrite decide_False; [done|].
    rewrite length_app. cbn. lia.
Qed.

Lemma typed_lookup_by_key_witness :
  let pre := [Scenarios.key_value "bssid" "02:00:00:00:00:00"] in
  let item := Scenarios.key_only "freq" in
  (∀ val,
     Lookups.mmsm_find_value_by_key_u32
       (pre ++ Lookups.mmsm_data_item_set_val_u32 item val :: []) (C.text "freq")
       = Ok (C.u32 val)) ∧
  Lookups.mmsm_find_value_by_key_u32 pre (C.text "freq") = Ok (2^32 - 1) ∧
  Lookups.mmsm_find_value_by_key_u16 pre (C.text "freq") = Ok (2^16 - 1) ∧
  Lookups.mmsm_find_value_by_key_u8 pre (C.text "freq") = Ok (2^8 - 1) ∧
  Lookups.mmsm_find_value_by_key_u32
    (pre ++ MmsmData.set_value item None 0 :: []) (C.text "freq") = Ok (2^32 - 1) ∧
  (∀ text,
     (length text < 3)%nat →
     Lookups.mmsm_find_value_by_key_u32
       (pre ++ MmsmData.mmsm_data_item_set_val_string item text :: []) (C.text "freq")
       = Err OutOfBounds).
Proof.
  apply (typed_lookup_by_key [Scenarios.key_value "bssid" "02:00:00:00:00:00"] []
           (Scenarios.key_only "freq") (C.text "freq")).
  - repeat constructor. discriminate.
  - reflexivity.
Defined.

(** ** hostapd_ctrl.c: edges of the response parser *)

(** Well-formed lines in front of any text. *)
Lemma parse_output_loop_app (lines : list response_line) (rest : list ascii) :
  Forall line_wf lines →
  HostapdCtrl.parse_output_loop ((lines ≫= render_line) ++ rest)
    = match HostapdCtrl.parse_output_loop rest with
      | Ok (Some items) => Ok (Some ((line_item <$> lines) ++ items))
      | r => r
      end.
Proof.
  induction lines as [|l lines IH]; intros Hwf.
  - cbn. by destruct (HostapdCtrl.parse_output_loop rest) as [[?|]|].
  - inversion Hwf as [|? ? Hl Hwf']; subst.
    destruct (line_body_no_newline l Hl) as [Hne Hnl].
    rewrite parse_output_loop_unfold.
    cbn [mbind list_bind]. unfold render_line at 1. rewrite <- !app_assoc. cbn [app].
    rewrite (strtok_r_delimiter [HostapdCtrl.newline] (line_body l) _ []
               HostapdCtrl.newline Hne Hnl eq_refl).
    rewrite (parse_item_line l _ Hl). cbn [Z.eqb].
    rewrite (IH Hwf').
    by destruct (HostapdCtrl.parse_output_loop rest) as [[?|]|].
Qed.

Lemma skip_delimiters_all (delim s : list ascii) :
  Terms.made_of delim s → HostapdCtrl.skip_delimiters delim s = [].
Proof.
  induction 1 as [|c s Hc _ IH]; cbn; [done|]. by rewrite Hc.
Qed.

Lemma after_char_none (c : ascii) (mem : list ascii) :
  Forall (λ x, x ≠ c) mem → HostapdCtrl.after_char c mem = None.
Proof.
  induction 1 as [|x mem Hx _ IH]; cbn; [done|]. by rewrite decide_False.
Qed.

(** A line made only of '=' and spaces has no key: [parse_item] fails
    on it and [parse_output] frees what it has built and returns
    [NULL], whatever well-formed lines come before it and whatever text
    follows it. *)
Theorem parse_output_blank_line_discards_response
    (lines : list response_line) (blank rest : list ascii) :
  Forall line_wf lines →
  blank ≠ [] →
  Terms.made_of (C.text "= ") blank →
  HostapdCtrl.parse_output
    ((lines ≫= render_line) ++ blank ++ HostapdCtrl.newline :: rest) = Ok [].
Proof.
  intros Hwf Hne Hblank. unfold HostapdCtrl.parse_output.
  rewrite (parse_output_loop_app lines _ Hwf).
  rewrite parse_output_loop_unfold.
  assert (Hnl : free_of [HostapdCtrl.newline] blank).
  { eapply List.Forall_impl; [|exact Hblank]. cbn. intros c Hc.
    apply is_delimiter_singleton. intros ->. discriminate Hc. }
  rewrite (strtok_r_delimiter [HostapdCtrl.newline] blank rest []
             HostapdCtrl.newline Hne Hnl eq_refl).
  unfold HostapdCtrl.parse_item, HostapdCtrl.strtok_r.
  by rewrite (skip_delimiters_all _ _ Hblank).
Qed.

Lemma parse_output_blank_line_discards_response_witness :
  HostapdCtrl.parse_output
    ((Terms.status_lines ≫= render_line) ++ C.text " " ++ HostapdCtrl.newline :: C.text "OK")
    = Ok [].
Proof.
  apply (parse_output_blank_line_discards_response Terms.status_lines (C.text " ")
           (C.text "OK")).
  - repeat constructor; try (eexists _, _; split; [reflexivity|discriminate]);
      try discriminate.
  - discriminate.
  - repeat constructor.
Defined.

(** A line that opens a tag with '<' and never closes it sends the tag
    skip of [parse_item] past the NUL of the line: when no '>' follows
    in the rest of the response either, the loop runs past the end of
    the response text. *)
Theorem parse_output_unterminated_tag_overreads
    (lines : list response_line) (t rest : list ascii) :
  Forall line_wf lines →
  free_of (C.text "= >" ++ [HostapdCtrl.newline]) t →
  Forall (λ c, c ≠ ">"%char) rest →
  HostapdCtrl.parse_output
    ((lines ≫= render_line) ++ (C.text "<" ++ t) ++ HostapdCtrl.newline :: rest)
    = Err OutOfBounds.
Proof.
  intros Hwf Ht Hrest. unfold HostapdCtrl.parse_output.
  rewrite (parse_output_loop_app lines _ Hwf).
  rewrite parse_output_loop_unfold.
  apply free_of_app in Ht as [Ht1 Ht2].
  assert (Ht3 : free_of (C.text "= ") t).
  { eapply List.Forall_impl; [|exact Ht1]. cbn. intros c Hc.
    unfold HostapdCtrl.is_delimiter in *.
    apply bool_decide_eq_false in Hc. apply bool_decide_eq_false.
    intros Hin. apply Hc.
    apply (proj2 (elem_of_app (C.text "= ") (C.text ">") c)). by left. }
  assert (Htgt : Forall (λ x, x ≠ ">"%char) t).
  { apply (free_of_not (C.text "= >") _ ">"%char); [|done]. by repeat constructor. }
  set (token := C.text "<" ++ t).
  assert (Hne : token ≠ []) by done.
  assert (Hnl : free_of [HostapdCtrl.newline] token).
  { apply free_of_concat; [by repeat constructor|done]. }
  assert (Htok : free_of (C.text "= ") token).
  { apply free_of_concat; [by repeat constructor|done]. }
  rewrite (strtok_r_delimiter [HostapdCtrl.newline] token rest []
             HostapdCtrl.newline Hne Hnl eq_refl).
  unfold HostapdCtrl.parse_item.
  rewrite (strtok_r_end (C.text "= ") token _ Hne Htok).
  subst token. cbn [app C.text String.list_ascii_of_string].
  rewrite decide_True by done. unfold HostapdCtrl.skip_tag.
  rewrite after_char_none; [done|].
  cbn [app]. constructor; [done|].
  apply Forall_app. split; [done|]. constructor; [done|].
  apply Forall_app. split; [done|]. by repeat constructor.
Qed.

Lemma parse_output_unterminated_tag_overreads_witness :
  HostapdCtrl.parse_output
    ((Terms.status_lines ≫= render_line) ++ (C.text "<" ++ C.text "3AP-ENABLED")
       ++ HostapdCtrl.newline :: C.text "OK")
    = Err OutOfBounds.
Proof.
  apply (parse_output_unterminated_tag_overreads Terms.status_lines
           (C.text "3AP-ENABLED") (C.text "OK")).
  - repeat constructor; try (eexists _, _; split; [reflexivity|discriminate]);
      try discriminate.
  - repeat constructor.
  - repeat constructor; discriminate.
Defined.

Lemma line_item_key (l : response_line) :
  MmsmData.mmsm_key (line_item l) = MmsmData.KeyString (line_key l).
Proof. unfold line_item. by destruct (line_value l). Qed.

Lemma line_item_value (l : response_line) :
  MmsmData.mmsm_value (line_item l) = Terms.line_buffer l.
Proof. unfold line_item, Terms.line_buffer. by destruct (line_value l). Qed.

Lemma find_value_line_items_miss (lines : list response_line) (k : list ascii) :
  Forall (λ x, line_key x ≠ k) lines →
  ∀ tail, Helpers.mmsm_find_value_by_key ((line_item <$> lines) ++ tail) k
          = Helpers.mmsm_find_value_by_key tail k.
Proof.
  induction 1 as [|l lines Hl _ IH]; intros tail; [done|].
  cbn. rewrite line_item_key. rewrite decide_False by done. apply IH.
Qed.

Lemma nth_loop_lookup (items : list MmsmData.mmsm_data_item_t) (n : nat) :
  Terms.pointee (Lookups.nth_loop items n) = items !! n.
Proof.
  revert items. induction n as [|n IH]; intros [|item items]; cbn;
    first [done | apply IH].
Qed.

(** A response of well-formed lines, parsed and then searched: the
    lookup by key gives the text of the first line with that key, with
    its NUL ([NULL] when that line is only a key), a key that no line
    has gives [NULL], and the lookup by position gives the text of the
    line at that position, [NULL] beyond the last line. *)
Theorem parse_output_then_lookup (pre post : list response_line) (l : response_line) :
  Forall line_wf (pre ++ l :: post) →
  Forall (λ x, line_key x ≠ line_key l) pre →
  ∃ items,
    HostapdCtrl.parse_output ((pre ++ l :: post) ≫= render_line) = Ok items ∧
    Helpers.mmsm_find_value_by_key items (line_key l) = Terms.line_buffer l ∧
    (∀ k, Forall (λ x, line_key x ≠ k) (pre ++ l :: post) →
          Helpers.mmsm_find_value_by_key items k = None) ∧
    (∀ n, 0 ≤ n < 2 ^ 32 →
          Lookups.mmsm_find_nth_value items n
            = (pre ++ l :: post) !! Z.to_nat n ≫= Terms.line_buffer).
Proof.
  intros Hwf Hpre. exists (line_item <$> (pre ++ l :: post)). split_and!.
  - unfold HostapdCtrl.parse_output. by rewrite (parse_output_loop_lines _ Hwf).
  - rewrite fmap_app. rewrite (find_value_line_items_miss pre _ Hpre).
    cbn. rewrite line_item_key, decide_True by done. apply line_item_value.
  - intros k Hk.
    rewrite <- (app_nil_r (line_item <$> pre ++ l :: post)).
    by rewrite (find_value_line_items_miss _ _ Hk).
  - intros n Hn. unfold Lookups.mmsm_find_nth_value.
    unfold C.u32. rewrite Z.mod_small by lia.
    pose proof (nth_loop_lookup (line_item <$> pre ++ l :: post) (Z.to_nat n)) as Hnth.
    rewrite list_lookup_fmap in Hnth.
    destruct (Lookups.nth_loop (line_item <$> pre ++ l :: post) (Z.to_nat n))
      as [|item rest]; cbn in Hnth.
    + by destruct ((pre ++ l :: post) !! Z.to_nat n).
    + destruct ((pre ++ l :: post) !! Z.to_nat n) as [x|]; [|done].
      cbn in Hnth. injection Hnth as ->. cbn. apply line_item_value.
Qed.

Lemma parse_output_then_lookup_witness :
  let pre := [Terms.status_line "state" "ENABLED"] in
  let l := Terms.status_line "freq" "5180" in
  let post := [Terms.status_line "freq" "5200"] in
  ∃ items,
    HostapdCtrl.parse_output ((pre ++ l :: post) ≫= render_line) = Ok items ∧
    Helpers.mmsm_find_value_by_key items (line_key l) = Terms.line_buffer l ∧
    (∀ k, Forall (λ x, line_key x ≠ k) (pre ++ l :: post) →
          Helpers.mmsm_find_value_by_key items k = None) ∧
    (∀ n, 0 ≤ n < 2 ^ 32 →
          Lookups.mmsm_find_nth_value items n
            = (pre ++ l :: post) !! Z.to_nat n ≫= Terms.line_buffer).
Proof.
  apply parse_output_then_lookup.
  - repeat constructor; try (eexists _, _; split; [reflexivity|discriminate]);
      try discriminate.
  - repeat constructor. discriminate.
Defined.

(** ** ewma.c: the smoothing function *)

(** The EWMA of two scores lies between them, so a score never leaves
    the range of the metrics it was fed, and with alpha = 100 it is the
    new metric alone. *)
Theorem apply_ewma_between (alpha m s : Z) :
  0 ≤ alpha ≤ 100 → 0 ≤ m < 2^16 → 0 ≤ s < 2^16 →
  Z.min m s ≤ Ewma.apply_ewma alpha m s ≤ Z.max m s ∧
  Ewma.apply_ewma 100 m s = m.
Proof.
  intros Ha Hm Hs. rewrite (apply_ewma_exact alpha m s) by done.
  rewrite (apply_ewma_exact 100 m s) by lia.
  split_and!.
  - apply Z.div_le_lower_bound; [lia|].
    destruct (Z.min_spec m s) as [[? ->]|[? ->]]; nia.
  - apply Z.div_le_upper_bound; [lia|].
    destruct (Z.max_spec m s) as [[? ->]|[? ->]]; nia.
  - replace (100 * m + (100 - 100) * s) with (m * 100) by lia.
    by rewrite Z.div_mul.
Qed.

Lemma apply_ewma_between_witness :
  Z.min 50 100 ≤ Ewma.apply_ewma 20 50 100 ≤ Z.max 50 100 ∧
  Ewma.apply_ewma 100 50 100 = 50.
Proof. apply (apply_ewma_between 20 50 100); lia. Defined.

(** Integer division makes the EWMA one-sided.  A metric below the
    score always lowers it, but a metric above the score raises it only
    if [alpha * (m - s)] reaches 100: otherwise the score stays where it
    is, however often the metric is repeated. *)
Theorem apply_ewma_stalls_upwards (alpha m s : Z) (n : nat) :
  0 ≤ alpha ≤ 100 → 0 ≤ m < 2^16 → 0 ≤ s < 2^16 →
  (s ≤ m → alpha * (m - s) < 100 →
     Nat.iter n (Ewma.apply_ewma alpha m) s = s) ∧
  (m < s → 1 ≤ alpha → Ewma.apply_ewma alpha m s < s).
Proof.
  intros Ha Hm Hs. split.
  - intros Hle Hsmall.
    assert (Hfix : Ewma.apply_ewma alpha m s = s).
    { rewrite apply_ewma_exact by done.
      replace (alpha * m + (100 - alpha) * s) with (alpha * (m - s) + s * 100) by lia.
      rewrite Z.div_add by lia. rewrite Z.div_small by nia. lia. }
    induction n as [|n IH]; [done|]. by rewrite Nat.iter_succ, IH.
  - intros Hlt Hal. rewrite apply_ewma_exact by done.
    apply Z.div_lt_upper_bound; nia.
Qed.

Lemma apply_ewma_stalls_upwards_witness :
  (0 ≤ 99 → 1 * (99 - 0) < 100 → Nat.iter 1000 (Ewma.apply_ewma 1 99) 0 = 0) ∧
  (99 < 0 → 1 ≤ 1 → Ewma.apply_ewma 1 99 0 < 0).
Proof. apply (apply_ewma_stalls_upwards 1 99 0 1000); lia. Defined.

(** ** ewma.c: the evaluation after a scan round *)

(** [ewma_op_evaluate_channels] with hysteresis.  The candidate is the
    best channel of the scan list.  The count of rounds with a better
    channel is reset when the candidate is the current channel, goes up
    by one when the candidate is another channel whose score exceeds
    the threshold of the current one, and stays as it is when the
    candidate is another channel within the threshold.  The candidate
    is returned whenever [rounds_for_csa] is not zero and the count has
    reached it, also in a round that did not raise the count.  Every
    call adds one to the candidate's [rounds_as_best] and leaves all
    scores, the scan list and the current channel alone. *)
Theorem ewma_op_evaluate_channels_spec (ctx : dcs Ewma.ewma_context)
    (e : Ewma.ewma_context) (k : nat) (cur : dcs_channel) :
  scan_list ctx ≠ [] →
  scan_list_valid ctx →
  current_channel ctx = Some k →
  all_channels ctx !! k = Some cur →
  Forall freq_ok (all_channels ctx) →
  algo_context ctx = Some e →
  Ewma.rounds_with_a_better_channel e < C.INT_MAX →
  (∀ i c, i ∈ scan_list ctx → all_channels ctx !! i = Some c →
          rounds_as_best (metric c) < C.INT_MAX) →
  let threshold :=
    dcs_algo_calculate_threshold (score cur) (Ewma.threshold_percentage e) in
  ∃ b best ret ctx' best',
    dcs_algo_get_channel_with_highest_score ctx = Ok (Some b) ∧
    all_channels ctx !! b = Some best ∧
    Ewma.ewma_op_evaluate_channels ctx = Ok (ret, ctx') ∧
    let count :=
      if decide (b = k) then 0
      else if threshold <? score best then Ewma.rounds_with_a_better_channel e + 1
      else Ewma.rounds_with_a_better_channel e in
    algo_context ctx' = Some (Ewma.set_rounds_with_a_better_channel e count) ∧
    ret = (if decide (Ewma.rounds_for_csa e ≠ 0 ∧ Ewma.rounds_for_csa e ≤ count)
           then Some b else None) ∧
    score <$> all_channels ctx' = score <$> all_channels ctx ∧
    all_channels ctx' !! b = Some best' ∧
    rounds_as_best (metric best') = rounds_as_best (metric best) + 1 ∧
    scan_list ctx' = scan_list ctx ∧
    current_channel ctx' = current_channel ctx.
Proof.
  intros Hne Hvalid Hk Hcur Hfreq He Hrw Hrb threshold.
  destruct (highest_score_some ctx k cur Hne Hvalid Hk Hcur Hfreq)
    as (b & best & Hbest & Hin & Hb).
  assert (Hrbest : rounds_as_best (metric best) < C.INT_MAX) by eauto.
  pose proof (list_lookup_insert_eq (all_channels ctx) b) as Hins.
  assert (Hlt : (b < length (all_channels ctx))%nat) by (by eapply lookup_lt_Some).
  set (best' := {| ch := ch best;
                   metric := {| accumulated_score := accumulated_score (metric best);
                                n_samples := n_samples (metric best);
                                rounds_as_best := rounds_as_best (metric best) + 1 |} |}).
  assert (Htail : ∀ e' : Ewma.ewma_context,
    (C.int_incr (rounds_as_best (metric best)) ≫= λ r,
       store_metric ctx (Some b)
         {| accumulated_score := accumulated_score (metric best);
            n_samples := n_samples (metric best);
            rounds_as_best := r |} ≫= λ ctx1,
         if negb (Ewma.rounds_for_csa e' =? 0) &&
            (Ewma.rounds_for_csa e' <=? Ewma.rounds_with_a_better_channel e')
         then Ok (Some b, set_algo_context ctx1 (Some e'))
         else Ok (None, set_algo_context ctx1 (Some e')))
    = Ok (if decide (Ewma.rounds_for_csa e' ≠ 0 ∧
                     Ewma.rounds_for_csa e' ≤ Ewma.rounds_with_a_better_channel e')
          then Some b else None,
          set_algo_context
            (set_all_channels ctx (<[b := best']> (all_channels ctx))) (Some e'))).
  { intros e'. rewrite int_incr_ok by done. cbn.
    rewrite (store_metric_Some ctx b best _ Hb). cbn.
    destruct (Z.eqb_spec (Ewma.rounds_for_csa e') 0);
      destruct (Z.leb_spec (Ewma.rounds_for_csa e')
                  (Ewma.rounds_with_a_better_channel e')); cbn;
      case_decide; try done; lia. }
  assert (Hrun : ∀ count,
    Ewma.ewma_op_evaluate_channels ctx
      = Ok (if decide (Ewma.rounds_for_csa e ≠ 0 ∧ Ewma.rounds_for_csa e ≤ count)
            then Some b else None,
            set_algo_context
              (set_all_channels ctx (<[b := best']> (all_channels ctx)))
              (Some (Ewma.set_rounds_with_a_better_channel e count))) →
    ∃ ret ctx',
      Ewma.ewma_op_evaluate_channels ctx = Ok (ret, ctx') ∧
      algo_context ctx' = Some (Ewma.set_rounds_with_a_better_channel e count) ∧
      ret = (if decide (Ewma.rounds_for_csa e ≠ 0 ∧ Ewma.rounds_for_csa e ≤ count)
             then Some b else None) ∧
      score <$> all_channels ctx' = score <$> all_channels ctx ∧
      all_channels ctx' !! b = Some best' ∧
      scan_list ctx' = scan_list ctx ∧
      current_channel ctx' = current_channel ctx).
  { intros count ->. eexists _, _. split; [reflexivity|]. split_and!; try done.
    - cbn. by apply score_fmap_insert.
    - cbn. by apply Hins. }
  assert (Hgo : ∃ ret ctx',
    Ewma.ewma_op_evaluate_channels ctx = Ok (ret, ctx') ∧
    let count :=
      if decide (b = k) then 0
      else if threshold <? score best then Ewma.rounds_with_a_better_channel e + 1
      else Ewma.rounds_with_a_better_channel e in
    algo_context ctx' = Some (Ewma.set_rounds_with_a_better_channel e count) ∧
    ret = (if decide (Ewma.rounds_for_csa e ≠ 0 ∧ Ewma.rounds_for_csa e ≤ count)
           then Some b else None) ∧
    score <$> all_channels ctx' = score <$> all_channels ctx ∧
    all_channels ctx' !! b = Some best' ∧
    scan_list ctx' = scan_list ctx ∧
    current_channel ctx' = current_channel ctx).
  { cbn zeta. apply Hrun.
    unfold Ewma.ewma_op_evaluate_channels.
    rewrite Hbest. cbn. unfold algo_private. rewrite He. cbn.
    rewrite Hk, (deref_Some ctx k cur Hcur). cbn.
    rewrite (deref_Some ctx b best Hb). cbn [mbind result_bind].
    fold threshold.
    destruct (decide (b = k)) as [->|Hbk].
    - rewrite decide_True by done.
      exact (Htail (Ewma.set_rounds_with_a_better_channel e 0)).
    - rewrite decide_False by congruence.
      destruct (Z.ltb_spec threshold (score best)).
      + rewrite (int_incr_ok (Ewma.rounds_with_a_better_channel e)) by done.
        exact (Htail (Ewma.set_rounds_with_a_better_channel e
                        (Ewma.rounds_with_a_better_channel e + 1))).
      + etrans; [exact (Htail e)|]. by destruct e. }
  destruct Hgo as (ret & ctx' & Hev & Hrest). cbn zeta in Hrest.
  destruct Hrest as (Hctx & Hret & Hscore & Hb' & Hsl & Hcc).
  exists b, best, ret, ctx', best'. cbn zeta. split_and!; done.
Qed.

Lemma ewma_op_evaluate_channels_spec_witness :
  ∃ ctx',
    Ewma.ewma_op_evaluate_channels Terms.ewma_two_ctx = Ok (Some 1%nat, ctx') ∧
    algo_context ctx'
      = Some (Ewma.set_rounds_with_a_better_channel Terms.ewma_params 3).
Proof.
  destruct (ewma_op_evaluate_channels_spec Terms.ewma_two_ctx Terms.ewma_params
              0 (Scenarios.channel 902500 1 1 100 4 0))
    as (b & best & ret & ctx' & best' & Hbest & Hb & Hev & Hctx & Hret & _).
  - discriminate.
  - repeat constructor; eexists; reflexivity.
  - reflexivity.
  - reflexivity.
  - repeat constructor; unfold freq_ok; cbn; lia.
  - reflexivity.
  - unfold C.INT_MAX; cbn; lia.
  - intros i c Hi Hc. unfold C.INT_MAX.
    apply elem_of_cons in Hi as [->|Hi]; [injection Hc as <-; cbn; lia|].
    apply list_elem_of_singleton in Hi as ->. injection Hc as <-. cbn. lia.
  - vm_compute in Hbest. injection Hbest as <-.
    vm_compute in Hb. injection Hb as <-.
    exists ctx'. split; [|exact Hctx].
    rewrite Hev. f_equal. f_equal. exact Hret.
Defined.

(** ** sample_and_hold.c and algo.c: accumulation and reset *)

Lemma sample_hold_process_one (ctx : dcs SampleAndHold.sample_and_hold)
    (i : nat) (c : dcs_channel) (m : channel_measurement) :
  all_channels ctx !! i = Some c →
  n_samples (metric c) < C.INT_MAX →
  SampleAndHold.sample_hold_op_process_measurement ctx m (Some i)
    = Ok (set_all_channels ctx
            (<[i := {| ch := ch c;
                       metric := {| accumulated_score :=
                                      C.u32 (accumulated_score (metric c) + metric_of m);
                                    n_samples := n_samples (metric c) + 1;
                                    rounds_as_best := rounds_as_best (metric c) |} |}]>
               (all_channels ctx))).
Proof.
  intros Hc Hn. unfold SampleAndHold.sample_hold_op_process_measurement.
  rewrite (deref_Some ctx i c Hc). cbn [mbind result_bind].
  rewrite int_incr_ok by done. cbn [mbind result_bind].
  by rewrite (store_metric_Some ctx i c _ Hc).
Qed.

(** Sample and hold adds up the metrics of a channel: after the
    measurements [ms] the score is the old score plus their sum, modulo
    2^32, and the sample count has grown by their number; nothing else
    in the context changes. *)
Theorem sample_hold_accumulates (ms : list channel_measurement) :
  ∀ (ctx : dcs SampleAndHold.sample_and_hold) (i : nat) (c : dcs_channel),
    all_channels ctx !! i = Some c →
    n_samples (metric c) + Z.of_nat (length ms) ≤ C.INT_MAX →
    ∃ ctx' c',
      Terms.process_all SampleAndHold.sample_hold_op_process_measurement ctx ms (Some i)
        = Ok ctx' ∧
      all_channels ctx' !! i = Some c' ∧
      C.u32 (score c') = C.u32 (score c + Terms.metric_sum ms) ∧
      (ms ≠ [] → score c' = C.u32 (score c + Terms.metric_sum ms)) ∧
      n_samples (metric c') = n_samples (metric c) + Z.of_nat (length ms) ∧
      ch c' = ch c ∧
      rounds_as_best (metric c') = rounds_as_best (metric c) ∧
      (∀ j, j ≠ i → all_channels ctx' !! j = all_channels ctx !! j) ∧
      scan_list ctx' = scan_list ctx ∧
      current_channel ctx' = current_channel ctx ∧
      algo_context ctx' = algo_context ctx.
Proof.
  induction ms as [|m ms IH]; intros ctx i c Hc Hn.
  - exists ctx, c. cbn. rewrite !Z.add_0_r. split_and!; done.
  - cbn [Terms.process_all length] in *.
    rewrite (sample_hold_process_one ctx i c m Hc) by lia. cbn [mbind result_bind].
    set (c1 := {| ch := ch c;
                  metric := {| accumulated_score :=
                                 C.u32 (accumulated_score (metric c) + metric_of m);
                               n_samples := n_samples (metric c) + 1;
                               rounds_as_best := rounds_as_best (metric c) |} |}).
    set (ctx1 := set_all_channels ctx (<[i := c1]> (all_channels ctx))).
    assert (Hlt : (i < length (all_channels ctx))%nat) by (by eapply lookup_lt_Some).
    assert (Hc1 : all_channels ctx1 !! i = Some c1).
    { cbn. by apply list_lookup_insert_eq. }
    destruct (IH ctx1 i c1 Hc1) as (ctx' & c' & Hrun & Hc' & Hs & Hs' & Hns & Hch & Hr & Hj & Hsl & Hcc & Hac).
    { cbn. lia. }
    exists ctx', c'. 
    assert (Hsum : C.u32 (score c1 + Terms.metric_sum ms)
                   = C.u32 (score c + Terms.metric_sum (m :: ms))).
    { unfold score, Terms.metric_sum. cbn [c1 metric accumulated_score foldr].
      unfold C.u32. rewrite Zplus_mod_idemp_l. f_equal. lia. }
    split_and!; try done.
    + by rewrite Hs.
    + intros _. destruct ms as [|m' ms'].
      * cbn in Hrun. injection Hrun as <-. rewrite Hc1 in Hc'. injection Hc' as <-.
        unfold score. cbn. f_equal. lia.
      * rewrite Hs' by done. exact Hsum.
    + rewrite Hns. cbn. lia.
    + intros j Hji. rewrite (Hj j Hji). cbn. by apply list_lookup_insert_ne.
Qed.

Lemma sample_hold_accumulates_witness :
  ∃ ctx' c',
    Terms.process_all SampleAndHold.sample_hold_op_process_measurement Scenarios.s3_start
      [Scenarios.measurement 110; Scenarios.measurement 120] (Some 1%nat) = Ok ctx' ∧
    all_channels ctx' !! 1%nat = Some c' ∧
    score c' = 230 ∧ n_samples (metric c') = 2.
Proof.
  destruct (sample_hold_accumulates [Scenarios.measurement 110; Scenarios.measurement 120]
              Scenarios.s3_start 1 (Scenarios.channel 903500 1 3 0 0 0))
    as (ctx' & c' & Hrun & Hc' & _ & Hs & Hn & _).
  - reflexivity.
  - unfold C.INT_MAX. cbn. lia.
  - exists ctx', c'. split_and!; [exact Hrun|exact Hc'| |exact Hn].
    rewrite Hs by discriminate. reflexivity.
Defined.

(** [dcs_algo_reset_accumulated_scores] sets the score of every channel
    of the scan list to [reset_val] (as a [uint32_t]) and its sample
    count to zero.  It keeps [rounds_as_best], and it does not touch a
    channel that is not in the scan list: such a channel, be it the
    current one, keeps the score it had. *)
Theorem dcs_algo_reset_accumulated_scores_spec {A} (ctx : dcs A) (reset_val : Z) :
  scan_list_valid ctx →
  ∃ ctx',
    dcs_algo_reset_accumulated_scores ctx reset_val = Ok ctx' ∧
    scan_list ctx' = scan_list ctx ∧
    current_channel ctx' = current_channel ctx ∧
    algo_context ctx' = algo_context ctx ∧
    length (all_channels ctx') = length (all_channels ctx) ∧
    ∀ i c, all_channels ctx !! i = Some c →
      ∃ c', all_channels ctx' !! i = Some c' ∧
            ch c' = ch c ∧
            rounds_as_best (metric c') = rounds_as_best (metric c) ∧
            (i ∈ scan_list ctx →
               score c' = reset_val mod 2^32 ∧ n_samples (metric c') = 0) ∧
            (i ∉ scan_list ctx → c' = c).
Proof.
  intros Hvalid.
  destruct (reset_loop_spec (scan_list ctx) reset_val ctx Hvalid)
    as (ctx' & Hreset & Hsl & Hcc & Hac & _ & _ & Hlen & Hch).
  exists ctx'. split_and!; done.
Qed.

Lemma dcs_algo_reset_accumulated_scores_spec_witness :
  ∃ ctx',
    dcs_algo_reset_accumulated_scores
      (set_scan_list Scenarios.s3_ctx [1%nat]) (-1) = Ok ctx' ∧
    score <$> all_channels ctx' = [300; 2^32 - 1].
Proof.
  destruct (dcs_algo_reset_accumulated_scores_spec
              (set_scan_list Scenarios.s3_ctx [1%nat]) (-1))
    as (ctx' & Hreset & _).
  - repeat constructor; eexists; reflexivity.
  - exists ctx'. split; [exact Hreset|].
    vm_compute in Hreset. injection Hreset as <-. reflexivity.
Defined.

(** ** ewma.c and sample_and_hold.c: initialisation from the configuration *)

Lemma cfg_parse_int_count (c : ConfigHelpers.config_setting_t) (name : string) (e : Z) :
  e < C.INT_MAX →
  ∃ d, (d = 0 ∨ d = 1) ∧ (d = 0 ↔ is_Some (c name)) ∧
       ConfigHelpers.cfg_parse_int (Some c) name e = Ok (default 0 (c name), e + d).
Proof.
  intros He. unfold ConfigHelpers.cfg_parse_int. destruct (c name) as [v|].
  - exists 0. split_and!; [by left| |by rewrite Z.add_0_r]. split; [by eexists|done].
  - exists 1. rewrite int_incr_ok by done. split_and!; [by right| |done].
    split; [done|]. by intros [? ?].
Qed.

Lemma count_error (cond : bool) (e : Z) :
  e < C.INT_MAX →
  ∃ d, (d = 0 ∨ d = 1) ∧ (d = 0 ↔ cond = false) ∧
       (if cond then C.int_incr e else Ok e) = Ok (e + d).
Proof.
  intros He. destruct cond.
  - exists 1. rewrite int_incr_ok by done. by split_and!; [right| |].
  - exists 0. rewrite Z.add_0_r. by split_and!; [left| |].
Qed.

(** [ewma_op_init] returns 0 exactly when all five settings are found,
    [ewma_alpha] is between 1 and 100 and [rounds_for_csa] is positive,
    and -EINVAL otherwise; [threshold_percentage] is not checked and is
    cut to eight bits.  In both cases the algorithm context is installed
    with a count of zero, and every channel of the scan list is set to
    the score 100 with no samples.  Without a configuration group the
    function returns -EINVAL, and -ENOMEM when the allocation fails,
    with the DCS context untouched. *)
Theorem ewma_op_init_spec (ctx : dcs Ewma.ewma_context)
    (timing : ConfigHelpers.scan_timing) (c : ConfigHelpers.config_setting_t) :
  scan_list_valid ctx →
  let alpha := default 0 (c "ewma_alpha"%string) in
  let rounds := default 0 (c "rounds_for_csa"%string) in
  ∃ ret ctx',
    EwmaInit.ewma_op_init true ctx timing (Some c)
      = Ok (ret, ctx',
            {| ConfigHelpers.sec_per_scan := default 0 (c "sec_per_scan"%string);
               ConfigHelpers.sec_per_round := default 0 (c "sec_per_round"%string) |}) ∧
    algo_context ctx'
      = Some {| Ewma.ewma_alpha := C.u8 alpha;
                Ewma.threshold_percentage :=
                  C.u8 (default 0 (c "threshold_percentage"%string));
                Ewma.rounds_for_csa := rounds;
                Ewma.rounds_with_a_better_channel := 0 |} ∧
    (ret = 0 ∨ ret = - ConfigHelpers.EINVAL) ∧
    (ret = 0 ↔
       Forall (λ name, is_Some (c name))
         ["threshold_percentage"; "ewma_alpha"; "rounds_for_csa";
          "sec_per_scan"; "sec_per_round"]%string ∧
       Ewma.EWMA_ALPHA_MIN ≤ alpha ≤ Ewma.EWMA_ALPHA_MAX ∧ 0 < rounds) ∧
    (∀ i chan, i ∈ scan_list ctx → all_channels ctx' !! i = Some chan →
               score chan = Ewma.METRIC_INIT_VALUE ∧ n_samples (metric chan) = 0) ∧
    scan_list ctx' = scan_list ctx ∧
    current_channel ctx' = current_channel ctx ∧
    EwmaInit.ewma_op_init true ctx timing None
      = Ok (- ConfigHelpers.EINVAL, ctx, timing) ∧
    EwmaInit.ewma_op_init false ctx timing (Some c)
      = Ok (- ConfigHelpers.ENOMEM, ctx, timing).
Proof.
  intros Hvalid alpha rounds.
  assert (Hmax : C.INT_MAX = 2147483647) by reflexivity.
  destruct (cfg_parse_int_count c "threshold_percentage" 0) as (d1 & Hd1 & Hi1 & E1); [lia|].
  destruct (cfg_parse_int_count c "ewma_alpha" (0 + d1)) as (d2 & Hd2 & Hi2 & E2); [lia|].
  destruct (count_error ((Ewma.EWMA_ALPHA_MAX <? alpha) || (alpha <? Ewma.EWMA_ALPHA_MIN))
              (0 + d1 + d2)) as (d3 & Hd3 & Hi3 & E3); [lia|].
  destruct (cfg_parse_int_count c "rounds_for_csa" (0 + d1 + d2 + d3))
    as (d4 & Hd4 & Hi4 & E4); [lia|].
  destruct (count_error (rounds <=? 0) (0 + d1 + d2 + d3 + d4))
    as (d5 & Hd5 & Hi5 & E5); [lia|].
  destruct (cfg_parse_int_count c "sec_per_scan" (0 + d1 + d2 + d3 + d4 + d5))
    as (d6 & Hd6 & Hi6 & E6); [lia|].
  destruct (cfg_parse_int_count c "sec_per_round" (0 + d1 + d2 + d3 + d4 + d5 + d6))
    as (d7 & Hd7 & Hi7 & E7); [lia|].
  set (ewma := {| Ewma.ewma_alpha := C.u8 alpha;
                  Ewma.threshold_percentage :=
                    C.u8 (default 0 (c "threshold_percentage"%string));
                  Ewma.rounds_for_csa := rounds;
                  Ewma.rounds_with_a_better_channel := 0 |}).
  destruct (reset_loop_spec (scan_list ctx) Ewma.METRIC_INIT_VALUE
              (set_algo_context ctx (Some ewma)) Hvalid)
    as (ctx' & Hreset & Hsl & Hcc & Hac & _ & _ & _ & Hch).
  exists (if 0 + d1 + d2 + d3 + d4 + d5 + d6 + d7 =? 0 then 0 else - ConfigHelpers.EINVAL),
         ctx'.
  split_and!; try done.
  - unfold EwmaInit.ewma_op_init. cbn [negb].
    rewrite E1. cbn [mbind result_bind]. rewrite E2. cbn [mbind result_bind].
    fold alpha. rewrite E3. cbn [mbind result_bind]. rewrite E4. cbn [mbind result_bind].
    fold rounds. rewrite E5. cbn [mbind result_bind]. rewrite E6. cbn [mbind result_bind].
    rewrite E7. cbn [mbind result_bind].
    unfold dcs_algo_reset_accumulated_scores. fold ewma.
    change (scan_list (set_algo_context ctx (Some ewma))) with (scan_list ctx).
    by rewrite Hreset.
  - destruct (Z.eqb_spec (0 + d1 + d2 + d3 + d4 + d5 + d6 + d7) 0); [by left|by right].
  - assert (Hall : 0 + d1 + d2 + d3 + d4 + d5 + d6 + d7 = 0 ↔
                   d1 = 0 ∧ d2 = 0 ∧ d3 = 0 ∧ d4 = 0 ∧ d5 = 0 ∧ d6 = 0 ∧ d7 = 0)
      by (clear - Hd1 Hd2 Hd3 Hd4 Hd5 Hd6 Hd7; lia).
    assert (Hrange : d3 = 0 ↔ Ewma.EWMA_ALPHA_MIN ≤ alpha ≤ Ewma.EWMA_ALPHA_MAX).
    { rewrite Hi3, orb_false_iff, Z.ltb_ge, Z.ltb_ge. lia. }
    assert (Hpos : d5 = 0 ↔ 0 < rounds).
    { rewrite Hi5, Z.leb_gt. done. }
    rewrite !Forall_cons, Forall_nil.
    destruct (Z.eqb_spec (0 + d1 + d2 + d3 + d4 + d5 + d6 + d7) 0) as [Hz|Hz].
    + split; [intros _|done]. apply Hall in Hz. intuition.
    + split; [unfold ConfigHelpers.EINVAL; lia|]. intros Hok. exfalso. apply Hz, Hall.
      intuition.
  - intros i chan Hi Hchan.
    unfold scan_list_valid in Hvalid. rewrite Forall_forall in Hvalid.
    destruct (Hvalid i Hi) as [c0 Hc0].
    destruct (Hch i c0 Hc0) as (c' & Hc' & _ & _ & Hin & _).
    rewrite Hchan in Hc'. injection Hc' as <-.
    destruct (Hin Hi) as [Hs Hn]. split; [|done]. rewrite Hs. reflexivity.
Qed.

Lemma ewma_op_init_spec_witness :
  ∃ ctx',
    EwmaInit.ewma_op_init true Terms.ewma_two_ctx Terms.no_timing (Some Terms.ewma_cfg)
      = Ok (0, ctx',
            {| ConfigHelpers.sec_per_scan := 1; ConfigHelpers.sec_per_round := 60 |}) ∧
    algo_context ctx'
      = Some {| Ewma.ewma_alpha := 20; Ewma.threshold_percentage := 10;
                Ewma.rounds_for_csa := 3; Ewma.rounds_with_a_better_channel := 0 |}.
Proof.
  destruct (ewma_op_init_spec Terms.ewma_two_ctx Terms.no_timing Terms.ewma_cfg)
    as (ret & ctx' & Hinit & Hctx & _ & Hret & _).
  - repeat constructor; eexists; reflexivity.
  - assert (Hz : ret = 0).
    { apply Hret. split_and!.
      - repeat constructor; eexists; reflexivity.
      - vm_compute. discriminate.
      - vm_compute. discriminate.
      - reflexivity. }
    subst ret. exists ctx'. split; [exact Hinit|exact Hctx].
Defined.

(** [sample_hold_op_init] returns 0 exactly when its four settings are
    found and checks none of their values.  A configuration with
    [rounds_for_eval = 0] is therefore accepted, and the first
    evaluation after it divides by zero. *)
Theorem sample_hold_op_init_unchecked_rounds (log_level : Z)
    (ctx : dcs SampleAndHold.sample_and_hold) (timing : ConfigHelpers.scan_timing)
    (c : ConfigHelpers.config_setting_t) (k : nat) (cur : dcs_channel) :
  scan_list ctx ≠ [] →
  scan_list_valid ctx →
  current_channel ctx = Some k →
  all_channels ctx !! k = Some cur →
  Forall freq_ok (all_channels ctx) →
  (∀ i chan, i ∈ scan_list ctx → all_channels ctx !! i = Some chan →
             rounds_as_best (metric chan) < C.INT_MAX) →
  let sh := {| SampleAndHold.rounds_for_eval := default 0 (c "rounds_for_eval"%string);
               SampleAndHold.threshold_percentage :=
                 C.u8 (default 0 (c "threshold_percentage"%string));
               SampleAndHold.num_full_scans := 0 |} in
  let ctx' := set_algo_context ctx (Some sh) in
  ∃ ret,
    SampleAndHoldInit.sample_hold_op_init true ctx timing (Some c)
      = Ok (ret, ctx',
            {| ConfigHelpers.sec_per_scan := default 0 (c "sec_per_scan"%string);
               ConfigHelpers.sec_per_round := default 0 (c "sec_per_round"%string) |}) ∧
    (ret = 0 ∨ ret = - ConfigHelpers.EINVAL) ∧
    (ret = 0 ↔
       Forall (λ name, is_Some (c name))
         ["rounds_for_eval"; "threshold_percentage"; "sec_per_scan";
          "sec_per_round"]%string) ∧
    (c "rounds_for_eval"%string = Some 0 →
       SampleAndHold.sample_hold_op_evaluate_channels log_level ctx' = Err DivByZero).
Proof.
  intros Hne Hvalid Hk Hcur Hfreq Hrb sh ctx'.
  assert (Hmax : C.INT_MAX = 2147483647) by reflexivity.
  destruct (cfg_parse_int_count c "rounds_for_eval" 0) as (d1 & Hd1 & Hi1 & E1); [lia|].
  destruct (cfg_parse_int_count c "threshold_percentage" (0 + d1))
    as (d2 & Hd2 & Hi2 & E2); [lia|].
  destruct (cfg_parse_int_count c "sec_per_scan" (0 + d1 + d2))
    as (d3 & Hd3 & Hi3 & E3); [lia|].
  destruct (cfg_parse_int_count c "sec_per_round" (0 + d1 + d2 + d3))
    as (d4 & Hd4 & Hi4 & E4); [lia|].
  exists (if 0 + d1 + d2 + d3 + d4 =? 0 then 0 else - ConfigHelpers.EINVAL).
  split_and!.
  - unfold SampleAndHoldInit.sample_hold_op_init. cbn [negb].
    rewrite E1. cbn [mbind result_bind]. rewrite E2. cbn [mbind result_bind].
    rewrite E3. cbn [mbind result_bind]. rewrite E4. cbn [mbind result_bind]. done.
  - destruct (Z.eqb_spec (0 + d1 + d2 + d3 + d4) 0); [by left|by right].
  - assert (Hall : 0 + d1 + d2 + d3 + d4 = 0 ↔ d1 = 0 ∧ d2 = 0 ∧ d3 = 0 ∧ d4 = 0)
      by (clear - Hd1 Hd2 Hd3 Hd4; lia).
    rewrite !Forall_cons, Forall_nil.
    destruct (Z.eqb_spec (0 + d1 + d2 + d3 + d4) 0) as [Hz|Hz].
    + split; [intros _|done]. apply Hall in Hz. intuition.
    + split; [unfold ConfigHelpers.EINVAL; lia|]. intros Hok. exfalso. apply Hz, Hall.
      intuition.
  - intros Hzero.
    destruct (highest_score_some ctx' k cur Hne Hvalid Hk Hcur Hfreq)
      as (b & best & Hbest & Hin & Hb).
    assert (Hrbest : rounds_as_best (metric best) < C.INT_MAX) by eauto.
    unfold SampleAndHold.sample_hold_op_evaluate_channels.
    rewrite Hbest. cbn [mbind result_bind].
    rewrite (deref_Some ctx' b best Hb). cbn [mbind result_bind].
    rewrite int_incr_ok by done. cbn [mbind result_bind].
    rewrite (store_metric_Some ctx' b best _ Hb). cbn [mbind result_bind].
    unfold algo_private.
    change (algo_context (set_all_channels ctx' _)) with (Some sh).
    cbn [mbind result_bind]. subst sh.
    cbn [SampleAndHold.num_full_scans SampleAndHold.rounds_for_eval].
    rewrite Hzero. reflexivity.
Qed.

Lemma sample_hold_op_init_unchecked_rounds_witness :
  ∃ ctx',
    SampleAndHoldInit.sample_hold_op_init true Scenarios.s3_start Terms.no_timing
      (Some Terms.zero_rounds_cfg)
      = Ok (0, ctx',
            {| ConfigHelpers.sec_per_scan := 1; ConfigHelpers.sec_per_round := 60 |}) ∧
    SampleAndHold.sample_hold_op_evaluate_channels 3 ctx' = Err DivByZero.
Proof.
  destruct (sample_hold_op_init_unchecked_rounds 3 Scenarios.s3_start Terms.no_timing
              Terms.zero_rounds_cfg 0 (Scenarios.channel 902500 1 1 0 0 0))
    as (ret & Hinit & _ & Hret & Hdiv).
  - discriminate.
  - repeat constructor; eexists; reflexivity.
  - reflexivity.
  - reflexivity.
  - repeat constructor; unfold freq_ok; cbn; lia.
  - intros i chan Hi Hc. unfold C.INT_MAX.
    apply elem_of_cons in Hi as [->|Hi]; [injection Hc as <-; cbn; lia|].
    apply list_elem_of_singleton in Hi as ->. injection Hc as <-. cbn. lia.
  - assert (Hz : ret = 0).
    { apply Hret. repeat constructor; eexists; reflexivity. }
    subst ret. eexists. split; [exact Hinit|]. apply Hdiv. reflexivity.
Defined.

(** ** dcs.c: building the scan list *)

Lemma primary_channel_is_available_true {A} (ctx : dcs A) (c : dcs_channel) (p : Z) :
  Dcs.calculate_new_prim_ch_center_freq ctx c = Ok p →
  ∃ b, DcsChannels.primary_channel_is_available ctx c = Ok b ∧
       (b = true ↔
        ∃ c2, c2 ∈ all_channels ctx ∧ frequency_khz (ch c2) = p ∧
              bandwidth_mhz (ch c2) = C.u8 (current_primary_ch_width ctx)).
Proof.
  intros Hp. unfold DcsChannels.primary_channel_is_available. rewrite Hp.
  cbn [mbind result_bind]. eexists. split; [reflexivity|].
  rewrite existsb_exists. split.
  - intros (c2 & Hin & Hc2). apply andb_true_iff in Hc2 as [H1 H2].
    exists c2. split_and!; [by apply list_elem_of_In|lia|lia].
  - intros (c2 & Hin & H1 & H2). exists c2. split; [by apply list_elem_of_In|].
    apply andb_true_iff. split; lia.
Qed.

Lemma init_scan_loop_spec {A} (ctx : dcs A) (bw : Z) (chans : list dcs_channel) :
  ∀ (i : nat) (scan : list nat),
    (∀ c, c ∈ chans → bandwidth_mhz (ch c) = bw →
          is_ok (Dcs.calculate_new_prim_ch_center_freq ctx c)) →
    ∃ added,
      DcsChannels.init_scan_loop ctx bw chans i scan = Ok (scan ++ added) ∧
      Forall (λ j, (i ≤ j)%nat) added ∧
      StronglySorted lt added ∧
      (∀ j, j ∈ added ↔
            ∃ c, (i ≤ j)%nat ∧ chans !! (j - i)%nat = Some c ∧ Terms.scannable ctx bw c).
Proof.
  induction chans as [|c chans IH]; intros i scan Hok.
  - exists []. rewrite app_nil_r. split_and!; try done; [constructor|].
    intros j. split; [by intros ?%elem_of_nil|]. by intros (c & _ & Hc & _).
  - cbn [DcsChannels.init_scan_loop].
    assert (Hok' : ∀ c', c' ∈ chans → bandwidth_mhz (ch c') = bw →
                         is_ok (Dcs.calculate_new_prim_ch_center_freq ctx c')).
    { intros c' Hc'. apply Hok. by right. }
    assert (Hsel : ∃ add : bool,
      (if bandwidth_mhz (ch c) =? bw
       then DcsChannels.primary_channel_is_available ctx c else Ok false) = Ok add ∧
      (add = true ↔ Terms.scannable ctx bw c)).
    { destruct (Z.eqb_spec (bandwidth_mhz (ch c)) bw) as [Hbw|Hbw].
      - destruct (Hok c ltac:(by left) Hbw) as [p Hp].
        destruct (primary_channel_is_available_true ctx c p Hp) as (b & Hb & Hiff).
        exists b. split; [done|]. rewrite Hiff. unfold Terms.scannable. split.
        + intros (c2 & ? & ? & ?). split; [done|]. by exists p, c2.
        + intros (_ & p' & c2 & Hp' & ? & ? & ?). rewrite Hp in Hp'.
          injection Hp' as <-. by exists c2.
      - exists false. split; [done|]. split; [done|]. by intros [? _]. }
    destruct Hsel as (add & -> & Hadd).
    destruct (IH (S i) (if add then scan ++ [i] else scan) Hok')
      as (added & Hrun & Hge & Hsorted & Hmem).
    rewrite Hrun.
    assert (Hshift : ∀ j, j ∈ added ↔
              ∃ c', (i ≤ j)%nat ∧ (c :: chans) !! (j - i)%nat = Some c' ∧
                    (i < j)%nat ∧ Terms.scannable ctx bw c').
    { intros j. rewrite Hmem. split.
      - intros (c' & Hj & Hc' & Hs). exists c'. split_and!; [lia| |lia|done].
        replace (j - i)%nat with (S (j - S i)) by lia. done.
      - intros (c' & Hj & Hc' & Hlt & Hs). exists c'. split_and!; [lia| |done].
        replace (j - i)%nat with (S (j - S i)) in Hc' by lia. done. }
    destruct add.
    + exists (i :: added). rewrite <- app_assoc. split_and!; [done| | |].
      * constructor; [lia|]. eapply Forall_impl; [exact Hge|]. cbn. lia.
      * constructor; [done|]. eapply Forall_impl; [exact Hge|]. cbn. lia.
      * intros j. rewrite elem_of_cons, Hshift. split.
        -- intros [->|(c' & ? & ? & ? & ?)].
           ++ exists c. rewrite Nat.sub_diag. split_and!; [lia|done|by apply Hadd].
           ++ by exists c'.
        -- intros (c' & Hj & Hc' & Hs).
           destruct (decide (j = i)) as [->|Hne]; [by left|].
           right. exists c'. split_and!; [done|done|lia|done].
    + exists added. split_and!; [done| |done|].
      * eapply Forall_impl; [exact Hge|]. cbn. lia.
      * intros j. rewrite Hshift. split.
        -- intros (c' & ? & ? & ? & ?). by exists c'.
        -- intros (c' & Hj & Hc' & Hs).
           destruct (decide (j = i)) as [->|Hne].
           ++ rewrite Nat.sub_diag in Hc'. injection Hc' as <-.
              apply Hadd in Hs. discriminate.
           ++ exists c'. split_and!; [done|done|lia|done].
Qed.

(** [init_scan_list] builds the scan list from scratch: it holds, in
    ascending order and without repetition, exactly the channels of
    [all_channels] that have the bandwidth of the current channel and
    whose primary channel is among the available channels.  Every entry
    points into [all_channels].  Without a current channel the function
    dereferences [NULL]. *)
Theorem init_scan_list_spec {A} (ctx : dcs A) (k : nat) (cur : dcs_channel) :
  current_channel ctx = Some k →
  all_channels ctx !! k = Some cur →
  (∀ c, c ∈ all_channels ctx → bandwidth_mhz (ch c) = bandwidth_mhz (ch cur) →
        is_ok (Dcs.calculate_new_prim_ch_center_freq ctx c)) →
  ∃ scan,
    DcsChannels.init_scan_list ctx = Ok (set_scan_list ctx scan) ∧
    (∀ i, i ∈ scan ↔
          ∃ c, all_channels ctx !! i = Some c ∧
               Terms.scannable ctx (bandwidth_mhz (ch cur)) c) ∧
    StronglySorted lt scan ∧
    NoDup scan ∧
    scan_list_valid (set_scan_list ctx scan) ∧
    DcsChannels.init_scan_list (DcsChannels.set_current_channel ctx None)
      = Err NullDeref.
Proof.
  intros Hk Hcur Hok.
  destruct (init_scan_loop_spec ctx (bandwidth_mhz (ch cur)) (all_channels ctx) 0 [] Hok)
    as (scan & Hrun & _ & Hsorted & Hmem).
  exists scan.
  assert (Hiff : ∀ i, i ∈ scan ↔
            ∃ c, all_channels ctx !! i = Some c ∧
                 Terms.scannable ctx (bandwidth_mhz (ch cur)) c).
  { intros i. rewrite Hmem. rewrite Nat.sub_0_r. split.
    - intros (c & _ & ? & ?). by exists c.
    - intros (c & ? & ?). exists c. split_and!; [lia|done|done]. }
  split_and!; try done.
  - unfold DcsChannels.init_scan_list. rewrite Hk, (deref_Some ctx k cur Hcur).
    cbn [mbind result_bind]. by rewrite Hrun.
  - clear -Hsorted. induction Hsorted as [|j scan Hs IH Hall]; constructor; [|done].
    intros Hin. rewrite Forall_forall in Hall. specialize (Hall j Hin). lia.
  - unfold scan_list_valid. cbn. apply Forall_forall. intros i Hi.
    apply Hiff in Hi as (c & Hc & _). by exists c.
Qed.

Lemma init_scan_list_spec_witness :
  DcsChannels.init_scan_list Terms.two_mhz_ctx
    = Ok (set_scan_list Terms.two_mhz_ctx [0%nat]).
Proof.
  destruct (init_scan_list_spec Terms.two_mhz_ctx 0 (Scenarios.channel 903000 2 2 0 0 0))
    as (scan & Hrun & _).
  - reflexivity.
  - reflexivity.
  - intros c Hc _.
    repeat (apply elem_of_cons in Hc as [->|Hc]); try (eexists; reflexivity).
    by apply elem_of_nil in Hc.
  - rewrite Hrun. vm_compute in Hrun. injection Hrun as <-. reflexivity.
Defined.

(** ** dcs.c: the current channel from the STATUS answer *)

Lemma find_value_in (items : list MmsmData.mmsm_data_item_t) (key buf : list ascii) :
  Helpers.mmsm_find_value_by_key items key = Some buf →
  ∃ item, item ∈ items ∧ MmsmData.mmsm_value item = Some buf.
Proof.
  induction items as [|item items IH]; [done|]. cbn.
  destruct (MmsmData.mmsm_key item) as [?|s].
  - intros H. destruct (IH H) as (it & ? & ?). exists it. split; [by right|done].
  - case_decide.
    + intros Hv. exists item. split; [by left|done].
    + intros Hv. destruct (IH Hv) as (it & ? & ?). exists it. split; [by right|done].
Qed.

Lemma status_value_cases (items : list MmsmData.mmsm_data_item_t) (key : string) :
  Terms.text_values items →
  (Helpers.mmsm_find_value_by_key items (C.text key) = None ∧
   DcsChannels.status_value items key = Ok None) ∨
  (∃ val, is_Some (Helpers.mmsm_find_value_by_key items (C.text key)) ∧
          DcsChannels.status_value items key = Ok (Some val)).
Proof.
  intros Htext. unfold DcsChannels.status_value.
  destruct (Helpers.mmsm_find_value_by_key items (C.text key)) as [buf|] eqn:Hfind;
    [right|by left].
  destruct (find_value_in _ _ _ Hfind) as (item & Hin & Hval).
  unfold Terms.text_values in Htext. rewrite Forall_forall in Htext.
  destruct (Htext item Hin buf Hval) as [val Hread].
  exists val. rewrite Hread. split; [by eexists|done].
Qed.

Lemma channel_index_spec (chans : list dcs_channel) (s1g_freq s1g_bw : Z) :
  ∀ (i0 i : nat),
    DcsChannels.channel_index chans i0 s1g_freq s1g_bw = Some i →
    ∃ c, (i0 ≤ i)%nat ∧ chans !! (i - i0)%nat = Some c ∧
         frequency_khz (ch c) = C.u32 s1g_freq ∧ bandwidth_mhz (ch c) = s1g_bw ∧
         ∀ j c', (j < i - i0)%nat → chans !! j = Some c' →
                 ¬ (frequency_khz (ch c') = C.u32 s1g_freq ∧
                    bandwidth_mhz (ch c') = s1g_bw).
Proof.
  induction chans as [|c chans IH]; intros i0 i; cbn; [done|].
  destruct (Z.eqb_spec (frequency_khz (ch c)) (C.u32 s1g_freq)) as [Hf|Hf];
    destruct (Z.eqb_spec (bandwidth_mhz (ch c)) s1g_bw) as [Hb|Hb]; cbn.
  1:{ intros [= <-]. exists c. rewrite Nat.sub_diag. split_and!; try done. lia. }
  all: intros Hrec; destruct (IH (S i0) i Hrec) as (c1 & Hle & Hc1 & Hf1 & Hb1 & Hfirst);
    exists c1; (split_and!; [lia| |done|done|]);
    [ replace (i - i0)%nat with (S (i - S i0)) by lia; done
    | intros j c' Hj Hc'; destruct j as [|j];
      [ injection Hc' as <-; tauto
      | apply (Hfirst j c'); [lia|done] ] ].
Qed.

Lemma update_current_channel_cases {A} (strtol strtoul : list ascii → Z)
    (item : list MmsmData.mmsm_data_item_t) (ctx : dcs A) :
  Terms.text_values item →
  ∃ ret ctx',
    DcsChannels.update_current_channel strtol strtoul item ctx = Ok (ret, ctx') ∧
    all_channels ctx' = all_channels ctx ∧
    scan_list ctx' = scan_list ctx ∧
    algo_context ctx' = algo_context ctx ∧
    (ret = 0 ∨ ret = - DcsChannels.EAGAIN ∨ ret = - ConfigHelpers.EINVAL) ∧
    (ret = - DcsChannels.EAGAIN → ctx' = ctx) ∧
    (ret = - ConfigHelpers.EINVAL → current_channel ctx' = None) ∧
    (ret = 0 →
       Forall (λ key, is_Some (Helpers.mmsm_find_value_by_key item (C.text key)))
         Terms.status_keys ∧
       beacon_interval ctx' ≠ 0 ∧ dtim_period ctx' ≠ 0 ∧
       ∃ i c freq_text bw_text,
         DcsChannels.status_value item "s1g_freq" = Ok (Some freq_text) ∧
         DcsChannels.status_value item "s1g_bw" = Ok (Some bw_text) ∧
         current_channel ctx' = Some i ∧
         all_channels ctx !! i = Some c ∧
         frequency_khz (ch c) = C.u32 (C.to_i32 (strtol freq_text)) ∧
         bandwidth_mhz (ch c) = C.to_i32 (strtol bw_text) ∧
         ∀ j c', (j < i)%nat → all_channels ctx !! j = Some c' →
                 ¬ (frequency_khz (ch c') = C.u32 (C.to_i32 (strtol freq_text)) ∧
                    bandwidth_mhz (ch c') = C.to_i32 (strtol bw_text))).
Proof.
  intros Htext.
  assert (Herr : ∀ (ctx1 : dcs A) (Q : dcs A → Prop),
    all_channels ctx1 = all_channels ctx → scan_list ctx1 = scan_list ctx →
    algo_context ctx1 = algo_context ctx →
    ∃ ret ctx',
      Ok (- ConfigHelpers.EINVAL, DcsChannels.set_current_channel ctx1 None)
        = Ok (ret, ctx') ∧
      all_channels ctx' = all_channels ctx ∧
      scan_list ctx' = scan_list ctx ∧
      algo_context ctx' = algo_context ctx ∧
      (ret = 0 ∨ ret = - DcsChannels.EAGAIN ∨ ret = - ConfigHelpers.EINVAL) ∧
      (ret = - DcsChannels.EAGAIN → ctx' = ctx) ∧
      (ret = - ConfigHelpers.EINVAL → current_channel ctx' = None) ∧
      (ret = 0 → Q ctx')).
  { intros ctx1 Q H1 H2 H3. eexists _, _. split; [reflexivity|].
    split_and!; try done. by right; right. }
  unfold DcsChannels.update_current_channel.
  destruct item as [|item0 rest]; [by apply Herr|].
  set (item := item0 :: rest) in *.
  destruct (status_value_cases item "s1g_freq" Htext) as [[F1 E1]|(v1 & F1 & E1)];
    rewrite E1; cbn [mbind result_bind]; [by apply Herr|].
  destruct (Z.eqb_spec (C.to_i32 (strtol v1)) (-1)) as [Hagain|Hagain].
  { eexists _, _. split; [reflexivity|].
    split_and!; try done. by right; left. }
  destruct (status_value_cases item "freq" Htext) as [[F2 E2]|(v2 & F2 & E2)];
    rewrite E2; cbn [mbind result_bind]; [by apply Herr|].
  destruct (status_value_cases item "s1g_bw" Htext) as [[F3 E3]|(v3 & F3 & E3)];
    rewrite E3; cbn [mbind result_bind]; [by apply Herr|].
  destruct (status_value_cases item "s1g_prim_chwidth" Htext)
    as [[F4 E4]|(v4 & F4 & E4)];
    rewrite E4; cbn [mbind result_bind]; [by apply Herr|].
  destruct (status_value_cases item "s1g_prim_1mhz_chan_index" Htext)
    as [[F5 E5]|(v5 & F5 & E5)];
    rewrite E5; cbn [mbind result_bind]; [by apply Herr|].
  destruct (status_value_cases item "beacon_int" Htext) as [[F6 E6]|(v6 & F6 & E6)];
    rewrite E6; cbn [mbind result_bind]; [by apply Herr|].
  cbn [beacon_interval DcsChannels.set_beacon_interval DcsChannels.set_status].
  destruct (Z.eqb_spec (C.u16 (strtol v6)) 0) as [Hb0|Hb0]; [by apply Herr|].
  destruct (status_value_cases item "dtim_period" Htext) as [[F7 E7]|(v7 & F7 & E7)];
    rewrite E7; cbn [mbind result_bind]; [by apply Herr|].
  cbn [dtim_period DcsChannels.set_dtim_period DcsChannels.set_status].
  destruct (Z.eqb_spec (C.u8 (strtol v7)) 0) as [Hd0|Hd0]; [by apply Herr|].
  cbn [all_channels DcsChannels.set_dtim_period DcsChannels.set_beacon_interval
       DcsChannels.set_current_prim_1mhz_ch_index DcsChannels.set_current_primary_ch_width
       DcsChannels.set_current_5g_freq DcsChannels.set_status].
  destruct (DcsChannels.channel_index (all_channels ctx) 0 (C.to_i32 (strtol v1))
              (C.to_i32 (strtol v3))) as [i|] eqn:Hidx; [|by apply Herr].
  destruct (channel_index_spec _ _ _ 0 i Hidx) as (c & _ & Hc & Hf & Hbw & Hfirst).
  rewrite Nat.sub_0_r in Hc, Hfirst.
  eexists _, _. split; [reflexivity|].
  split_and!; try done; [by left|].
  intros _. split_and!; try done.
  - unfold Terms.status_keys. by repeat constructor.
  - by exists i, c, v1, v3.
Qed.

(** [update_current_channel] on a STATUS answer.  It returns 0, -EAGAIN
    or -EINVAL and never touches the channel array or the scan list.
    It returns -EAGAIN, with the context exactly as it was, when
    [s1g_freq] reads -1.  When it returns -EINVAL, as it does whenever
    one of the seven lines is missing, the current channel is [NULL].
    When it returns 0 all seven lines were there, beacon interval and
    DTIM period are not zero, and the current channel is the first
    channel of the array with the frequency and the bandwidth of the
    answer. *)
Theorem update_current_channel_outcomes {A} (strtol strtoul : list ascii → Z)
    (item : list MmsmData.mmsm_data_item_t) (ctx : dcs A) :
  Terms.text_values item →
  ∃ ret ctx',
    DcsChannels.update_current_channel strtol strtoul item ctx = Ok (ret, ctx') ∧
    all_channels ctx' = all_channels ctx ∧
    scan_list ctx' = scan_list ctx ∧
    algo_context ctx' = algo_context ctx ∧
    (ret = 0 ∨ ret = - DcsChannels.EAGAIN ∨ ret = - ConfigHelpers.EINVAL) ∧
    (ret = - DcsChannels.EAGAIN → ctx' = ctx) ∧
    (ret = - ConfigHelpers.EINVAL → current_channel ctx' = None) ∧
    (ret = 0 →
       Forall (λ key, is_Some (Helpers.mmsm_find_value_by_key item (C.text key)))
         Terms.status_keys ∧
       beacon_interval ctx' ≠ 0 ∧ dtim_period ctx' ≠ 0 ∧
       ∃ i c freq_text bw_text,
         DcsChannels.status_value item "s1g_freq" = Ok (Some freq_text) ∧
         DcsChannels.status_value item "s1g_bw" = Ok (Some bw_text) ∧
         current_channel ctx' = Some i ∧
         all_channels ctx !! i = Some c ∧
         frequency_khz (ch c) = C.u32 (C.to_i32 (strtol freq_text)) ∧
         bandwidth_mhz (ch c) = C.to_i32 (strtol bw_text) ∧
         ∀ j c', (j < i)%nat → all_channels ctx !! j = Some c' →
                 ¬ (frequency_khz (ch c') = C.u32 (C.to_i32 (strtol freq_text)) ∧
                    bandwidth_mhz (ch c') = C.to_i32 (strtol bw_text))).
Proof. apply update_current_channel_cases. Qed.

Lemma update_current_channel_outcomes_witness :
  (∃ ctx',
     DcsChannels.update_current_channel Terms.decimal Terms.decimal
       (Terms.status_items "902500") Scenarios.tied_ctx = Ok (0, ctx') ∧
     current_channel ctx' = Some 0%nat) ∧
  DcsChannels.update_current_channel Terms.decimal Terms.decimal
    (Terms.status_items "-1") Scenarios.tied_ctx
    = Ok (- DcsChannels.EAGAIN, Scenarios.tied_ctx).
Proof.
  split.
  - destruct (update_current_channel_outcomes Terms.decimal Terms.decimal
                (Terms.status_items "902500") Scenarios.tied_ctx)
      as (ret & ctx' & Hrun & _).
    + repeat constructor; intros buf [= <-]; eexists; reflexivity.
    + vm_compute in Hrun. injection Hrun as <- <-.
      eexists. split; [vm_compute; reflexivity|reflexivity].
  - destruct (update_current_channel_outcomes Terms.decimal Terms.decimal
                (Terms.status_items "-1") Scenarios.tied_ctx)
      as (ret & ctx' & Hrun & _ & _ & _ & _ & Hsame & _).
    + repeat constructor; intros buf [= <-]; eexists; reflexivity.
    + rewrite Hrun. vm_compute in Hrun. injection Hrun as <- _.
      by rewrite Hsame.
Defined.

(** A failed update leaves no current channel, and the scan thread
    does not check for that: its next turn with a successful
    measurement, here under the EWMA algorithm, dereferences the [NULL]
    current channel when it writes the data log line. *)
Theorem failed_channel_update_breaks_scan_thread
    (strtol strtoul : list ascii → Z) (item : list MmsmData.mmsm_data_item_t)
    (hostapd_request : Dcs.chan_switch_cmd → list MmsmData.mmsm_data_item_t)
    (csa_timedwait : dcs Ewma.ewma_context → Z → bool * dcs Ewma.ewma_context)
    (ctx ctx' : dcs Ewma.ewma_context) (e : Ewma.ewma_context)
    (j : nat) (c : dcs_channel) (n : Z) (m : channel_measurement) :
  Terms.text_values item →
  DcsChannels.update_current_channel strtol strtoul item ctx
    = Ok (- ConfigHelpers.EINVAL, ctx') →
  all_channels ctx !! j = Some c →
  algo_context ctx = Some e →
  n_samples (metric c) < C.INT_MAX →
  current_channel ctx' = None ∧
  Dcs.scan_iteration Ewma.ewma_ops hostapd_request csa_timedwait ctx' (Some j) n (Some m)
    = Err NullDeref.
Proof.
  intros Htext Hupd Hc He Hn.
  destruct (update_current_channel_cases strtol strtoul item ctx Htext)
    as (ret & ctx1 & Hrun & Hall & _ & Halgo & _ & _ & Hnull & _).
  rewrite Hupd in Hrun. injection Hrun as <- <-.
  specialize (Hnull eq_refl). split; [done|].
  rewrite <- Hall in Hc. rewrite <- Halgo in He.
  unfold Dcs.scan_iteration.
  rewrite (deref_Some ctx' j c Hc). cbn [mbind result_bind].
  unfold dcs_algo_ops_process_measurement. cbn [process_measurement Ewma.ewma_ops].
  unfold Ewma.ewma_op_process_measurement.
  rewrite (deref_Some ctx' j c Hc). cbn [mbind result_bind].
  rewrite int_incr_ok by done. cbn [mbind result_bind].
  unfold algo_private. rewrite He. cbn [mbind result_bind].
  rewrite (store_metric_Some ctx' j c _ Hc). cbn [mbind result_bind].
  cbn [current_channel set_all_channels]. by rewrite Hnull.
Qed.

Lemma failed_channel_update_breaks_scan_thread_witness :
  Dcs.scan_iteration Ewma.ewma_ops Scenarios.hostapd_ok Scenarios.wait_timeout
    (DcsChannels.set_current_channel Terms.ewma_two_ctx None) (Some 1%nat) 0
    (Some (Scenarios.measurement 50))
    = Err NullDeref.
Proof.
  refine (proj2 (failed_channel_update_breaks_scan_thread Terms.decimal Terms.decimal
                   [Scenarios.key_value "state" "DISABLED"]
                   Scenarios.hostapd_ok Scenarios.wait_timeout Terms.ewma_two_ctx
                   (DcsChannels.set_current_channel Terms.ewma_two_ctx None)
                   Terms.ewma_params 1 (Scenarios.channel 903500 1 3 150 4 2) 0
                   (Scenarios.measurement 50) _ _ _ _ _)).
  - repeat constructor; intros buf [= <-]; eexists; reflexivity.
  - reflexivity.
  - reflexivity.
  - reflexivity.
  - unfold C.INT_MAX. cbn. lia.
Defined.

(** ** dcs.c: waiting for the AP daemon *)

(** [wait_for_hostapd_state] polls at most [num_retries] times.  After
    answers that report other states it returns true on the first
    answer with the wanted state, false on a missing answer, and false
    when the retries are used up; an answer without a [state] line
    makes it pass [NULL] to [strcmp]. *)
Theorem wait_for_hostapd_state_spec (state : list ascii)
    (pre : list (list MmsmData.mmsm_data_item_t)) (num_retries : nat) :
  Forall (Terms.other_state state) pre →
  (length pre < num_retries)%nat →
  (∀ hit buf rest,
     hit ≠ [] →
     Helpers.mmsm_find_value_by_key hit (C.text "state") = Some buf →
     MmsmData.read_cstring buf = Ok state →
     DcsChannels.wait_for_hostapd_state (pre ++ hit :: rest) state num_retries
       = Ok true) ∧
  (∀ rest,
     DcsChannels.wait_for_hostapd_state (pre ++ [] :: rest) state num_retries
       = Ok false) ∧
  (∀ bad rest,
     bad ≠ [] →
     Helpers.mmsm_find_value_by_key bad (C.text "state") = None →
     DcsChannels.wait_for_hostapd_state (pre ++ bad :: rest) state num_retries
       = Err NullDeref) ∧
  (∀ rest,
     DcsChannels.wait_for_hostapd_state (pre ++ rest) state (length pre) = Ok false).
Proof.
  intros Hpre Hlen.
  assert (Hstep : ∀ item n rest,
    Terms.other_state state item →
    DcsChannels.wait_for_hostapd_state (item :: rest) state (S n)
      = DcsChannels.wait_for_hostapd_state rest state n).
  { intros item n rest (Hne & buf & val & Hfind & Hread & Hval).
    destruct item as [|it item]; [done|].
    cbn [DcsChannels.wait_for_hostapd_state].
    rewrite Hfind, Hread. cbn [mbind result_bind]. by rewrite decide_False. }
  assert (Hgive_up : ∀ rest,
    DcsChannels.wait_for_hostapd_state (pre ++ rest) state (length pre) = Ok false).
  { intros rest. clear Hlen. induction Hpre as [|item pre Hitem _ IH]; [done|].
    cbn [app length]. by rewrite Hstep. }
  assert (Hskip : ∀ rest,
    DcsChannels.wait_for_hostapd_state (pre ++ rest) state num_retries
      = DcsChannels.wait_for_hostapd_state rest state (num_retries - length pre)).
  { intros rest. clear Hgive_up. revert num_retries Hlen.
    induction Hpre as [|item pre Hitem _ IH]; intros num_retries Hlen.
    - by rewrite Nat.sub_0_r.
    - destruct num_retries as [|n]; [cbn in Hlen; lia|].
      cbn [app length]. rewrite Hstep by done. rewrite IH by (cbn in Hlen; lia).
      done. }
  assert (Hleft : ∃ n, (num_retries - length pre)%nat = S n).
  { exists (num_retries - length pre - 1)%nat. lia. }
  destruct Hleft as [n Hn].
  split_and!; [| | |done].
  - intros hit buf rest Hne Hfind Hread. rewrite Hskip, Hn.
    destruct hit as [|h hit]; [done|]. cbn [DcsChannels.wait_for_hostapd_state].
    rewrite Hfind, Hread. cbn [mbind result_bind]. by rewrite decide_True.
  - intros rest. by rewrite Hskip, Hn.
  - intros bad rest Hne Hfind. rewrite Hskip, Hn.
    destruct bad as [|b bad]; [done|]. cbn [DcsChannels.wait_for_hostapd_state].
    by rewrite Hfind.
Qed.

Lemma wait_for_hostapd_state_spec_witness :
  DcsChannels.wait_for_hostapd_state
    ([[Scenarios.key_value "state" "COUNTRY_UPDATE"]]
       ++ [Scenarios.key_value "state" "ENABLED"] :: [])
    (C.text "ENABLED") 10 = Ok true.
Proof.
  refine (proj1 (wait_for_hostapd_state_spec (C.text "ENABLED")
                   [[Scenarios.key_value "state" "COUNTRY_UPDATE"]] 10 _ _)
            [Scenarios.key_value "state" "ENABLED"] _ [] _ _ _).
  - repeat constructor; [discriminate|].
    eexists _, _. split_and!; [reflexivity|reflexivity|discriminate].
  - cbn. lia.
  - discriminate.
  - reflexivity.
  - reflexivity.
Defined.

(** ** dcs.c: the vendor event filter *)

Lemma nested_two_keys (event : list MmsmData.mmsm_data_item_t) (a b : Z) :
  a ≠ -1 → b ≠ -1 →
  Lookups.mmsm_find_by_nested_intkeys event [a; b; -1] = Ok (Terms.descend event [a; b]).
Proof.
  intros Ha Hb.
  apply (nested_intkeys_loop_descend [b] event a). by repeat constructor.
Qed.

(** [is_morse_ocs_done_vendor_event] lets an event pass exactly when
    the first vendor command of the event carries, in its first
    attributes of these kinds, the vendor id [MORSE_OUI] and the
    sub-command [MORSE_VENDOR_EVENT_OCS_DONE].  An event without
    vendor id or without sub-command is not ours.  An attribute value
    of fewer than four bytes is read past its end.
    [get_ocs_done_from_vendor_event] returns the value of the first
    [MORSE_VENDOR_ATTR_DATA] attribute inside the first vendor data
    attribute of that command, or [NULL]. *)
Theorem is_morse_ocs_done_vendor_event_spec (cmd id sub data : Z)
    (event : list MmsmData.mmsm_data_item_t) :
  cmd ≠ -1 → id ≠ -1 → sub ≠ -1 → data ≠ -1 →
  let accepts := DcsEvents.is_morse_ocs_done_vendor_event cmd id sub event in
  (Terms.descend event [cmd; id] = None → accepts = Ok false) ∧
  (∀ vendor_id,
     Terms.descend event [cmd; id] = Some (Nl80211.bytes_of 4 (C.u32 vendor_id)) →
     (C.u32 vendor_id ≠ DcsEvents.MORSE_OUI → accepts = Ok false) ∧
     (C.u32 vendor_id = DcsEvents.MORSE_OUI →
        (Terms.descend event [cmd; sub] = None → accepts = Ok false) ∧
        (∀ subcmd,
           Terms.descend event [cmd; sub] = Some (Nl80211.bytes_of 4 (C.u32 subcmd)) →
           accepts
             = Ok (bool_decide (C.u32 subcmd = DcsEvents.MORSE_VENDOR_EVENT_OCS_DONE))))) ∧
  (∀ bytes,
     Terms.descend event [cmd; id] = Some bytes → (length bytes < 4)%nat →
     accepts = Err OutOfBounds) ∧
  DcsEvents.get_ocs_done_from_vendor_event cmd data event
    = Ok (Terms.descend event [cmd; data; DcsEvents.MORSE_VENDOR_ATTR_DATA]).
Proof.
  intros Hcmd Hid Hsub Hdata accepts. subst accepts.
  unfold DcsEvents.is_morse_ocs_done_vendor_event.
  rewrite !nested_two_keys by done. cbn [mbind result_bind].
  assert (Hload : ∀ v, Lookups.load 4 (Some (Nl80211.bytes_of 4 (C.u32 v))) = Ok (C.u32 v)).
  { intros v. rewrite load_bytes_of by (unfold C.u32; apply Z.mod_pos_bound; lia).
    f_equal. unfold C.u32. change (8 * Z.of_nat 4) with 32. by rewrite Z.mod_mod. }
  split_and!.
  - by intros ->.
  - intros vendor_id ->. rewrite Hload. cbn [mbind result_bind]. split.
    + intros Hne. by rewrite (proj2 (Z.eqb_neq _ _) Hne).
    + intros Heq. rewrite (proj2 (Z.eqb_eq _ _) Heq). cbn [negb]. split.
      * by intros ->.
      * intros subcmd ->. rewrite Hload. cbn [mbind result_bind].
        destruct (Z.eqb_spec (C.u32 subcmd) DcsEvents.MORSE_VENDOR_EVENT_OCS_DONE).
        -- by rewrite bool_decide_eq_true_2.
        -- by rewrite bool_decide_eq_false_2.
  - intros bytes -> Hlen. unfold Lookups.load. by rewrite decide_False by lia.
  - apply (nested_intkeys_loop_descend [data; DcsEvents.MORSE_VENDOR_ATTR_DATA] event cmd).
    by repeat constructor.
Qed.

Lemma is_morse_ocs_done_vendor_event_spec_witness :
  let accepts := DcsEvents.is_morse_ocs_done_vendor_event 103 195 196 Terms.vendor_event in
  (Terms.descend Terms.vendor_event [103; 195] = None → accepts = Ok false) ∧
  (∀ vendor_id,
     Terms.descend Terms.vendor_event [103; 195]
       = Some (Nl80211.bytes_of 4 (C.u32 vendor_id)) →
     (C.u32 vendor_id ≠ DcsEvents.MORSE_OUI → accepts = Ok false) ∧
     (C.u32 vendor_id = DcsEvents.MORSE_OUI →
        (Terms.descend Terms.vendor_event [103; 196] = None → accepts = Ok false) ∧
        (∀ subcmd,
           Terms.descend Terms.vendor_event [103; 196]
             = Some (Nl80211.bytes_of 4 (C.u32 subcmd)) →
           accepts
             = Ok (bool_decide (C.u32 subcmd = DcsEvents.MORSE_VENDOR_EVENT_OCS_DONE))))) ∧
  (∀ bytes,
     Terms.descend Terms.vendor_event [103; 195] = Some bytes → (length bytes < 4)%nat →
     accepts = Err OutOfBounds) ∧
  DcsEvents.get_ocs_done_from_vendor_event 103 197 Terms.vendor_event
    = Ok (Terms.descend Terms.vendor_event [103; 197; DcsEvents.MORSE_VENDOR_ATTR_DATA]).
Proof.
  apply (is_morse_ocs_done_vendor_event_spec 103 195 196 197 Terms.vendor_event); lia.
Defined.

(** ** dcs.c: the scan thread keeps its place *)

Lemma list_remove_elem (l : list nat) (j x : nat) :
  NoDup l → x ∈ Dcs.list_remove l j ↔ x ∈ l ∧ x ≠ j.
Proof.
  induction l as [|y l IH]; intros Hnd; cbn.
  - split; [by intros ?%elem_of_nil|by intros [?%elem_of_nil _]].
  - apply NoDup_cons in Hnd as [Hy Hnd]. case_decide as Hyj.
    + subst y. split.
      * intros Hx. split; [by right|]. by intros ->.
      * intros [Hx Hne]. apply elem_of_cons in Hx as [->|Hx]; done.
    + rewrite !elem_of_cons, (IH Hnd). split.
      * intros [->|[Hx Hne]]; [by split; [left|]|by split; [right|]].
      * intros [[->|Hx] Hne]; [by left|by right].
Qed.

Lemma list_remove_NoDup (l : list nat) (j : nat) : NoDup l → NoDup (Dcs.list_remove l j).
Proof.
  induction l as [|y l IH]; intros Hnd; cbn; [done|].
  apply NoDup_cons in Hnd as [Hy Hnd]. case_decide; [done|].
  apply NoDup_cons. split; [|by apply IH].
  rewrite (list_remove_elem l j y Hnd). by intros [? _].
Qed.

Lemma list_remove_sublist (l : list nat) (j : nat) : sublist (Dcs.list_remove l j) l.
Proof.
  induction l as [|y l IH]; cbn; [done|].
  case_decide; [by apply sublist_cons|by apply sublist_skip].
Qed.

Lemma list_get_next_item_elem (l : list nat) (j x : nat) :
  NoDup l → Dcs.list_get_next_item_or_null l j = Some x → x ∈ l ∧ x ≠ j.
Proof.
  induction l as [|y l IH]; intros Hnd; cbn; [done|].
  apply NoDup_cons in Hnd as [Hy Hnd]. case_decide as Hyj.
  - subst y. destruct l as [|z l]; [done|]. cbn. intros [= ->].
    split; [by right; left|]. intros ->. apply Hy. by left.
  - intros Hx. destruct (IH Hnd Hx) as [Hin Hne]. split; [by right|done].
Qed.

Lemma keeps_channels_valid {A} (ctx ctx' : dcs A) :
  Terms.keeps_channels ctx ctx' → scan_list_valid ctx → scan_list_valid ctx'.
Proof.
  intros [Hsl Hlen]. unfold scan_list_valid. rewrite Hsl.
  rewrite !Forall_forall. intros Hv i Hi. apply lookup_lt_is_Some. rewrite Hlen.
  apply lookup_lt_is_Some. by apply Hv.
Qed.

Lemma keeps_channels_trans {A} (ctx1 ctx2 ctx3 : dcs A) :
  Terms.keeps_channels ctx1 ctx2 → Terms.keeps_channels ctx2 ctx3 →
  Terms.keeps_channels ctx1 ctx3.
Proof. intros [? ?] [? ?]. split; congruence. Qed.

Lemma store_metric_keeps {A} (ctx ctx' : dcs A) (p : chan_ptr) (m : channel_metric) :
  store_metric ctx p m = Ok ctx' →
  Terms.keeps_channels ctx ctx' ∧ current_channel ctx' = current_channel ctx ∧
  algo_context ctx' = algo_context ctx.
Proof.
  unfold store_metric. destruct (deref ctx p) as [c|] eqn:Hd; [|done].
  cbn [mbind result_bind]. destruct p as [i|]; [|done]. intros [= <-].
  split_and!; try done. split; [done|]. cbn. by rewrite length_insert.
Qed.

Lemma reset_loop_keeps {A} (pos : list nat) (v : Z) :
  ∀ ctx ctx' : dcs A,
    reset_loop ctx pos v = Ok ctx' →
    scan_list ctx' = scan_list ctx ∧
    length (all_channels ctx') = length (all_channels ctx).
Proof.
  induction pos as [|i pos IH]; intros ctx ctx'; cbn [reset_loop].
  - by intros [= <-].
  - destruct (deref ctx (Some i)) as [c|] eqn:Hd; [|done]. cbn [mbind result_bind].
    destruct (store_metric ctx (Some i) _) as [ctx1|] eqn:Hs; [|done].
    cbn [mbind result_bind]. intros Hr.
    destruct (store_metric_keeps _ _ _ _ Hs) as ([? ?] & _).
    destruct (IH _ _ Hr). split; congruence.
Qed.

Ltac position_split :=
  unfold Terms.scan_position_ok; split; [|split; [|split]].

Section ScanInvariant.
Context {A : Type}.
Variable ops : algo_ops A.
Variable hostapd_request : Dcs.chan_switch_cmd → list MmsmData.mmsm_data_item_t.
Variable csa_timedwait : dcs A → Z → bool * dcs A.

Hypothesis process_keeps : ∀ ctx m channel ctx',
  dcs_algo_ops_process_measurement ops ctx m channel = Ok ctx' →
  Terms.keeps_channels ctx ctx'.
Hypothesis evaluate_keeps : ∀ ctx r ctx',
  dcs_algo_ops_evaluate_channels ops ctx = Ok (r, ctx') → Terms.keeps_channels ctx ctx'.
Hypothesis hook_keeps : ∀ ctx channel ctx',
  dcs_algo_ops_post_csa_hook ops ctx channel = Ok ctx' → Terms.keeps_channels ctx ctx'.
Hypothesis wait_keeps : ∀ ctx t, Terms.keeps_channels ctx (csa_timedwait ctx t).2.

Lemma do_channel_switch_keeps (ctx ctx' : dcs A) (channel : chan_ptr) ret trace :
  Dcs.do_channel_switch hostapd_request csa_timedwait ctx channel = Ok (ret, ctx', trace) →
  Terms.keeps_channels ctx ctx'.
Proof.
  unfold Dcs.do_channel_switch. destruct channel as [j|]; [|done].
  destruct (config_csa_enabled ctx); cbn [negb].
  2:{ intros [= _ <- _]. by split. }
  destruct (deref ctx (Some j)) as [c|]; [|done]. cbn [mbind result_bind].
  destruct (Dcs.calculate_new_prim_ch_center_freq ctx c) as [prim|]; [|done].
  cbn [mbind result_bind].
  destruct (hostapd_request _) as [|first rest].
  { intros [= _ <- _]. by split. }
  destruct (MmsmData.mmsm_key first) as [?|key]; [done|].
  destruct (bool_decide (key = C.text "OK")); cbn [negb].
  2:{ intros [= _ <- _]. by split. }
  destruct (Dcs.chan_switch_time ctx) as [t|]; [|done]. cbn [mbind result_bind].
  pose proof (wait_keeps (set_csa ctx true (csa_freq_5g ctx)) t) as Hw.
  destruct (csa_timedwait (set_csa ctx true (csa_freq_5g ctx)) t) as [timed_out ctx2].
  cbn in Hw. destruct timed_out; [by intros [= _ <- _]|].
  destruct (csa_freq_5g ctx2 =? current_5g_freq ctx2); by intros [= _ <- _].
Qed.

Lemma scan_iteration_invariant (ctx ctx' : dcs A) (channel channel' : chan_ptr)
    (n n' : Z) (meas : option channel_measurement) :
  Terms.scan_position_ok ctx channel n →
  Dcs.scan_iteration ops hostapd_request csa_timedwait ctx channel n meas
    = Ok (ctx', channel', n') →
  sublist (scan_list ctx') (scan_list ctx) ∧
  (scan_list ctx' ≠ scan_list ctx →
     meas = None ∧ n + 1 = Dcs.MAX_CHANNEL_MEASURE_RETRIES ∧
     ∃ j, channel = Some j ∧ scan_list ctx' = Dcs.list_remove (scan_list ctx) j) ∧
  ((scan_list ctx' = [] ∧ channel' = None) ∨ Terms.scan_position_ok ctx' channel' n').
Proof.
  intros (Hnd & Hvalid & (j & -> & Hj) & Hn).
  unfold Dcs.scan_iteration.
  destruct (deref ctx (Some j)) as [c|] eqn:Hd; [|done]. cbn [mbind result_bind].
  assert (H0 : 0 ≤ 0 < Dcs.MAX_CHANNEL_MEASURE_RETRIES)
    by (unfold Dcs.MAX_CHANNEL_MEASURE_RETRIES; lia).
  assert (Hround : ∀ ctx1 n1,
    NoDup (scan_list ctx1) → scan_list_valid ctx1 →
    0 ≤ n1 < Dcs.MAX_CHANNEL_MEASURE_RETRIES →
    (dcs_algo_ops_evaluate_channels ops ctx1 ≫= λ '(candidate_chan, ctx2),
       (if bool_decide (candidate_chan ≠ None) &&
           bool_decide (candidate_chan ≠ current_channel ctx2)
        then Dcs.do_channel_switch hostapd_request csa_timedwait ctx2 candidate_chan
               ≫= λ '(ret, ctx3, _),
                 if ret =? 0 then dcs_algo_ops_post_csa_hook ops ctx3 candidate_chan
                 else Ok ctx3
        else Ok ctx2) ≫= λ ctx3, Ok (ctx3, head (scan_list ctx3), n1))
      = Ok (ctx', channel', n') →
    scan_list ctx' = scan_list ctx1 ∧
    ((scan_list ctx' = [] ∧ channel' = None) ∨ Terms.scan_position_ok ctx' channel' n')).
  { intros ctx1 n1 Hnd1 Hvalid1 Hn1.
    destruct (dcs_algo_ops_evaluate_channels ops ctx1) as [[cand ctx2]|] eqn:Hev; [|done].
    cbn [mbind result_bind]. pose proof (evaluate_keeps _ _ _ Hev) as Hk2.
    assert (Hfin : ∀ ctx3, Terms.keeps_channels ctx1 ctx3 →
      Ok (ctx3, head (scan_list ctx3), n1) = Ok (ctx', channel', n') →
      scan_list ctx' = scan_list ctx1 ∧
      ((scan_list ctx' = [] ∧ channel' = None) ∨
       Terms.scan_position_ok ctx' channel' n')).
    { intros ctx3 Hk3 [= <- <- <-]. split; [apply Hk3|].
      pose proof (keeps_channels_valid _ _ Hk3 Hvalid1) as Hv3.
      destruct Hk3 as [Hsl3 _].
      destruct (scan_list ctx3) as [|x l] eqn:Hl; [by left|]. right.
      unfold Terms.scan_position_ok. rewrite Hl.
      position_split; [by rewrite Hsl3| done | | done].
      exists x. split; [done|]. by left. }
    match goal with |- context [if ?t then _ else _] => destruct t end.
    - destruct (Dcs.do_channel_switch hostapd_request csa_timedwait ctx2 cand)
        as [[[ret ctx3] trace]|] eqn:Hsw; [|cbn; done].
      cbn [mbind result_bind]. pose proof (do_channel_switch_keeps _ _ _ _ _ Hsw) as Hk3.
      destruct (ret =? 0).
      + destruct (dcs_algo_ops_post_csa_hook ops ctx3 cand) as [ctx4|] eqn:Hh; [|done].
        cbn [mbind result_bind]. apply Hfin.
        eapply keeps_channels_trans; [exact Hk2|].
        eapply keeps_channels_trans; [exact Hk3|]. by eapply hook_keeps.
      + cbn [mbind result_bind]. apply Hfin.
        eapply keeps_channels_trans; [exact Hk2|exact Hk3].
    - cbn [mbind result_bind]. by apply Hfin. }
  destruct meas as [m|].
  - destruct (dcs_algo_ops_process_measurement ops ctx m (Some j)) as [ctx1|] eqn:Hp;
      [|done].
    cbn [mbind result_bind]. pose proof (process_keeps _ _ _ _ Hp) as Hk1.
    destruct (deref ctx1 (current_channel ctx1)) as [cur|]; [|done].
    cbn [mbind result_bind].
    pose proof (keeps_channels_valid _ _ Hk1 Hvalid) as Hv1.
    destruct Hk1 as [Hsl1 Hlen1].
    destruct (Dcs.list_get_next_item_or_null (scan_list ctx1) j) as [x|] eqn:Hnext.
    + intros [= <- <- <-]. rewrite Hsl1. split_and!; [done|done|]. right.
      rewrite Hsl1 in Hnext. destruct (list_get_next_item_elem _ _ _ Hnd Hnext).
      position_split; [by rewrite Hsl1|done| |unfold Dcs.MAX_CHANNEL_MEASURE_RETRIES; lia].
      exists x. by rewrite Hsl1.
    + intros Hrun.
      destruct (Hround ctx1 0 ltac:(by rewrite Hsl1) Hv1 H0 Hrun) as [Hsl Hpos].
      split_and!; [by rewrite Hsl, Hsl1|by rewrite Hsl, Hsl1|exact Hpos].
  - destruct (Z.leb_spec Dcs.MAX_CHANNEL_MEASURE_RETRIES (n + 1)) as [Hlim|Hlim].
    + cbn [mbind result_bind].
      set (ctx1 := set_scan_list ctx (Dcs.list_remove (scan_list ctx) j)).
      assert (Hnd1 : NoDup (scan_list ctx1)) by (by apply list_remove_NoDup).
      assert (Hv1 : scan_list_valid ctx1).
      { unfold scan_list_valid. cbn. apply Forall_forall. intros i Hi.
        apply (list_remove_elem _ _ _ Hnd) in Hi as [Hi _].
        unfold scan_list_valid in Hvalid. rewrite Forall_forall in Hvalid. by apply Hvalid. }
      assert (Hother : scan_list ctx' = scan_list ctx1 →
        sublist (scan_list ctx') (scan_list ctx) ∧
        (scan_list ctx' ≠ scan_list ctx →
           None = None (A:=channel_measurement) ∧
           n + 1 = Dcs.MAX_CHANNEL_MEASURE_RETRIES ∧
           ∃ j0, Some j = Some j0 ∧ scan_list ctx' = Dcs.list_remove (scan_list ctx) j0)).
      { intros ->. split; [apply list_remove_sublist|].
        intros _. split_and!; [done|lia|]. by exists j. }
      destruct (Dcs.list_get_next_item_or_null (scan_list ctx) j) as [x|] eqn:Hnext.
      * intros [= <- <- <-]. destruct (Hother eq_refl) as [H1 H2].
        split_and!; [done|done|]. right.
        destruct (list_get_next_item_elem _ _ _ Hnd Hnext) as [Hx Hxj].
        position_split; [done|done| |unfold Dcs.MAX_CHANNEL_MEASURE_RETRIES; lia].
        exists x. split; [done|]. cbn. by apply list_remove_elem.
      * intros Hrun. destruct (Hround ctx1 0 Hnd1 Hv1 H0 Hrun) as [Hsl Hpos].
        destruct (Hother Hsl) as [H1 H2]. by split_and!.
    + cbn [mbind result_bind]. intros [= <- <- <-].
      split_and!; [done|done|]. right.
      position_split; [done|done|by exists j|lia].
Qed.

End ScanInvariant.

Ltac destruct_bind :=
  match goal with
  | |- (mbind _ ?m = Ok _) → _ =>
      let E := fresh "E" in destruct m eqn:E; cbn [mbind result_bind]; [|done]
  end.

Lemma ewma_process_keeps (ctx ctx' : dcs Ewma.ewma_context) m channel :
  dcs_algo_ops_process_measurement Ewma.ewma_ops ctx m channel = Ok ctx' →
  Terms.keeps_channels ctx ctx'.
Proof.
  unfold dcs_algo_ops_process_measurement. cbn [process_measurement Ewma.ewma_ops].
  unfold Ewma.ewma_op_process_measurement. do 3 destruct_bind.
  intros Hs. by destruct (store_metric_keeps _ _ _ _ Hs).
Qed.

Lemma ewma_evaluate_keeps (ctx ctx' : dcs Ewma.ewma_context) r :
  dcs_algo_ops_evaluate_channels Ewma.ewma_ops ctx = Ok (r, ctx') →
  Terms.keeps_channels ctx ctx'.
Proof.
  unfold dcs_algo_ops_evaluate_channels. cbn [evaluate_channels Ewma.ewma_ops].
  unfold Ewma.ewma_op_evaluate_channels. do 7 destruct_bind.
  match goal with H : store_metric _ _ _ = Ok _ |- _ =>
    destruct (store_metric_keeps _ _ _ _ H) as (Hk & _) end.
  match goal with |- context [if ?t then _ else _] => destruct t end;
    intros [= _ <-]; exact Hk.
Qed.

Lemma ewma_hook_keeps (ctx ctx' : dcs Ewma.ewma_context) channel :
  dcs_algo_ops_post_csa_hook Ewma.ewma_ops ctx channel = Ok ctx' →
  Terms.keeps_channels ctx ctx'.
Proof.
  unfold dcs_algo_ops_post_csa_hook. cbn [post_csa_hook Ewma.ewma_ops].
  unfold Ewma.ewma_op_post_csa_hook. destruct_bind. intros [= <-]. by split.
Qed.

Lemma reset_keeps {A} (ctx ctx' : dcs A) (v : Z) :
  dcs_algo_reset_accumulated_scores ctx v = Ok ctx' → Terms.keeps_channels ctx ctx'.
Proof. intros H. by apply reset_loop_keeps in H. Qed.

Lemma sample_hold_process_keeps (ctx ctx' : dcs SampleAndHold.sample_and_hold)
    log_level m channel :
  dcs_algo_ops_process_measurement (SampleAndHold.sample_and_hold_ops log_level)
    ctx m channel = Ok ctx' →
  Terms.keeps_channels ctx ctx'.
Proof.
  unfold dcs_algo_ops_process_measurement.
  cbn [process_measurement SampleAndHold.sample_and_hold_ops].
  unfold SampleAndHold.sample_hold_op_process_measurement. do 2 destruct_bind.
  intros Hs. by destruct (store_metric_keeps _ _ _ _ Hs).
Qed.

Lemma sample_hold_evaluate_keeps (ctx ctx' : dcs SampleAndHold.sample_and_hold)
    log_level r :
  dcs_algo_ops_evaluate_channels (SampleAndHold.sample_and_hold_ops log_level) ctx
    = Ok (r, ctx') →
  Terms.keeps_channels ctx ctx'.
Proof.
  unfold dcs_algo_ops_evaluate_channels.
  cbn [evaluate_channels SampleAndHold.sample_and_hold_ops].
  unfold SampleAndHold.sample_hold_op_evaluate_channels. do 7 destruct_bind.
  match goal with H : store_metric _ _ _ = Ok _ |- _ =>
    destruct (store_metric_keeps _ _ _ _ H) as (Hk & _) end.
  match goal with |- context [if ?t then _ else _] => destruct t end.
  2:{ intros [= _ <-]. exact Hk. }
  do 3 destruct_bind.
  match goal with |- context [if ?t then _ else _] => destruct t end.
  { intros [= _ <-]. exact Hk. }
  destruct_bind. intros [= _ <-].
  match goal with H : dcs_algo_reset_accumulated_scores _ _ = Ok _ |- _ =>
    apply reset_keeps in H end.
  eapply keeps_channels_trans; [exact Hk|]. done.
Qed.

Lemma sample_hold_hook_keeps (ctx ctx' : dcs SampleAndHold.sample_and_hold)
    log_level channel :
  dcs_algo_ops_post_csa_hook (SampleAndHold.sample_and_hold_ops log_level) ctx channel
    = Ok ctx' →
  Terms.keeps_channels ctx ctx'.
Proof.
  unfold dcs_algo_ops_post_csa_hook.
  cbn [post_csa_hook SampleAndHold.sample_and_hold_ops].
  unfold SampleAndHold.sample_hold_op_post_csa_hook. apply reset_keeps.
Qed.

(** One turn of the loop of the scan thread, under either algorithm,
    keeps the thread in place.  If the scan list has no repetition and
    points into the channel array, the channel to measure is one of the
    list and fewer than three attempts have failed, then after the turn
    the same holds again, unless the list has become empty and the
    position is [NULL].  The scan list never grows: it stays as it is,
    except that the third failed attempt in a row removes the channel
    that failed, and no other.  The wait for the switch notification
    is assumed to leave the scan list and the channel array in
    place. *)
Theorem scan_thread_keeps_its_place :
  (∀ hostapd_request csa_timedwait (ctx ctx' : dcs Ewma.ewma_context)
     channel channel' n n' meas,
     (∀ c t, Terms.keeps_channels c (csa_timedwait c t).2) →
     Terms.scan_position_ok ctx channel n →
     Dcs.scan_iteration Ewma.ewma_ops hostapd_request csa_timedwait ctx channel n meas
       = Ok (ctx', channel', n') →
     sublist (scan_list ctx') (scan_list ctx) ∧
     (scan_list ctx' ≠ scan_list ctx →
        meas = None ∧ n + 1 = Dcs.MAX_CHANNEL_MEASURE_RETRIES ∧
        ∃ j, channel = Some j ∧ scan_list ctx' = Dcs.list_remove (scan_list ctx) j) ∧
     ((scan_list ctx' = [] ∧ channel' = None) ∨
      Terms.scan_position_ok ctx' channel' n')) ∧
  (∀ log_level hostapd_request csa_timedwait
     (ctx ctx' : dcs SampleAndHold.sample_and_hold) channel channel' n n' meas,
     (∀ c t, Terms.keeps_channels c (csa_timedwait c t).2) →
     Terms.scan_position_ok ctx channel n →
     Dcs.scan_iteration (SampleAndHold.sample_and_hold_ops log_level)
       hostapd_request csa_timedwait ctx channel n meas
       = Ok (ctx', channel', n') →
     sublist (scan_list ctx') (scan_list ctx) ∧
     (scan_list ctx' ≠ scan_list ctx →
        meas = None ∧ n + 1 = Dcs.MAX_CHANNEL_MEASURE_RETRIES ∧
        ∃ j, channel = Some j ∧ scan_list ctx' = Dcs.list_remove (scan_list ctx) j) ∧
     ((scan_list ctx' = [] ∧ channel' = None) ∨
      Terms.scan_position_ok ctx' channel' n')).
Proof.
  split.
  - intros hostapd_request csa_timedwait ctx ctx' channel channel' n n' meas Hwait.
    apply scan_iteration_invariant; try done.
    + intros. by eapply ewma_process_keeps.
    + intros. by eapply ewma_evaluate_keeps.
    + intros. by eapply ewma_hook_keeps.
  - intros log_level hostapd_request csa_timedwait ctx ctx' channel channel' n n' meas
      Hwait.
    apply scan_iteration_invariant; try done.
    + intros. by eapply sample_hold_process_keeps.
    + intros. by eapply sample_hold_evaluate_keeps.
    + intros. by eapply sample_hold_hook_keeps.
Qed.

Lemma scan_thread_keeps_its_place_witness :
  let ctx' := set_scan_list Terms.ewma_two_ctx [1%nat] in
  sublist (scan_list ctx') (scan_list Terms.ewma_two_ctx) ∧
  (scan_list ctx' ≠ scan_list Terms.ewma_two_ctx →
     None (A:=channel_measurement) = None ∧
     2 + 1 = Dcs.MAX_CHANNEL_MEASURE_RETRIES ∧
     ∃ j, Some 0%nat = Some j ∧
          scan_list ctx' = Dcs.list_remove (scan_list Terms.ewma_two_ctx) j) ∧
  ((scan_list ctx' = [] ∧ Some 1%nat = None) ∨
   Terms.scan_position_ok ctx' (Some 1%nat) 0).
Proof.
  apply (proj1 scan_thread_keeps_its_place Scenarios.hostapd_ok Scenarios.wait_timeout
           Terms.ewma_two_ctx (set_scan_list Terms.ewma_two_ctx [1%nat])
           (Some 0%nat) (Some 1%nat) 2 0 None).
  - intros c t. split; reflexivity.
  - split_and!.
    + apply NoDup_cons. split; [|apply NoDup_singleton].
      intros H%list_elem_of_singleton. discriminate H.
    + repeat constructor; eexists; reflexivity.
    + exists 0%nat. split; [reflexivity|]. by left.
    + lia.
    + unfold Dcs.MAX_CHANNEL_MEASURE_RETRIES. lia.
  - reflexivity.
Defined.

(** ** dcs_test.c: loading and replaying samples *)

Lemma add_item_queue_of (store : list DcsTest.channel_measurement_list_per_ch)
    (item : channel_measurement) (info : morse_cmd_channel_info) (f : Z) :
  Terms.queue_of (DcsTestLoad.add_channel_measurement_item store item info) f
    = if decide (frequency_khz info = f) then Terms.queue_of store f ++ [item]
      else Terms.queue_of store f.
Proof.
  induction store as [|p store IH]; cbn.
  - unfold per_ch_freq. cbn. by case_decide.
  - destruct (Z.eqb_spec (frequency_khz (DcsTest.per_ch_info p)) (frequency_khz info))
      as [Heq|Hne]; cbn; unfold per_ch_freq in *; cbn.
    + destruct (decide (frequency_khz (DcsTest.per_ch_info p) = f)) as [Hp|Hp].
      * rewrite decide_True by congruence. done.
      * rewrite decide_False by congruence. done.
    + destruct (decide (frequency_khz (DcsTest.per_ch_info p) = f)) as [Hp|Hp].
      * rewrite decide_False by congruence. done.
      * apply IH.
Qed.

Lemma add_item_freqs (store : list DcsTest.channel_measurement_list_per_ch)
    (item : channel_measurement) (info : morse_cmd_channel_info) :
  per_ch_freq <$> DcsTestLoad.add_channel_measurement_item store item info
    = if decide (frequency_khz info ∈ per_ch_freq <$> store) then per_ch_freq <$> store
      else (per_ch_freq <$> store) ++ [frequency_khz info].
Proof.
  induction store as [|p store IH]; cbn.
  - rewrite decide_False; [done|]. by intros ?%elem_of_nil.
  - destruct (Z.eqb_spec (frequency_khz (DcsTest.per_ch_info p)) (frequency_khz info))
      as [Heq|Hne]; cbn.
    + rewrite decide_True; [done|]. apply elem_of_cons. left.
      unfold per_ch_freq. by rewrite Heq.
    + rewrite IH. destruct (decide (frequency_khz info ∈ per_ch_freq <$> store)) as [Hin|Hin].
      * rewrite decide_True; [done|]. apply elem_of_cons. by right.
      * rewrite decide_False; [done|].
        intros [Heq|Hin']%elem_of_cons; [|done]. apply Hne.
        unfold per_ch_freq in Heq. by rewrite Heq.
Qed.

Lemma add_item_wf (store : list DcsTest.channel_measurement_list_per_ch)
    (item : channel_measurement) (info : morse_cmd_channel_info) :
  replay_wf store → replay_wf (DcsTestLoad.add_channel_measurement_item store item info).
Proof.
  unfold replay_wf. induction 1 as [|p store Hp Hstore IH]; cbn.
  - by repeat constructor.
  - destruct (frequency_khz (DcsTest.per_ch_info p) =? frequency_khz info).
    + constructor; [|done]. cbn. by destruct (DcsTest.channel_sample_list p).
    + by constructor.
Qed.

Lemma add_item_total (store : list DcsTest.channel_measurement_list_per_ch)
    (item : channel_measurement) (info : morse_cmd_channel_info) :
  total_samples (DcsTestLoad.add_channel_measurement_item store item info)
    = S (total_samples store).
Proof.
  induction store as [|p store IH]; cbn; [done|].
  destruct (frequency_khz (DcsTest.per_ch_info p) =? frequency_khz info).
  - rewrite !total_samples_cons.
    cbn [DcsTest.channel_sample_list]. rewrite length_app. cbn [length].
    unfold total_samples. lia.
  - rewrite !total_samples_cons, IH. unfold total_samples. lia.
Qed.

(** [add_channel_measurement_item] files a sample under its frequency:
    the queue of that frequency gains the sample at its tail and every
    other queue is as before; no queue is ever empty, no frequency gets
    a second queue, and the store holds one sample more. *)
Theorem add_channel_measurement_item_spec
    (store : list DcsTest.channel_measurement_list_per_ch)
    (item : channel_measurement) (info : morse_cmd_channel_info) :
  replay_wf store →
  NoDup (per_ch_freq <$> store) →
  let store' := DcsTestLoad.add_channel_measurement_item store item info in
  Terms.queue_of store' (frequency_khz info)
    = Terms.queue_of store (frequency_khz info) ++ [item] ∧
  (∀ f, f ≠ frequency_khz info → Terms.queue_of store' f = Terms.queue_of store f) ∧
  replay_wf store' ∧
  NoDup (per_ch_freq <$> store') ∧
  total_samples store' = S (total_samples store).
Proof.
  intros Hwf Hnd store'. subst store'. split_and!.
  - rewrite add_item_queue_of. by rewrite decide_True.
  - intros f Hf. rewrite add_item_queue_of. by rewrite decide_False.
  - by apply add_item_wf.
  - rewrite add_item_freqs. case_decide as Hin; [done|].
    apply NoDup_app. split_and!; [done| |apply NoDup_singleton].
    intros x Hx ->%list_elem_of_singleton. done.
  - apply add_item_total.
Qed.

Lemma add_channel_measurement_item_spec_witness :
  let info := {| frequency_khz := 903500; bandwidth_mhz := 1; channel_s1g := 3 |} in
  let store' :=
    DcsTestLoad.add_channel_measurement_item Scenarios.replay_store
      (Scenarios.measurement 70) info in
  Terms.queue_of store' 903500
    = Terms.queue_of Scenarios.replay_store 903500 ++ [Scenarios.measurement 70] ∧
  (∀ f, f ≠ 903500 → Terms.queue_of store' f = Terms.queue_of Scenarios.replay_store f) ∧
  replay_wf store' ∧
  NoDup (per_ch_freq <$> store') ∧
  total_samples store' = S (total_samples Scenarios.replay_store).
Proof.
  apply (add_channel_measurement_item_spec Scenarios.replay_store
           (Scenarios.measurement 70)
           {| frequency_khz := 903500; bandwidth_mhz := 1; channel_s1g := 3 |}).
  - repeat constructor; discriminate.
  - apply NoDup_cons. split; [|apply NoDup_singleton].
    intros H%list_elem_of_singleton. discriminate H.
Defined.

Lemma queue_of_absent (store : list DcsTest.channel_measurement_list_per_ch) (f : Z) :
  f ∉ per_ch_freq <$> store → Terms.queue_of store f = [].
Proof.
  induction store as [|p store IH]; [done|]. cbn. intros Hf.
  rewrite decide_False.
  - apply IH. intros Hin. apply Hf. apply elem_of_cons. by right.
  - intros Heq. apply Hf. apply elem_of_cons. by left.
Qed.

(** One pop, told by the queues: the head of the queue of the frequency
    is handed out and leaves the queue, the other queues stay. *)
Lemma pop_loop_queue_of (store : list DcsTest.channel_measurement_list_per_ch) (f : Z) :
  replay_wf store →
  NoDup (per_ch_freq <$> store) →
  ∃ store',
    DcsTest.pop_loop store f = Ok (head (Terms.queue_of store f), store') ∧
    Terms.queue_of store' f = tail (Terms.queue_of store f) ∧
    (∀ g, g ≠ f → Terms.queue_of store' g = Terms.queue_of store g) ∧
    replay_wf store' ∧
    NoDup (per_ch_freq <$> store') ∧
    (∀ x, x ∈ per_ch_freq <$> store' → x ∈ per_ch_freq <$> store).
Proof.
  unfold replay_wf.
  induction store as [|p store IH]; intros Hwf Hnd.
  - exists []. cbn. split_and!; done.
  - apply Forall_cons in Hwf as [Hp Hwf]. cbn in Hnd.
    apply NoDup_cons in Hnd as [Hnew Hnd].
    cbn [DcsTest.pop_loop Terms.queue_of]. fold (per_ch_freq p).
    destruct (Z.eqb_spec (per_ch_freq p) f) as [Heq|Hne].
    + rewrite decide_True by done.
      destruct (DcsTest.channel_sample_list p) as [|m [|m2 ms]] eqn:Hq; [done| |].
      * exists store. cbn. split_and!; try done.
        -- apply queue_of_absent. by rewrite <- Heq.
        -- intros g Hg. rewrite decide_False; [done|congruence].
        -- intros x Hx. apply elem_of_cons. by right.
      * eexists. split; [reflexivity|]. cbn. split_and!.
        -- unfold per_ch_freq at 1. cbn. fold (per_ch_freq p). by rewrite decide_True.
        -- intros g Hg. unfold per_ch_freq at 1. cbn. fold (per_ch_freq p).
           destruct (decide (per_ch_freq p = g)); [congruence|done].
        -- by constructor.
        -- by apply NoDup_cons.
        -- done.
    + rewrite decide_False by done.
      destruct (IH Hwf Hnd) as (store' & Hpop & Hf & Hg & Hwf' & Hnd' & Hsub).
      exists (p :: store'). rewrite Hpop. cbn. split_and!.
      * done.
      * by rewrite decide_False.
      * intros g Hgf. case_decide; [done|]. by apply Hg.
      * by constructor.
      * apply NoDup_cons. split; [|done]. intros Hin. apply Hnew. by apply Hsub.
      * intros x [->|Hx]%elem_of_cons; apply elem_of_cons; [by left|right; by apply Hsub].
Qed.

Lemma load_all_queue_of (rows : Terms.sample_rows)
    (store : list DcsTest.channel_measurement_list_per_ch) (f : Z) :
  Terms.queue_of (Terms.load_all store rows) f
    = Terms.queue_of store f ++ Terms.rows_on f rows.
Proof.
  revert store. induction rows as [|[item info] rows IH]; intros store.
  - cbn. by rewrite app_nil_r.
  - unfold Terms.load_all in *. cbn [foldl]. rewrite IH, add_item_queue_of.
    unfold Terms.rows_on. rewrite filter_cons. cbn [fst snd].
    case_decide as Hf.
    + cbn. by rewrite <- app_assoc.
    + done.
Qed.

Lemma load_all_wf (rows : Terms.sample_rows)
    (store : list DcsTest.channel_measurement_list_per_ch) :
  replay_wf store → NoDup (per_ch_freq <$> store) →
  replay_wf (Terms.load_all store rows) ∧
  NoDup (per_ch_freq <$> Terms.load_all store rows).
Proof.
  revert store. induction rows as [|[item info] rows IH]; intros store Hwf Hnd; [done|].
  unfold Terms.load_all in *. cbn [foldl]. apply IH.
  - by apply add_item_wf.
  - rewrite add_item_freqs. case_decide as Hin; [done|].
    apply NoDup_app. split_and!; [done| |apply NoDup_singleton].
    intros x Hx ->%list_elem_of_singleton. done.
Qed.

Lemma replay_queue (n : nat) (store : list DcsTest.channel_measurement_list_per_ch)
    (f : Z) :
  replay_wf store →
  NoDup (per_ch_freq <$> store) →
  ∃ outcomes,
    DcsTest.replay store (replicate n f) = Ok outcomes ∧
    outcomes.*1 = take n ((Some <$> Terms.queue_of store f) ++ replicate n None).
Proof.
  revert store. induction n as [|n IH]; intros store Hwf Hnd.
  - by exists [].
  - destruct (pop_loop_queue_of store f Hwf Hnd)
      as (store' & Hpop & Hf & _ & Hwf' & Hnd' & _).
    destruct (IH store' Hwf' Hnd') as (outcomes & Hrun & Hout).
    cbn [replicate DcsTest.replay]. unfold DcsTest.pop_channel_measurement.
    rewrite Hpop. cbn [mbind result_bind]. rewrite Hrun. cbn [mbind result_bind].
    eexists. split; [reflexivity|]. cbn [fmap list_fmap fst].
    change (list_fmap _ _ fst outcomes) with (outcomes.*1). rewrite Hout, Hf.
    destruct (Terms.queue_of store f) as [|m q]; cbn.
    + done.
    + f_equal.
      change (None :: replicate n None)
        with (replicate (S n) (@None channel_measurement)).
      rewrite !take_app, !take_replicate. do 2 f_equal. lia.
Qed.

(** Samples come back in file order: after the rows of a sample file
    have been loaded with [add_channel_measurement_item],
    [pop_channel_measurement] on a frequency returns the first row of
    that frequency ([NULL] when the file has none), leaves the later
    rows of the frequency queued in their order, and does not touch the
    rows of any other frequency. *)
Theorem pop_after_load_is_fifo (rows : Terms.sample_rows) (f : Z) :
  ∃ store' halt,
    DcsTest.pop_channel_measurement (Terms.load_all [] rows) f
      = Ok (head (Terms.rows_on f rows), store', halt) ∧
    Terms.queue_of store' f = tail (Terms.rows_on f rows) ∧
    (∀ g, g ≠ f → Terms.queue_of store' g = Terms.rows_on g rows).
Proof.
  destruct (load_all_wf rows []) as [Hwf Hnd]; [constructor|constructor|].
  destruct (pop_loop_queue_of _ f Hwf Hnd) as (store' & Hpop & Hf & Hg & _).
  rewrite load_all_queue_of in Hpop, Hf. cbn [Terms.queue_of app] in Hpop, Hf.
  exists store', (bool_decide (store' = [])).
  unfold DcsTest.pop_channel_measurement. rewrite Hpop. cbn [mbind result_bind].
  split_and!; [done|done|].
  intros g Hgf. rewrite (Hg g Hgf). by rewrite load_all_queue_of.
Qed.

(** Replaying one frequency: [n] requests on a frequency of a loaded
    sample file return its rows of that frequency in file order, and
    [NULL] for every request beyond the last row. *)
Theorem replay_returns_rows_in_file_order (rows : Terms.sample_rows) (f : Z) (n : nat) :
  ∃ outcomes,
    DcsTest.replay (Terms.load_all [] rows) (replicate n f) = Ok outcomes ∧
    outcomes.*1 = take n ((Some <$> Terms.rows_on f rows) ++ replicate n None).
Proof.
  destruct (load_all_wf rows []) as [Hwf Hnd]; [constructor|constructor|].
  destruct (replay_queue n _ f Hwf Hnd) as (outcomes & Hrun & Hout).
  exists outcomes. split; [done|].
  by rewrite Hout, load_all_queue_of.
Qed.

(** *** Start-up in test mode *)

Lemma test_channels_loop_chans (entries : list DcsTest.channel_measurement_list_per_ch)
    (i : nat) (initial_chan : Z) (current : chan_ptr) :
  (DcsTestLoad.test_channels_loop entries i initial_chan current).1
    = Terms.test_channel <$> entries.
Proof.
  revert i current. induction entries as [|e entries IH]; intros i current; [done|].
  cbn [DcsTestLoad.test_channels_loop].
  set (current1 := if _ =? _ then _ else _).
  specialize (IH (S i) current1).
  destruct (DcsTestLoad.test_channels_loop entries (S i) initial_chan current1)
    as [chans current'].
  cbn in *. by rewrite IH.
Qed.

Lemma test_channels_loop_current (entries : list DcsTest.channel_measurement_list_per_ch)
    (i : nat) (initial_chan : Z) (current : chan_ptr) :
  let current' := (DcsTestLoad.test_channels_loop entries i initial_chan current).2 in
  (current' = current ∧ Forall (λ e, ¬ Terms.on_channel initial_chan e) entries) ∨
  (∃ k, current' = Some (i + k)%nat ∧ Terms.last_on_channel entries initial_chan k).
Proof.
  revert i current. induction entries as [|e entries IH]; intros i current.
  - left. by split.
  - cbn [DcsTestLoad.test_channels_loop].
    set (current1 := if _ =? _ then _ else _).
    specialize (IH (S i) current1).
    destruct (DcsTestLoad.test_channels_loop entries (S i) initial_chan current1)
      as [chans current'] eqn:Hloop.
    cbn [snd] in *. destruct IH as [[-> Hnone]|(k & -> & [Hk Hlast])].
    + subst current1.
      destruct (Z.eqb_spec (channel_s1g (DcsTest.per_ch_info e)) initial_chan) as [He|He].
      * right. exists 0%nat. split; [f_equal; lia|]. split.
        -- by exists e.
        -- intros [|k'] e' Hlt Hk' Hon; [lia|]. cbn in Hk'.
           rewrite Forall_forall in Hnone. apply (Hnone e'); [|done].
           by eapply list_elem_of_lookup_2.
      * left. split; [done|]. by constructor.
    + right. exists (S k). split; [f_equal; lia|]. split.
      * done.
      * intros [|k'] e' Hlt Hk'; [lia|]. cbn in Hk'. apply (Hlast k'); [lia|done].
Qed.

(** [initialise_channels_for_test] on a store of at most 255
    frequencies: every entry of the store becomes a channel with a score
    of 100, in store order, and all of them are in the scan list.  The
    current channel is the last entry on the initial S1G channel, with
    primary width 1 and primary index 0; when no entry is on that
    channel the function returns [-EINVAL] without a current channel. *)
Theorem initialise_channels_for_test_spec {A}
    (store : list DcsTest.channel_measurement_list_per_ch) (initial_chan : Z)
    (ctx : dcs A) :
  0 < initial_chan →
  (length store ≤ 255)%nat →
  current_channel ctx = None →
  ∃ r ctx',
    DcsTestLoad.initialise_channels_for_test true true store initial_chan ctx
      = Ok (r, ctx') ∧
    all_channels ctx' = Terms.test_channel <$> store ∧
    scan_list ctx' = seq 0 (length store) ∧
    ((r = 0 ∧
      current_primary_ch_width ctx' = 1 ∧ current_prim_1mhz_ch_index ctx' = 0 ∧
      ∃ k, current_channel ctx' = Some k ∧ Terms.last_on_channel store initial_chan k) ∨
     (r = - ConfigHelpers.EINVAL ∧ current_channel ctx' = None ∧
      Forall (λ e, ¬ Terms.on_channel initial_chan e) store)).
Proof.
  intros Hinit Hlen Hcur. unfold DcsTestLoad.initialise_channels_for_test.
  cbn [negb andb]. rewrite (proj2 (Z.leb_gt _ _) Hinit).
  rewrite (proj2 (Z.ltb_ge _ _)).
  2:{ unfold C.u8. rewrite Z.mod_small; lia. }
  pose proof (test_channels_loop_chans store 0 initial_chan (current_channel ctx)) as Hchans.
  pose proof (test_channels_loop_current store 0 initial_chan (current_channel ctx)) as Hwhich.
  destruct (DcsTestLoad.test_channels_loop store 0 initial_chan (current_channel ctx))
    as [chans current'].
  cbn [fst snd] in Hchans, Hwhich. subst chans.
  destruct Hwhich as [[-> Hnone]|(k & -> & Hlast)].
  - rewrite Hcur. eexists _, _. split; [reflexivity|]. cbn.
    split_and!; [done|done|]. right. by split_and!.
  - eexists _, _. split; [reflexivity|]. cbn.
    split_and!; [done|done|]. left. split_and!; [done|done|done|]. by exists k.
Qed.

Lemma initialise_channels_for_test_spec_witness :
  ∃ r ctx',
    DcsTestLoad.initialise_channels_for_test true true Scenarios.replay_store 3
      Terms.blank_ctx = Ok (r, ctx') ∧
    all_channels ctx' = Terms.test_channel <$> Scenarios.replay_store ∧
    scan_list ctx' = seq 0 (length Scenarios.replay_store) ∧
    ((r = 0 ∧
      current_primary_ch_width ctx' = 1 ∧ current_prim_1mhz_ch_index ctx' = 0 ∧
      ∃ k, current_channel ctx' = Some k ∧
           Terms.last_on_channel Scenarios.replay_store 3 k) ∨
     (r = - ConfigHelpers.EINVAL ∧ current_channel ctx' = None ∧
      Forall (λ e, ¬ Terms.on_channel 3 e) Scenarios.replay_store)).
Proof.
  apply (initialise_channels_for_test_spec Scenarios.replay_store 3 Terms.blank_ctx).
  - lia.
  - cbn. lia.
  - reflexivity.
Defined.

(** The number of channels is kept in eight bits: with more than 255
    frequencies in the sample file, or without memory for the channel
    array, [initialise_channels_for_test] writes outside the array it
    has allocated. *)
Theorem initialise_channels_for_test_overruns {A}
    (store : list DcsTest.channel_measurement_list_per_ch) (initial_chan : Z)
    (ctx : dcs A) :
  0 < initial_chan →
  (255 < length store)%nat →
  DcsTestLoad.initialise_channels_for_test true true store initial_chan ctx
    = Err OutOfBounds ∧
  DcsTestLoad.initialise_channels_for_test true false store initial_chan ctx
    = Err NullDeref.
Proof.
  intros Hinit Hlen. unfold DcsTestLoad.initialise_channels_for_test.
  cbn [negb andb]. rewrite (proj2 (Z.leb_gt _ _) Hinit).
  rewrite (proj2 (Z.ltb_lt 0 _)) by lia.
  rewrite (proj2 (Z.ltb_lt (C.u8 _) _)); [done|].
  unfold C.u8. pose proof (Z.mod_pos_bound (Z.of_nat (length store)) (2^8)). lia.
Qed.

Lemma initialise_channels_for_test_overruns_witness :
  DcsTestLoad.initialise_channels_for_test true true
    (Terms.load_all [] Terms.rows_256) 1 Terms.blank_ctx = Err OutOfBounds ∧
  DcsTestLoad.initialise_channels_for_test true false
    (Terms.load_all [] Terms.rows_256) 1 Terms.blank_ctx = Err NullDeref.
Proof.
  apply (initialise_channels_for_test_overruns
           (Terms.load_all [] Terms.rows_256) 1 Terms.blank_ctx).
  - lia.
  - vm_compute. lia.
Defined.

Lemma init_scan_loop_all {A} (ctx : dcs A) (bw : Z) (chans : list dcs_channel)
    (i : nat) (scan : list nat) :
  Forall (λ c, bandwidth_mhz (ch c) = bw ∧
               DcsChannels.primary_channel_is_available ctx c = Ok true) chans →
  DcsChannels.init_scan_loop ctx bw chans i scan = Ok (scan ++ seq i (length chans)).
Proof.
  intros Hall. revert i scan.
  induction Hall as [|c chans [Hbw Hav] _ IH]; intros i scan.
  - cbn. by rewrite app_nil_r.
  - cbn [DcsChannels.init_scan_loop length seq].
    rewrite (proj2 (Z.eqb_eq _ _) Hbw), Hav, IH.
    by rewrite <- app_assoc.
Qed.

Lemma one_mhz_primary_available {A} (ctx : dcs A) (c : dcs_channel) :
  current_primary_ch_width ctx = 1 →
  current_prim_1mhz_ch_index ctx = 0 →
  bandwidth_mhz (ch c) = 1 →
  500 ≤ frequency_khz (ch c) < 2^32 - 500 →
  c ∈ all_channels ctx →
  DcsChannels.primary_channel_is_available ctx c = Ok true.
Proof.
  intros Hw Hi Hbw Hf Hin. unfold DcsChannels.primary_channel_is_available.
  assert (Dcs.calculate_new_prim_ch_center_freq ctx c = Ok (frequency_khz (ch c))) as ->.
  { unfold Dcs.calculate_new_prim_ch_center_freq. rewrite Hw, Hi, Hbw.
    cbn [Z.eqb Pos.eqb]. change (Z.quot (1 * 1000) 2) with 500.
    change (C.int_mul 0 1000) with (Ok 0 : result Z). cbn [mbind result_bind].
    unfold C.u32. rewrite (Z.mod_small (frequency_khz (ch c) - 500)) by lia.
    rewrite (Z.mod_small (frequency_khz (ch c) + 500)) by lia.
    replace (frequency_khz (ch c) - 500 + 0 + 500) with (frequency_khz (ch c)) by lia.
    rewrite Z.mod_small by lia.
    by rewrite (proj2 (Z.ltb_lt _ _)) by lia. }
  cbn [mbind result_bind]. f_equal. apply existsb_exists. exists c. split.
  - by apply list_elem_of_In.
  - rewrite Hw, Hbw. rewrite Z.eqb_refl. done.
Qed.

(** Start-up in test mode on a sample file of 1 MHz channels:
    [initialise_channels] succeeds when a row is on the initial S1G
    channel, and then [init_scan_list] puts every channel of the file
    in the scan list, in file order of first appearance; the current
    channel is the last entry on the initial S1G channel. *)
Theorem test_mode_start_up {A}
    (store : list DcsTest.channel_measurement_list_per_ch) (initial_chan : Z)
    (ctx : dcs A) :
  0 < initial_chan →
  (length store ≤ 255)%nat →
  current_channel ctx = None →
  Forall Terms.one_mhz store →
  Exists (Terms.on_channel initial_chan) store →
  ∃ ctx' k,
    DcsTestLoad.initialise_channels
      (DcsTestLoad.initialise_channels_for_test true true store initial_chan) ctx
      = Ok (0, ctx') ∧
    all_channels ctx' = Terms.test_channel <$> store ∧
    scan_list ctx' = seq 0 (length store) ∧
    current_channel ctx' = Some k ∧
    Terms.last_on_channel store initial_chan k.
Proof.
  intros Hinit Hlen Hcur Hone Hex.
  unfold DcsTestLoad.initialise_channels, DcsTestLoad.initialise_channels_for_test.
  cbn [negb andb]. rewrite (proj2 (Z.leb_gt _ _) Hinit).
  rewrite (proj2 (Z.ltb_ge _ _)).
  2:{ unfold C.u8. rewrite Z.mod_small; lia. }
  pose proof (test_channels_loop_chans store 0 initial_chan (current_channel ctx)) as Hchans.
  pose proof (test_channels_loop_current store 0 initial_chan (current_channel ctx)) as Hwhich.
  destruct (DcsTestLoad.test_channels_loop store 0 initial_chan (current_channel ctx))
    as [chans current'].
  cbn [fst snd] in Hchans, Hwhich. subst chans.
  destruct Hwhich as [[_ Hnone]|(k & -> & Hlast)].
  { exfalso. apply Exists_exists in Hex as (e & He & Hon).
    rewrite Forall_forall in Hnone. by apply (Hnone e). }
  cbn [mbind result_bind Z.eqb].
  set (ctx1 := DcsChannels.set_current_prim_1mhz_ch_index _ 0).
  destruct Hlast as [(e & Hk & Hon) Hlater].
  assert (Hcur1 : all_channels ctx1 !! k = Some (Terms.test_channel e)).
  { cbn. by rewrite list_lookup_fmap, Hk. }
  unfold DcsChannels.init_scan_list.
  change (current_channel ctx1) with (Some (0 + k)%nat). cbn [Nat.add].
  rewrite (deref_Some ctx1 k _ Hcur1). cbn [mbind result_bind].
  rewrite Forall_forall in Hone.
  assert (Hbw : bandwidth_mhz (ch (Terms.test_channel e)) = 1).
  { apply (Hone e). by eapply list_elem_of_lookup_2. }
  rewrite (init_scan_loop_all ctx1 _ (all_channels ctx1) 0 []).
  - cbn [mbind result_bind]. eexists _, k. split; [reflexivity|]. cbn.
    rewrite length_fmap. split_and!; try done. split; [by exists e|done].
  - apply Forall_forall. intros c Hc. change (all_channels ctx1) with
      (Terms.test_channel <$> store) in Hc.
    apply list_elem_of_fmap in Hc as (e' & -> & He').
    destruct (Hone e' He') as [Hbw' Hf']. split; [by rewrite Hbw|].
    apply one_mhz_primary_available; try done.
    change (all_channels ctx1) with (Terms.test_channel <$> store).
    by apply list_elem_of_fmap_2.
Qed.

Lemma test_mode_start_up_witness :
  ∃ ctx' k,
    DcsTestLoad.initialise_channels
      (DcsTestLoad.initialise_channels_for_test true true Scenarios.replay_store 3)
      Terms.blank_ctx = Ok (0, ctx') ∧
    all_channels ctx' = Terms.test_channel <$> Scenarios.replay_store ∧
    scan_list ctx' = seq 0 (length Scenarios.replay_store) ∧
    current_channel ctx' = Some k ∧
    Terms.last_on_channel Scenarios.replay_store 3 k.
Proof.
  apply (test_mode_start_up Scenarios.replay_store 3 Terms.blank_ctx).
  - lia.
  - cbn. lia.
  - reflexivity.
  - repeat constructor; cbn; lia.
  - apply Exists_cons_tl, Exists_cons_hd. reflexivity.
Defined.

(** Failed start-up in test mode: when the sample file cannot be
    opened, when it names no initial channel, or when no row is on the
    initial channel, [initialise_channels] returns 1 and not the
    negative error code of [initialise_channels_for_test], whose result
    it keeps in a [bool]; the context is left without a current
    channel. *)
Theorem test_mode_start_up_failure {A} (fopen_ok : bool)
    (store : list DcsTest.channel_measurement_list_per_ch) (initial_chan : Z)
    (ctx : dcs A) :
  (length store ≤ 255)%nat →
  current_channel ctx = None →
  fopen_ok = false ∨ initial_chan ≤ 0 ∨
    Forall (λ e, ¬ Terms.on_channel initial_chan e) store →
  ∃ r ctx',
    DcsTestLoad.initialise_channels_for_test fopen_ok true store initial_chan ctx
      = Ok (r, ctx') ∧
    r < 0 ∧
    DcsTestLoad.initialise_channels
      (DcsTestLoad.initialise_channels_for_test fopen_ok true store initial_chan) ctx
      = Ok (1, ctx') ∧
    current_channel ctx' = None.
Proof.
  intros Hlen Hcur Hbad.
  assert (Hone : ∀ r ctx',
    DcsTestLoad.initialise_channels_for_test fopen_ok true store initial_chan ctx
      = Ok (r, ctx') → r < 0 → current_channel ctx' = None →
    ∃ r ctx',
      DcsTestLoad.initialise_channels_for_test fopen_ok true store initial_chan ctx
        = Ok (r, ctx') ∧
      r < 0 ∧
      DcsTestLoad.initialise_channels
        (DcsTestLoad.initialise_channels_for_test fopen_ok true store initial_chan) ctx
        = Ok (1, ctx') ∧
      current_channel ctx' = None).
  { intros r ctx' Hrun Hr Hnone. exists r, ctx'. split_and!; try done.
    unfold DcsTestLoad.initialise_channels. rewrite Hrun. cbn [mbind result_bind].
    by rewrite (proj2 (Z.eqb_neq r 0)) by lia. }
  destruct fopen_ok.
  2:{ by apply (Hone (- DcsTestLoad.ENFILE) ctx). }
  destruct (Z.leb_spec initial_chan 0) as [Hle|Hgt].
  { apply (Hone (- ConfigHelpers.EINVAL) ctx); [|done|done].
    unfold DcsTestLoad.initialise_channels_for_test. cbn [negb].
    by rewrite (proj2 (Z.leb_le _ _) Hle). }
  destruct Hbad as [?|[?|Hnone]]; [done|lia|].
  pose proof (test_channels_loop_current store 0 initial_chan (current_channel ctx)) as Hwhich.
  cbn zeta in Hwhich.
  destruct Hwhich as [[Hsame _]|(k & _ & [(e & Hk & Hon) _])].
  2:{ exfalso. rewrite Forall_forall in Hnone. apply (Hnone e); [|done].
      by eapply list_elem_of_lookup_2. }
  destruct (DcsTestLoad.test_channels_loop store 0 initial_chan (current_channel ctx))
    as [chans current'] eqn:Hloop.
  cbn [snd] in Hsame. rewrite Hcur in Hsame. subst current'.
  apply (Hone (- ConfigHelpers.EINVAL)
           (DcsChannels.set_current_channel
              (set_scan_list (set_all_channels ctx chans) (seq 0 (length store))) None));
    [|done|done].
  unfold DcsTestLoad.initialise_channels_for_test.
  cbn [negb andb]. rewrite (proj2 (Z.leb_gt _ _) Hgt).
  rewrite (proj2 (Z.ltb_ge _ _)).
  2:{ unfold C.u8. rewrite Z.mod_small; lia. }
  by rewrite Hloop.
Qed.

Lemma test_mode_start_up_failure_witness :
  ∃ r ctx',
    DcsTestLoad.initialise_channels_for_test true true Scenarios.replay_store 7
      Terms.blank_ctx = Ok (r, ctx') ∧
    r < 0 ∧
    DcsTestLoad.initialise_channels
      (DcsTestLoad.initialise_channels_for_test true true Scenarios.replay_store 7)
      Terms.blank_ctx = Ok (1, ctx') ∧
    current_channel ctx' = None.
Proof.
  apply (test_mode_start_up_failure true Scenarios.replay_store 7 Terms.blank_ctx).
  - cbn. lia.
  - reflexivity.
  - right. right. repeat constructor; discriminate.
Defined.
